(** * Vortex Desk Peripherals: the display emulator and its transport

    A shallow embedding of [Application/vortex_gui_qt.py]: the string
    sanitizer [clean_string], [SerialLink.send_line], the 16x2 character
    display emulator [LcdState], the 32x8 dot matrix [MatrixState] and the
    three mutually exclusive feature toggles of [Backend].

    Conventions.
    - A Python [str] is the list of its code points ([list Z]); [ord] is the
      identity and a literal is written [py "..."].
    - A Python [float] is a binary64 primitive float; every value read from
      [time.time()] is an explicit argument ([now]) of the function that
      reads it.
    - Code that can raise runs in the monad [M]: a computation returns an
      outcome together with the state as mutated up to that point, which is
      what a Python [try: ... except Exception: pass] leaves behind. *)

From Stdlib Require Import ZArith List String Ascii Bool Lia Floats.
From Stdlib Require Import DecimalString DecimalPos DecimalFacts.
From stdpp Require Import base option list gmap.

Local Open Scope Z_scope.
Local Set Warnings "-inexact-float".

(** ** Python strings *)

Definition str : Type := list Z.

Definition ord_ascii (a : ascii) : Z := Z.of_N (N_of_ascii a).

Definition py (s : string) : str := map ord_ascii (list_ascii_of_string s).

Definition len {A : Type} (l : list A) : Z := Z.of_nat (length l).

(** [str.isspace] on one code point: the white space table of CPython's
    Unicode database ([_PyUnicode_IsWhitespace]). *)
Definition py_isspace (c : Z) : bool :=
  ((9 <=? c) && (c <=? 13)) || ((28 <=? c) && (c <=? 32))
  || (c =? 133) || (c =? 160) || (c =? 5760)
  || ((8192 <=? c) && (c <=? 8202))
  || (c =? 8232) || (c =? 8233) || (c =? 8239) || (c =? 8287) || (c =? 12288).

Fixpoint lstrip (s : str) : str :=
  match s with
  | c :: s' => if py_isspace c then lstrip s' else s
  | [] => []
  end.

Definition rstrip (s : str) : str := rev (lstrip (rev s)).

(** [s.strip()] *)
Definition strip (s : str) : str := rstrip (lstrip s).

(** [s.startswith(p)] *)
Fixpoint startswith (s p : str) {struct p} : bool :=
  match p, s with
  | [], _ => true
  | _ :: _, [] => false
  | a :: p', b :: s' => (a =? b) && startswith s' p'
  end.

(** [s.endswith(p)] *)
Definition endswith (s p : str) : bool := startswith (rev s) (rev p).

(** [s.find(c)] for a one-character needle: the first index, or [-1]. *)
Fixpoint find_from (i : Z) (s : str) (c : Z) : Z :=
  match s with
  | [] => -1
  | x :: s' => if x =? c then i else find_from (i + 1) s' c
  end.

Definition find (s : str) (c : Z) : Z := find_from 0 s c.

(** [c in s] for a one-character needle. *)
Definition contains (s : str) (c : Z) : bool := existsb (Z.eqb c) s.

(** Slice bounds as Python clamps them: a negative bound counts from the
    end, and both bounds are clipped to [0 .. len]. *)
Definition clamp_index (n i : Z) : Z :=
  if i <? 0 then Z.max 0 (n + i) else Z.min i n.

(** [s[lo:hi]], [s[lo:]] and [s[:hi]] *)
Definition slice {A : Type} (s : list A) (lo hi : Z) : list A :=
  let lo' := clamp_index (len s) lo in
  let hi' := clamp_index (len s) hi in
  take (Z.to_nat (hi' - lo')) (drop (Z.to_nat lo') s).

Definition slice_from {A : Type} (s : list A) (lo : Z) : list A :=
  drop (Z.to_nat (clamp_index (len s) lo)) s.

Definition slice_to {A : Type} (s : list A) (hi : Z) : list A :=
  take (Z.to_nat (clamp_index (len s) hi)) s.

(** [body.split(sep, 1)] when [sep in body]: the text before the first
    separator and the text after it. *)
Fixpoint split_once (s : str) (sep : Z) : str * str :=
  match s with
  | [] => ([], [])
  | x :: s' =>
      if x =? sep then ([], s')
      else let (a, b) := split_once s' sep in (x :: a, b)
  end.

(** [s.replace(c, '')] and [s.replace(c, d)] for single characters. *)
Definition remove_char (c : Z) (s : str) : str :=
  List.filter (fun x => negb (x =? c)) s.

Definition replace_char (c d : Z) (s : str) : str :=
  map (fun x => if x =? c then d else x) s.

(** [" " * n] *)
Definition spaces (n : Z) : str := replicate (Z.to_nat n) 32.

(** ** What the interpreter and the [unidecode] package supply

    Neither is code of this repository. [unidecode] is the transliteration
    function of the package of that name; [unicode_decimal] is the decimal
    digit value of a code point in the interpreter's Unicode database
    ([Py_UNICODE_TODECIMAL], consulted by [int()] for code points from 127
    on); [unicode_isdigit] is [str.isdigit] on a code point from 128 on;
    [int_max_str_digits] is the interpreter's limit on the number of
    digits in int/str conversions (0 when the limit is off or absent). *)
Record PyRuntime : Type := {
  unidecode : str -> str;
  unicode_decimal : Z -> option Z;
  unicode_isdigit : Z -> bool;
  int_max_str_digits : Z
}.

(** An interpreter for all-ASCII text: [unidecode] returns ASCII text as it
    is, and [int()] never consults the decimal table below code point 127.
    The limit is CPython's default. *)
Definition ascii_runtime : PyRuntime :=
  {| unidecode := fun s => s;
     unicode_decimal := fun _ => None;
     unicode_isdigit := fun _ => false;
     int_max_str_digits := 4300 |}.

(** ** Exceptions and mutable state *)

Inductive exn : Type := ValueError | IndexError.

Inductive outcome (A : Type) : Type :=
| Ok (a : A)
| Raised (e : exn).
Arguments Ok {A} a.
Arguments Raised {A} e.

(** A statement run on an object of type [S]: its outcome, and the object as
    it is when the statement returns or raises. *)
Definition M (S A : Type) : Type := S -> outcome A * S.

Definition ret {S A : Type} (a : A) : M S A := fun s => (Ok a, s).

Definition bind {S A B : Type} (m : M S A) (k : A -> M S B) : M S B :=
  fun s =>
    match m s with
    | (Ok a, s') => k a s'
    | (Raised e, s') => (Raised e, s')
    end.

Definition raise {S A : Type} (e : exn) : M S A := fun s => (Raised e, s).

Definition get {S : Type} : M S S := fun s => (Ok s, s).

Definition modify {S : Type} (f : S -> S) : M S unit := fun s => (Ok tt, f s).

(** A pure evaluation that may raise, inside a statement. *)
Definition lift {S A : Type} (o : outcome A) : M S A := fun s => (o, s).

(** [try: m except Exception: pass] *)
Definition try_pass {S : Type} (m : M S unit) : M S unit :=
  fun s => (Ok tt, snd (m s)).

Declare Scope py_scope.
Delimit Scope py_scope with py.
Notation "'let*' x := m 'in' k" := (bind m (fun x => k))
  (at level 10, x name, m at level 100, k at level 200) : py_scope.
Notation "m >> k" := (bind m (fun _ => k))
  (at level 62, right associativity) : py_scope.
Local Open Scope py_scope.

(** [for x in xs: body x] *)
Fixpoint for_each {S A : Type} (xs : list A) (body : A -> M S unit) : M S unit :=
  match xs with
  | [] => ret tt
  | x :: xs' => body x >> for_each xs' body
  end.

(** [range(n)] and [enumerate(xs)] *)
Definition range (n : nat) : list nat := seq 0 n.

Definition enumerate {A : Type} (xs : list A) : list (nat * A) :=
  combine (seq 0 (length xs)) xs.

(** A statement leaves an observation [obs] of the state as it was. *)
Definition preserves {S A X : Type} (obs : S -> X) (m : M S A) : Prop :=
  forall s, obs (snd (m s)) = obs s.

(** A statement returns: it never raises. *)
Definition returns {S A : Type} (m : M S A) : Prop :=
  forall s, exists a, fst (m s) = Ok a.

(** ** [int(s, base)] and [str(n)]

    CPython first maps the text to ASCII
    ([_PyUnicode_TransformDecimalAndSpaceToASCII]): a code point from 127 on
    becomes a blank when it is white space and an ASCII digit when it is a
    decimal digit, and makes the conversion fail otherwise. *)
Definition to_ascii_digit (rt : PyRuntime) (c : Z) : option Z :=
  if c <? 127 then Some c
  else if py_isspace c then Some 32
  else match unicode_decimal rt c with
       | Some d => Some (48 + d)
       | None => None
       end.

Fixpoint transform_decimal_and_space (rt : PyRuntime) (s : str) : option str :=
  match s with
  | [] => Some []
  | c :: s' =>
      match to_ascii_digit rt c, transform_decimal_and_space rt s' with
      | Some a, Some r => Some (a :: r)
      | _, _ => None
      end
  end.

(** [Py_ISSPACE]: the C locale's white space. *)
Definition c_isspace (c : Z) : bool := ((9 <=? c) && (c <=? 13)) || (c =? 32).

(** [_PyLong_DigitValue] *)
Definition digit_value (c : Z) : option Z :=
  if (48 <=? c) && (c <=? 57) then Some (c - 48)
  else if (97 <=? c) && (c <=? 122) then Some (c - 87)
  else if (65 <=? c) && (c <=? 90) then Some (c - 55)
  else None.

Fixpoint skip_spaces (s : str) : str :=
  match s with
  | c :: s' => if c_isspace c then skip_spaces s' else s
  | [] => []
  end.

(** The digit loop of [PyLong_FromString]: digits below [base] separated by
    single underscores. The result is the value, the number of digits and
    the text left over; [None] when two underscores meet or one ends the
    run. *)
Fixpoint scan_digits (base : Z) (prev_underscore : bool) (acc n : Z) (s : str)
  : option (Z * Z * str) :=
  let finish := if prev_underscore then None else Some (acc, n, s) in
  match s with
  | [] => finish
  | c :: s' =>
      if c =? 95 then
        if prev_underscore then None else scan_digits base true acc n s'
      else
        match digit_value c with
        | Some d =>
            if d <? base then scan_digits base false (acc * base + d) (n + 1) s'
            else finish
        | None => finish
        end
  end.

(** The limit applies to bases that are not a power of two, above CPython's
    threshold of 640 digits. *)
Definition over_digit_limit (rt : PyRuntime) (digits : Z) : bool :=
  (0 <? int_max_str_digits rt) && (int_max_str_digits rt <? digits)
  && (640 <? digits).

Definition py_int (rt : PyRuntime) (base : Z) (s : str) : outcome Z :=
  match transform_decimal_and_space rt s with
  | None => Raised ValueError
  | Some a =>
      let a1 := skip_spaces a in
      let '(negative, a2) :=
        match a1 with
        | 43 :: r => (false, r)
        | 45 :: r => (true, r)
        | _ => (false, a1)
        end in
      let a3 :=
        if base =? 16 then
          match a2 with
          | 48 :: x :: r =>
              if (x =? 120) || (x =? 88)
              then match r with 95 :: r' => r' | _ => r end
              else a2
          | _ => a2
          end
        else a2 in
      match a3 with
      | 95 :: _ => Raised ValueError
      | _ =>
          match scan_digits base false 0 0 a3 with
          | None => Raised ValueError
          | Some (v, n, rest) =>
              if n =? 0 then Raised ValueError
              else if negb (base =? 16) && over_digit_limit rt n
              then Raised ValueError
              else
                match skip_spaces rest with
                | [] => Ok (if negative then - v else v)
                | _ :: _ => Raised ValueError
                end
          end
      end
  end.

(** The decimal text of an int, as [str(n)] and an f-string field give it. *)
Definition decimal (n : Z) : str := py (NilZero.string_of_int (Z.to_int n)).

Definition count_digits (n : Z) : Z :=
  if n <? 0 then len (decimal n) - 1 else len (decimal n).

Definition py_str_int (rt : PyRuntime) (n : Z) : outcome str :=
  if over_digit_limit rt (count_digits n) then Raised ValueError
  else Ok (decimal n).

(** ** Serial *)

(**
<<
def clean_string(text):
    if not isinstance(text, str):
        text = str(text)
    text = text.replace('\x00', '').replace('\r', '').replace('\n', ' ')
    return ''.join(c for c in unidecode(text) if 32 <= ord(c) <= 126).strip()
>> *)
Definition printable (c : Z) : bool := (32 <=? c) && (c <=? 126).

Definition clean_string (rt : PyRuntime) (text : str) : str :=
  let text := replace_char 10 32 (remove_char 13 (remove_char 0 text)) in
  strip (List.filter printable (unidecode rt text)).

(** The open device behind [self.ser]: whether it is open, and the byte
    strings handed to [write] that reached it, oldest first. *)
Record Port : Type := {
  port_open : bool;
  wire : list (list Z)
}.

Record SerialLink : Type := {
  ser : option Port;
  last_tx : float
}.

(** What the device answers during one [send_line]: whether [write] and
    [flush] return (rather than raise), and the clock read for [last_tx]. *)
Record SerialIo : Type := {
  write_ok : bool;
  flush_ok : bool;
  tx_time : float
}.

(** [bool(self.ser and self.ser.is_open)] *)
Definition is_open (l : SerialLink) : bool :=
  match ser l with
  | Some p => port_open p
  | None => false
  end.

(** [s.encode("ascii", errors="ignore")] *)
Definition encode_ascii_ignore (s : str) : list Z :=
  List.filter (fun c => c <? 128) s.

(** The text [send_line] builds from its argument before it writes. *)
Definition send_line_text (rt : PyRuntime) (line : str) : str :=
  let s := clean_string rt line in
  if endswith s [10] then s else s ++ [10].

(** [SerialLink.send_line]: the link afterwards and the returned flag. *)
Definition send_line (rt : PyRuntime) (io : SerialIo) (l : SerialLink) (line : str)
  : SerialLink * bool :=
  match ser l with
  | Some p =>
      if port_open p then
        let s := send_line_text rt line in
        let is_vu := startswith s (py "V:") || startswith s (py "CH:") in
        if write_ok io then
          let p' := {| port_open := port_open p;
                       wire := wire p ++ [encode_ascii_ignore s] |} in
          if is_vu || flush_ok io
          then ({| ser := Some p'; last_tx := tx_time io |}, true)
          else ({| ser := Some p'; last_tx := last_tx l |}, false)
        else (l, false)
      else (l, false)
  | None => (l, false)
  end.

(** ** The 16x2 display *)

(**
<<
def pad16(s: str) -> str:
    s = s or ""
    if len(s) > 16:
        s = s[:16]
    return s + (" " * (16 - len(s)))
>> *)
Definition pad16 (s : str) : str :=
  let s := if 16 <? len s then slice_to s 16 else s in
  s ++ spaces (16 - len s).

(** Python indexing [l[i]]: a negative index counts from the end, and an
    index outside the list raises. *)
Definition item {A : Type} (l : list A) (i : Z) : outcome A :=
  let j := if i <? 0 then len l + i else i in
  if j <? 0 then Raised IndexError
  else match l !! Z.to_nat j with
       | Some x => Ok x
       | None => Raised IndexError
       end.

(** A list comprehension whose element expression may raise. *)
Fixpoint collect {A B : Type} (f : A -> outcome B) (xs : list A) : outcome (list B) :=
  match xs with
  | [] => Ok []
  | x :: xs' =>
      match f x with
      | Raised e => Raised e
      | Ok y =>
          match collect f xs' with
          | Raised e => Raised e
          | Ok ys => Ok (y :: ys)
          end
      end
  end.

Definition _VISIT_BAR_CHARS : list (list Z) :=
  [ [0;0;0;0;0;0;0;0];
    [0;0;0;0;0;0;0;31];
    [0;0;0;0;0;0;31;31];
    [0;0;0;0;0;31;31;31];
    [0;0;0;0;31;31;31;31];
    [0;0;0;31;31;31;31;31];
    [0;0;31;31;31;31;31;31];
    [0;31;31;31;31;31;31;31] ].

(** The dict literals, as their items in source order. *)
Definition _MUSIC_ICONS : list (Z * list Z) :=
  [ (0, [0; 7; 13; 9; 11; 27; 24; 0]);
    (1, [0; 8; 12; 14; 14; 12; 8; 0]);
    (2, [0; 1; 5; 21; 21; 21; 0; 0]);
    (3, [0; 2; 6; 30; 30; 6; 2; 0]) ].

Definition _SYSTEM_ICONS : list (Z * list Z) :=
  [ (0, [0; 10; 31; 14; 31; 10; 0; 0]);
    (1, [0; 31; 31; 31; 4; 14; 0; 0]);
    (2, [0; 0; 31; 31; 31; 21; 0; 0]) ].

Module Lcd.

Inductive LcdMode : Type := VISIT | MUSIC | CLOCK | TEXT | SYSTEM | SCREEN.

Record LcdState : Type := {
  mode : LcdMode;
  ddram : list (list Z);
  cgram : gmap Z (list Z);
  visit_anim_active : bool;
  box_step : Z;
  last_anim : float;
  anim_interval : float;
  scroll_top : str;
  scroll_bottom : str;
  scroll_i_top : Z;
  scroll_i_bottom : Z;
  last_scroll : float;
  scroll_interval : float;
  volume_overlay : bool;
  _vol_until : float;
  last_visit_astro : Z;
  last_visit_core : Z
}.

Definition set_mode (v : LcdMode) (st : LcdState) : LcdState :=
  {| mode := v; ddram := ddram st; cgram := cgram st; visit_anim_active :=
     visit_anim_active st; box_step := box_step st; last_anim := last_anim
     st; anim_interval := anim_interval st; scroll_top := scroll_top st;
     scroll_bottom := scroll_bottom st; scroll_i_top := scroll_i_top st;
     scroll_i_bottom := scroll_i_bottom st; last_scroll := last_scroll st;
     scroll_interval := scroll_interval st; volume_overlay := volume_overlay
     st; _vol_until := _vol_until st; last_visit_astro := last_visit_astro
     st; last_visit_core := last_visit_core st |}.

Definition set_ddram (v : list (list Z)) (st : LcdState) : LcdState :=
  {| mode := mode st; ddram := v; cgram := cgram st; visit_anim_active :=
     visit_anim_active st; box_step := box_step st; last_anim := last_anim
     st; anim_interval := anim_interval st; scroll_top := scroll_top st;
     scroll_bottom := scroll_bottom st; scroll_i_top := scroll_i_top st;
     scroll_i_bottom := scroll_i_bottom st; last_scroll := last_scroll st;
     scroll_interval := scroll_interval st; volume_overlay := volume_overlay
     st; _vol_until := _vol_until st; last_visit_astro := last_visit_astro
     st; last_visit_core := last_visit_core st |}.

Definition set_cgram (v : gmap Z (list Z)) (st : LcdState) : LcdState :=
  {| mode := mode st; ddram := ddram st; cgram := v; visit_anim_active :=
     visit_anim_active st; box_step := box_step st; last_anim := last_anim
     st; anim_interval := anim_interval st; scroll_top := scroll_top st;
     scroll_bottom := scroll_bottom st; scroll_i_top := scroll_i_top st;
     scroll_i_bottom := scroll_i_bottom st; last_scroll := last_scroll st;
     scroll_interval := scroll_interval st; volume_overlay := volume_overlay
     st; _vol_until := _vol_until st; last_visit_astro := last_visit_astro
     st; last_visit_core := last_visit_core st |}.

Definition set_visit_anim_active (v : bool) (st : LcdState) : LcdState :=
  {| mode := mode st; ddram := ddram st; cgram := cgram st;
     visit_anim_active := v; box_step := box_step st; last_anim := last_anim
     st; anim_interval := anim_interval st; scroll_top := scroll_top st;
     scroll_bottom := scroll_bottom st; scroll_i_top := scroll_i_top st;
     scroll_i_bottom := scroll_i_bottom st; last_scroll := last_scroll st;
     scroll_interval := scroll_interval st; volume_overlay := volume_overlay
     st; _vol_until := _vol_until st; last_visit_astro := last_visit_astro
     st; last_visit_core := last_visit_core st |}.

Definition set_box_step (v : Z) (st : LcdState) : LcdState :=
  {| mode := mode st; ddram := ddram st; cgram := cgram st;
     visit_anim_active := visit_anim_active st; box_step := v; last_anim :=
     last_anim st; anim_interval := anim_interval st; scroll_top :=
     scroll_top st; scroll_bottom := scroll_bottom st; scroll_i_top :=
     scroll_i_top st; scroll_i_bottom := scroll_i_bottom st; last_scroll :=
     last_scroll st; scroll_interval := scroll_interval st; volume_overlay
     := volume_overlay st; _vol_until := _vol_until st; last_visit_astro :=
     last_visit_astro st; last_visit_core := last_visit_core st |}.

Definition set_last_anim (v : float) (st : LcdState) : LcdState :=
  {| mode := mode st; ddram := ddram st; cgram := cgram st;
     visit_anim_active := visit_anim_active st; box_step := box_step st;
     last_anim := v; anim_interval := anim_interval st; scroll_top :=
     scroll_top st; scroll_bottom := scroll_bottom st; scroll_i_top :=
     scroll_i_top st; scroll_i_bottom := scroll_i_bottom st; last_scroll :=
     last_scroll st; scroll_interval := scroll_interval st; volume_overlay
     := volume_overlay st; _vol_until := _vol_until st; last_visit_astro :=
     last_visit_astro st; last_visit_core := last_visit_core st |}.

Definition set_anim_interval (v : float) (st : LcdState) : LcdState :=
  {| mode := mode st; ddram := ddram st; cgram := cgram st;
     visit_anim_active := visit_anim_active st; box_step := box_step st;
     last_anim := last_anim st; anim_interval := v; scroll_top := scroll_top
     st; scroll_bottom := scroll_bottom st; scroll_i_top := scroll_i_top st;
     scroll_i_bottom := scroll_i_bottom st; last_scroll := last_scroll st;
     scroll_interval := scroll_interval st; volume_overlay := volume_overlay
     st; _vol_until := _vol_until st; last_visit_astro := last_visit_astro
     st; last_visit_core := last_visit_core st |}.

Definition set_scroll_top (v : str) (st : LcdState) : LcdState :=
  {| mode := mode st; ddram := ddram st; cgram := cgram st;
     visit_anim_active := visit_anim_active st; box_step := box_step st;
     last_anim := last_anim st; anim_interval := anim_interval st;
     scroll_top := v; scroll_bottom := scroll_bottom st; scroll_i_top :=
     scroll_i_top st; scroll_i_bottom := scroll_i_bottom st; last_scroll :=
     last_scroll st; scroll_interval := scroll_interval st; volume_overlay
     := volume_overlay st; _vol_until := _vol_until st; last_visit_astro :=
     last_visit_astro st; last_visit_core := last_visit_core st |}.

Definition set_scroll_bottom (v : str) (st : LcdState) : LcdState :=
  {| mode := mode st; ddram := ddram st; cgram := cgram st;
     visit_anim_active := visit_anim_active st; box_step := box_step st;
     last_anim := last_anim st; anim_interval := anim_interval st;
     scroll_top := scroll_top st; scroll_bottom := v; scroll_i_top :=
     scroll_i_top st; scroll_i_bottom := scroll_i_bottom st; last_scroll :=
     last_scroll st; scroll_interval := scroll_interval st; volume_overlay
     := volume_overlay st; _vol_until := _vol_until st; last_visit_astro :=
     last_visit_astro st; last_visit_core := last_visit_core st |}.

Definition set_scroll_i_top (v : Z) (st : LcdState) : LcdState :=
  {| mode := mode st; ddram := ddram st; cgram := cgram st;
     visit_anim_active := visit_anim_active st; box_step := box_step st;
     last_anim := last_anim st; anim_interval := anim_interval st;
     scroll_top := scroll_top st; scroll_bottom := scroll_bottom st;
     scroll_i_top := v; scroll_i_bottom := scroll_i_bottom st; last_scroll
     := last_scroll st; scroll_interval := scroll_interval st;
     volume_overlay := volume_overlay st; _vol_until := _vol_until st;
     last_visit_astro := last_visit_astro st; last_visit_core :=
     last_visit_core st |}.

Definition set_scroll_i_bottom (v : Z) (st : LcdState) : LcdState :=
  {| mode := mode st; ddram := ddram st; cgram := cgram st;
     visit_anim_active := visit_anim_active st; box_step := box_step st;
     last_anim := last_anim st; anim_interval := anim_interval st;
     scroll_top := scroll_top st; scroll_bottom := scroll_bottom st;
     scroll_i_top := scroll_i_top st; scroll_i_bottom := v; last_scroll :=
     last_scroll st; scroll_interval := scroll_interval st; volume_overlay
     := volume_overlay st; _vol_until := _vol_until st; last_visit_astro :=
     last_visit_astro st; last_visit_core := last_visit_core st |}.

Definition set_last_scroll (v : float) (st : LcdState) : LcdState :=
  {| mode := mode st; ddram := ddram st; cgram := cgram st;
     visit_anim_active := visit_anim_active st; box_step := box_step st;
     last_anim := last_anim st; anim_interval := anim_interval st;
     scroll_top := scroll_top st; scroll_bottom := scroll_bottom st;
     scroll_i_top := scroll_i_top st; scroll_i_bottom := scroll_i_bottom st;
     last_scroll := v; scroll_interval := scroll_interval st; volume_overlay
     := volume_overlay st; _vol_until := _vol_until st; last_visit_astro :=
     last_visit_astro st; last_visit_core := last_visit_core st |}.

Definition set_scroll_interval (v : float) (st : LcdState) : LcdState :=
  {| mode := mode st; ddram := ddram st; cgram := cgram st;
     visit_anim_active := visit_anim_active st; box_step := box_step st;
     last_anim := last_anim st; anim_interval := anim_interval st;
     scroll_top := scroll_top st; scroll_bottom := scroll_bottom st;
     scroll_i_top := scroll_i_top st; scroll_i_bottom := scroll_i_bottom st;
     last_scroll := last_scroll st; scroll_interval := v; volume_overlay :=
     volume_overlay st; _vol_until := _vol_until st; last_visit_astro :=
     last_visit_astro st; last_visit_core := last_visit_core st |}.

Definition set_volume_overlay (v : bool) (st : LcdState) : LcdState :=
  {| mode := mode st; ddram := ddram st; cgram := cgram st;
     visit_anim_active := visit_anim_active st; box_step := box_step st;
     last_anim := last_anim st; anim_interval := anim_interval st;
     scroll_top := scroll_top st; scroll_bottom := scroll_bottom st;
     scroll_i_top := scroll_i_top st; scroll_i_bottom := scroll_i_bottom st;
     last_scroll := last_scroll st; scroll_interval := scroll_interval st;
     volume_overlay := v; _vol_until := _vol_until st; last_visit_astro :=
     last_visit_astro st; last_visit_core := last_visit_core st |}.

Definition set_vol_until (v : float) (st : LcdState) : LcdState :=
  {| mode := mode st; ddram := ddram st; cgram := cgram st;
     visit_anim_active := visit_anim_active st; box_step := box_step st;
     last_anim := last_anim st; anim_interval := anim_interval st;
     scroll_top := scroll_top st; scroll_bottom := scroll_bottom st;
     scroll_i_top := scroll_i_top st; scroll_i_bottom := scroll_i_bottom st;
     last_scroll := last_scroll st; scroll_interval := scroll_interval st;
     volume_overlay := volume_overlay st; _vol_until := v; last_visit_astro
     := last_visit_astro st; last_visit_core := last_visit_core st |}.

Definition set_last_visit_astro (v : Z) (st : LcdState) : LcdState :=
  {| mode := mode st; ddram := ddram st; cgram := cgram st;
     visit_anim_active := visit_anim_active st; box_step := box_step st;
     last_anim := last_anim st; anim_interval := anim_interval st;
     scroll_top := scroll_top st; scroll_bottom := scroll_bottom st;
     scroll_i_top := scroll_i_top st; scroll_i_bottom := scroll_i_bottom st;
     last_scroll := last_scroll st; scroll_interval := scroll_interval st;
     volume_overlay := volume_overlay st; _vol_until := _vol_until st;
     last_visit_astro := v; last_visit_core := last_visit_core st |}.

Definition set_last_visit_core (v : Z) (st : LcdState) : LcdState :=
  {| mode := mode st; ddram := ddram st; cgram := cgram st;
     visit_anim_active := visit_anim_active st; box_step := box_step st;
     last_anim := last_anim st; anim_interval := anim_interval st;
     scroll_top := scroll_top st; scroll_bottom := scroll_bottom st;
     scroll_i_top := scroll_i_top st; scroll_i_bottom := scroll_i_bottom st;
     last_scroll := last_scroll st; scroll_interval := scroll_interval st;
     volume_overlay := volume_overlay st; _vol_until := _vol_until st;
     last_visit_astro := last_visit_astro st; last_visit_core := v |}.

(** The two names [scroll_text_line_icon] is given for its cursor. *)
Inductive idx_attr : Type := scroll_i_top_attr | scroll_i_bottom_attr.

Definition getattr (st : LcdState) (a : idx_attr) : Z :=
  match a with
  | scroll_i_top_attr => scroll_i_top st
  | scroll_i_bottom_attr => scroll_i_bottom st
  end.

Definition setattr (a : idx_attr) (v : Z) : M LcdState unit :=
  match a with
  | scroll_i_top_attr => modify (set_scroll_i_top v)
  | scroll_i_bottom_attr => modify (set_scroll_i_bottom v)
  end.

Definition blank_ddram : list (list Z) := [replicate 16 32; replicate 16 32].

(** [{i: _VISIT_BAR_CHARS[i][:] for i in range(8)}] *)
Definition visit_cgram : gmap Z (list Z) :=
  foldl (fun m i => <[Z.of_nat i := nth i _VISIT_BAR_CHARS []]> m) ∅ (range 8).

(** [for i in range(8): self.cgram[i] = [0]*8], then
    [for k, v in icons.items(): self.cgram[k] = v[:]] *)
Definition load_icons (icons : list (Z * list Z)) (cg : gmap Z (list Z))
  : gmap Z (list Z) :=
  let zeroed :=
    foldl (fun m i => <[Z.of_nat i := replicate 8 0]> m) cg (range 8) in
  foldl (fun m kv => <[fst kv := snd kv]> m) zeroed icons.

(** [LcdState.__init__] *)
Definition init : LcdState :=
  {| mode := VISIT;
     ddram := blank_ddram;
     cgram := visit_cgram;
     visit_anim_active := false;
     box_step := 0;
     last_anim := 0%float;
     anim_interval := 0.9%float;
     scroll_top := [];
     scroll_bottom := [];
     scroll_i_top := 0;
     scroll_i_bottom := 0;
     last_scroll := 0%float;
     scroll_interval := 0.75%float;
     volume_overlay := false;
     _vol_until := 0%float;
     last_visit_astro := 0;
     last_visit_core := 0 |}.

(** [self.ddram[row][col] = v] *)
Definition ddram_set (row col : nat) (v : Z) : M LcdState unit :=
  fun st =>
    match ddram st !! row with
    | Some r =>
        if (col <? length r)%nat
        then (Ok tt, set_ddram (<[row := <[col := v]> r]> (ddram st)) st)
        else (Raised IndexError, st)
    | None => (Raised IndexError, st)
    end.

Definition clear : M LcdState unit := modify (set_ddram blank_ddram).

(**
<<
def write_line(self, row: int, text16: str):
    text16 = pad16(text16)
    for i, ch in enumerate(text16[:16]):
        self.ddram[row][i] = ord(ch)
>> *)
Definition write_line (row : nat) (text16 : str) : M LcdState unit :=
  let text16 := pad16 text16 in
  for_each (enumerate (slice_to text16 16)) (fun ich => ddram_set row (fst ich) (snd ich)).

(**
<<
def write_icon_prefix_line(self, row: int, icon_index: int, text: str):
    t = (text or "")
    if len(t) > 14:
        t = t[:14]
    t = t + (" " * (14 - len(t)))
    self.ddram[row][0] = int(icon_index) & 0xFF
    self.ddram[row][1] = ord(" ")
    for i in range(14):
        self.ddram[row][i+2] = ord(t[i])
>> *)
Definition write_icon_prefix_line (row : nat) (icon_index : Z) (text : str)
  : M LcdState unit :=
  let t := text in
  let t := if 14 <? len t then slice_to t 14 else t in
  let t := t ++ spaces (14 - len t) in
  ddram_set row 0 (Z.land icon_index 255) >>
  ddram_set row 1 32 >>
  for_each (range 14) (fun i =>
    let* c := lift (item t (Z.of_nat i)) in
    ddram_set row (i + 2) c).

(**
<<
def draw_visit_header_counts(self, astro: int, core: int):
    self.last_visit_astro = int(astro)
    self.last_visit_core = int(core)
    top = pad16("Live Visit Count")
    bottom15 = f"ARI:{astro} CC:{core}"
    if len(bottom15) > 15:
        bottom15 = bottom15[:15]
    bottom15 = bottom15 + (" " * (15 - len(bottom15)))
    self.write_line(0, top)
    for i, ch in enumerate(bottom15):
        self.ddram[1][i] = ord(ch)
    self.ddram[1][15] = self.box_step
>> *)
Definition draw_visit_header_counts (rt : PyRuntime) (astro core : Z)
  : M LcdState unit :=
  modify (set_last_visit_astro astro) >>
  modify (set_last_visit_core core) >>
  let top := pad16 (py "Live Visit Count") in
  let* a := lift (py_str_int rt astro) in
  let* c := lift (py_str_int rt core) in
  let bottom15 := py "ARI:" ++ a ++ py " CC:" ++ c in
  let bottom15 := if 15 <? len bottom15 then slice_to bottom15 15 else bottom15 in
  let bottom15 := bottom15 ++ spaces (15 - len bottom15) in
  write_line 0 top >>
  for_each (enumerate bottom15) (fun ich => ddram_set 1 (fst ich) (snd ich)) >>
  let* st := get in
  ddram_set 1 15 (box_step st).

Definition enter_visit (rt : PyRuntime) : M LcdState unit :=
  modify (set_mode VISIT) >>
  clear >>
  modify (set_cgram visit_cgram) >>
  modify (set_visit_anim_active false) >>
  modify (set_box_step 0) >>
  draw_visit_header_counts rt 0 0.

Definition enter_music : M LcdState unit :=
  modify (set_mode MUSIC) >>
  clear >>
  modify (fun st => set_cgram (load_icons _MUSIC_ICONS (cgram st)) st) >>
  write_icon_prefix_line 0 0 (py "Music Mode") >>
  write_icon_prefix_line 1 1 (py "Loading...").

Definition enter_clock : M LcdState unit :=
  modify (set_mode CLOCK) >>
  clear >>
  write_line 0 (pad16 (py "Clock Mode")) >>
  write_line 1 (pad16 (py "Loading...")).

Definition enter_text : M LcdState unit :=
  modify (set_mode TEXT) >>
  clear >>
  write_line 0 (pad16 (py "Text Mode")) >>
  write_line 1 (pad16 (py "Loading...")).

Definition enter_system : M LcdState unit :=
  modify (set_mode SYSTEM) >>
  clear >>
  modify (fun st => set_cgram (load_icons _SYSTEM_ICONS (cgram st)) st) >>
  write_icon_prefix_line 0 0 (py "System Mode") >>
  write_icon_prefix_line 1 2 (py "Loading...").

Definition enter_screen : M LcdState unit :=
  modify (set_mode SCREEN) >>
  clear >>
  write_line 0 (pad16 (py "Screen Mirror")) >>
  write_line 1 (pad16 (py "Running")).

(**
<<
def set_mode_by_num(self, m: int):
    if m == 1: self.enter_visit()
    elif m == 3: self.enter_music()
    elif m == 4: self.enter_clock()
    elif m == 5: self.enter_text()
    elif m == 7: self.enter_system()
    elif m == 8: self.enter_screen()
>> *)
Definition set_mode_by_num (rt : PyRuntime) (m : Z) : M LcdState unit :=
  if m =? 1 then enter_visit rt
  else if m =? 3 then enter_music
  else if m =? 4 then enter_clock
  else if m =? 5 then enter_text
  else if m =? 7 then enter_system
  else if m =? 8 then enter_screen
  else ret tt.

(**
<<
def scroll_text_line_icon(self, row: int, text: str, idx_attr: str, icon_index: int):
    avail = 14
    text = text or ""
    idx = getattr(self, idx_attr)
    if len(text) <= avail:
        self.write_icon_prefix_line(row, icon_index, text)
        setattr(self, idx_attr, 0)
        return
    buf = text + "    "
    pos = idx % len(buf)
    seg = "".join(buf[(pos+i) % len(buf)] for i in range(avail))
    self.write_icon_prefix_line(row, icon_index, seg)
    setattr(self, idx_attr, idx + 1)
>> *)
Definition scroll_text_line_icon (row : nat) (text : str) (a : idx_attr)
  (icon_index : Z) : M LcdState unit :=
  let avail := 14%nat in
  let* st := get in
  let idx := getattr st a in
  if len text <=? Z.of_nat avail then
    write_icon_prefix_line row icon_index text >>
    setattr a 0
  else
    let buf := text ++ py "    " in
    let pos := idx mod len buf in
    let* seg :=
      lift (collect (fun i => item buf ((pos + Z.of_nat i) mod len buf))
                    (range avail)) in
    write_icon_prefix_line row icon_index seg >>
    setattr a (idx + 1).

(** [x or default] on strings *)
Definition or_else (x default : str) : str :=
  match x with [] => default | _ :: _ => x end.

(** [LcdState.handle_cmd]; [now] is the value of [time.time()] in the
    branches that read the clock. *)
Definition handle_cmd (rt : PyRuntime) (now : float) (cmd : str)
  : M LcdState unit :=
  let cmd := strip cmd in
  if startswith cmd (py "MODE:") then
    try_pass (
      let* m := lift (py_int rt 10 (slice_from cmd 5)) in
      set_mode_by_num rt m)
  else if startswith cmd (py "LIVE:") then
    try_pass (
      let comma := find cmd 44 in
      let* astro := lift (py_int rt 10 (slice cmd 5 comma)) in
      let* core := lift (py_int rt 10 (slice_from cmd (comma + 1))) in
      let* st := get in
      match mode st with
      | VISIT =>
          draw_visit_header_counts rt astro core >>
          modify (set_box_step 0) >>
          modify (set_visit_anim_active true) >>
          modify (set_last_anim now) >>
          let* st := get in
          ddram_set 1 15 (box_step st)
      | _ => ret tt
      end)
  else if startswith cmd (py "CLOCK:") then
    try_pass (
      let body := slice_from cmd 6 in
      let '(top, bottom) :=
        if contains body 124 then split_once body 124 else (body, []) in
      let top := pad16 (clean_string rt top) in
      let bottom := pad16 (clean_string rt bottom) in
      let* st := get in
      match mode st with
      | CLOCK => write_line 0 top >> write_line 1 bottom
      | _ => ret tt
      end)
  else if startswith cmd (py "MUSIC:") then
    try_pass (
      let body := slice_from cmd 6 in
      let '(top, bottom) :=
        if contains body 124 then split_once body 124 else (body, []) in
      let top := or_else (clean_string rt top) (py "Unknown Title") in
      let bottom := or_else (clean_string rt bottom) (py "Unknown Artist") in
      modify (set_scroll_top top) >>
      modify (set_scroll_bottom bottom) >>
      modify (set_scroll_i_top 0) >>
      modify (set_scroll_i_bottom 0) >>
      modify (set_last_scroll now) >>
      let* st := get in
      match mode st, volume_overlay st with
      | MUSIC, false =>
          write_icon_prefix_line 0 0 (slice_to (scroll_top st) 15) >>
          write_icon_prefix_line 1 1 (slice_to (scroll_bottom st) 15)
      | _, _ => ret tt
      end)
  else if startswith cmd (py "TEXT:") then
    try_pass (
      let txt := clean_string rt (slice_from cmd 5) in
      let* st := get in
      match mode st with
      | TEXT =>
          let top := pad16 (slice_to txt 16) in
          let bottom :=
            if 16 <? len txt then pad16 (slice txt 16 32) else pad16 [] in
          write_line 0 top >> write_line 1 bottom
      | _ => ret tt
      end)
  else if startswith cmd (py "VOL:") then
    try_pass (
      let body := slice_from cmd 4 in
      let '(pct_s, dev) :=
        if contains body 124 then split_once body 124
        else (strip body, []) in
      let pct_s := clean_string rt pct_s in
      let dev := clean_string rt dev in
      modify (fun st => set_cgram (load_icons _MUSIC_ICONS (cgram st)) st) >>
      modify (set_volume_overlay true) >>
      modify (set_vol_until (now + 1.5)%float) >>
      let line0 := py "Volume: " ++ pct_s in
      let line1 := dev in
      write_icon_prefix_line 0 2 line0 >>
      write_icon_prefix_line 1 3 line1)
  else ret tt.

(** The truth value of a float: it is not zero. *)
Definition float_truthy (x : float) : bool := negb (PrimFloat.eqb x 0%float).

(** [LcdState.tick] is three [if] blocks in a row, each reading the state
    the one before left; [now] is the one reading of [time.time()] at the
    top.
<<
if self.volume_overlay and self._vol_until and now >= self._vol_until:
    self.volume_overlay = False
    if self.mode == "VISIT":
        self.cgram = {i: _VISIT_BAR_CHARS[i][:] for i in range(8)}
        self.draw_visit_header_counts(self.last_visit_astro, self.last_visit_core)
        self.ddram[1][15] = self.box_step
    elif self.mode == "MUSIC":
        for i in range(8):
            self.cgram[i] = [0]*8
        for k, v in _MUSIC_ICONS.items():
            self.cgram[k] = v[:]
        self.write_icon_prefix_line(0, 0, self.scroll_top[:14])
        self.write_icon_prefix_line(1, 1, self.scroll_bottom[:14])
        self.last_scroll = now
    elif self.mode == "SYSTEM":
        for i in range(8):
            self.cgram[i] = [0]*8
        for k, v in _SYSTEM_ICONS.items():
            self.cgram[k] = v[:]
>> *)
Definition tick_overlay (rt : PyRuntime) (now : float) : M LcdState unit :=
  let* st := get in
  if volume_overlay st && float_truthy (_vol_until st)
     && PrimFloat.leb (_vol_until st) now
  then
    modify (set_volume_overlay false) >>
    match mode st with
    | VISIT =>
        modify (set_cgram visit_cgram) >>
        (let* st := get in
         draw_visit_header_counts rt (last_visit_astro st) (last_visit_core st)) >>
        let* st := get in
        ddram_set 1 15 (box_step st)
    | MUSIC =>
        modify (fun st => set_cgram (load_icons _MUSIC_ICONS (cgram st)) st) >>
        (let* st := get in
         write_icon_prefix_line 0 0 (slice_to (scroll_top st) 14)) >>
        (let* st := get in
         write_icon_prefix_line 1 1 (slice_to (scroll_bottom st) 14)) >>
        modify (set_last_scroll now)
    | SYSTEM =>
        modify (fun st => set_cgram (load_icons _SYSTEM_ICONS (cgram st)) st)
    | _ => ret tt
    end
  else ret tt.

(**
<<
if self.mode == "VISIT" and self.visit_anim_active:
    if (now - self.last_anim) >= self.anim_interval:
        self.ddram[1][15] = self.box_step
        if self.box_step < 7:
            self.box_step += 1
            self.last_anim = now
        else:
            self.visit_anim_active = False
>> *)
Definition tick_visit_anim (now : float) : M LcdState unit :=
  let* st := get in
  match mode st, visit_anim_active st with
  | VISIT, true =>
      if PrimFloat.leb (anim_interval st) (now - last_anim st)%float then
        ddram_set 1 15 (box_step st) >>
        if box_step st <? 7 then
          modify (set_box_step (box_step st + 1)) >>
          modify (set_last_anim now)
        else modify (set_visit_anim_active false)
      else ret tt
  | _, _ => ret tt
  end.

(**
<<
if self.mode == "MUSIC" and not self.volume_overlay:
    if (now - self.last_scroll) >= self.scroll_interval:
        self.scroll_text_line_icon(0, self.scroll_top, "scroll_i_top", 0)
        self.scroll_text_line_icon(1, self.scroll_bottom, "scroll_i_bottom", 1)
        self.last_scroll = now
>> *)
Definition tick_music_scroll (now : float) : M LcdState unit :=
  let* st := get in
  match mode st, volume_overlay st with
  | MUSIC, false =>
      if PrimFloat.leb (scroll_interval st) (now - last_scroll st)%float then
        scroll_text_line_icon 0 (scroll_top st) scroll_i_top_attr 0 >>
        (let* st := get in
         scroll_text_line_icon 1 (scroll_bottom st) scroll_i_bottom_attr 1) >>
        modify (set_last_scroll now)
      else ret tt
  | _, _ => ret tt
  end.

Definition tick (rt : PyRuntime) (now : float) : M LcdState unit :=
  tick_overlay rt now >> tick_visit_anim now >> tick_music_scroll now.

(** *** Vocabulary for the properties of the display *)

(** The display memory has its two rows of sixteen cells. *)
Definition wf_ddram (d : list (list Z)) : Prop :=
  exists r0 r1, d = [r0; r1] /\ length r0 = 16%nat /\ length r1 = 16%nat.

(** [text] cut to 14 characters and filled with blanks to 14. *)
Definition pad14 (text : str) : str :=
  let t := if 14 <? len text then slice_to text 14 else text in
  t ++ spaces (14 - len t).

(** A row as [write_icon_prefix_line] leaves it: the glyph code, a blank and
    fourteen characters of text. *)
Definition icon_row (icon : Z) (text : str) : list Z :=
  Z.land icon 255 :: 32 :: pad14 text.

(** The second header line of VISIT mode, without its last cell. *)
Definition visit_bottom15 (a c : str) : str :=
  let b := py "ARI:" ++ a ++ py " CC:" ++ c in
  let b := if 15 <? len b then slice_to b 15 else b in
  b ++ spaces (15 - len b).

(** The two rows of VISIT mode for given counts and animation cell. *)
Definition visit_rows (astro core box : Z) : list (list Z) :=
  [ pad16 (py "Live Visit Count");
    visit_bottom15 (decimal astro) (decimal core) ++ [box] ].

(** [setattr(self, idx_attr, v)] as a state update. *)
Definition set_idx (a : idx_attr) (v : Z) (st : LcdState) : LcdState :=
  match a with
  | scroll_i_top_attr => set_scroll_i_top v st
  | scroll_i_bottom_attr => set_scroll_i_bottom v st
  end.

(** The window the spec describes: [text] followed by four blanks is read
    as a ring, and fourteen characters are taken from position
    [cursor mod (len text + 4)]. *)
Definition window (text : str) (cursor : Z) : str :=
  let ring := text ++ replicate 4 32 in
  take 14 (drop (Z.to_nat (cursor mod (len text + 4))) (ring ++ ring)).

(** The six tags [handle_cmd] knows. *)
Definition known_tags : list str :=
  [py "MODE:"; py "LIVE:"; py "CLOCK:"; py "MUSIC:"; py "TEXT:"; py "VOL:"].

Definition has_known_tag (c : str) : bool :=
  existsb (startswith c) known_tags.

(** [m] is one of the six mode numbers. *)
Definition is_mode_num (m : Z) : Prop :=
  m = 1 \/ m = 3 \/ m = 4 \/ m = 5 \/ m = 7 \/ m = 8.

(** The state after [MUSIC:] caches a title and an artist. *)
Definition cache_music (now : float) (top bottom : str) (st : LcdState) : LcdState :=
  set_last_scroll now
    (set_scroll_i_bottom 0
       (set_scroll_i_top 0
          (set_scroll_bottom bottom (set_scroll_top top st)))).

(** The display right after [MODE:3]. *)
Definition music_mode : LcdState := snd (enter_music Lcd.init).

(** The two rows of the volume overlay. *)
Definition overlay_rows (pct dev : str) : list (list Z) :=
  [icon_row 2 (py "Volume: " ++ pct); icon_row 3 dev].

(** The state right after a [VOL:] command read at time [now]. *)
Definition overlay_state (now : float) (pct dev : str) (st : LcdState) : LcdState :=
  set_ddram (overlay_rows pct dev)
    (set_vol_until (now + 1.5)%float
       (set_volume_overlay true
          (set_cgram (load_icons _MUSIC_ICONS (cgram st)) st))).

(** The overlay is due to expire at time [now]: the test [tick] makes. *)
Definition overlay_expired (st : LcdState) (now : float) : bool :=
  volume_overlay st && float_truthy (_vol_until st)
  && PrimFloat.leb (_vol_until st) now.

(** Commands and ticks in a row, from the state a [LcdState()] starts in. *)
Definition run_cmds (now : float) (cmds : list str) (st : LcdState) : LcdState :=
  foldl (fun s c => snd (handle_cmd ascii_runtime now c s)) st cmds.

Definition run_ticks (times : list float) (st : LcdState) : LcdState :=
  foldl (fun s t => snd (tick ascii_runtime t s)) st times.

Definition clock_shown : LcdState :=
  run_cmds 99%float [py "MODE:4"; py "CLOCK:12:00|Jan 1"] Lcd.init.

Definition visit_shown : LcdState :=
  run_cmds 99%float [py "MODE:1"; py "LIVE:12,7"] Lcd.init.

Definition music_shown : LcdState :=
  run_cmds 99%float [py "MODE:3"; py "MUSIC:Song|Band"] Lcd.init.

End Lcd.

(** ** The 32x8 dot matrix *)

(** [x < n] for a float [x] and an int [n]. Python compares the two values
    exactly, whatever the size of the int: a finite float is [m * 2^e] with
    an integer [m], and that is set against [n] in the integers. A NaN is
    below nothing, minus infinity is below every int. *)
Definition float_lt_int (x : float) (n : Z) : bool :=
  match Prim2SF x with
  | S754_nan => false
  | S754_infinity s => s
  | S754_zero _ => 0 <? n
  | S754_finite s m e =>
      let sm := if s then Z.neg m else Z.pos m in
      if 0 <=? e then sm * 2 ^ e <? n else sm <? n * 2 ^ (- e)
  end.

Module Matrix.

Inductive MatrixMode : Type := NONE | VU | FB.

Record MatrixState : Type := {
  mode : MatrixMode;
  pixels : list (list Z);
  vu_levels : list Z;
  _last_decay : float
}.

Definition set_mode (v : MatrixMode) (m : MatrixState) : MatrixState :=
  {| mode := v; pixels := pixels m; vu_levels := vu_levels m;
     _last_decay := _last_decay m |}.

Definition set_pixels (v : list (list Z)) (m : MatrixState) : MatrixState :=
  {| mode := mode m; pixels := v; vu_levels := vu_levels m;
     _last_decay := _last_decay m |}.

Definition set_vu_levels (v : list Z) (m : MatrixState) : MatrixState :=
  {| mode := mode m; pixels := pixels m; vu_levels := v;
     _last_decay := _last_decay m |}.

Definition set_last_decay (v : float) (m : MatrixState) : MatrixState :=
  {| mode := mode m; pixels := pixels m; vu_levels := vu_levels m;
     _last_decay := v |}.

(** [[[0]*32 for _ in range(8)]] *)
Definition blank_pixels : list (list Z) := replicate 8 (replicate 32 0).

(** [MatrixState.__init__]; [now] is its reading of [time.time()]. *)
Definition init (now : float) : MatrixState :=
  {| mode := NONE; pixels := blank_pixels; vu_levels := replicate 32 0;
     _last_decay := now |}.

Definition clear : M MatrixState unit := modify (set_pixels blank_pixels).

(** [self.pixels[y][x] = v] *)
Definition pixel_set (y x : nat) (v : Z) : M MatrixState unit :=
  fun m =>
    match pixels m !! y with
    | Some r =>
        if (x <? length r)%nat
        then (Ok tt, set_pixels (<[y := <[x := v]> r]> (pixels m)) m)
        else (Raised IndexError, m)
    | None => (Raised IndexError, m)
    end.

(**
<<
def _render_vu_pixels(self):
    self.clear()
    for x in range(32):
        h = self.vu_levels[x]
        for y in range(8):
            self.pixels[7-y][x] = 1 if y < h else 0
>> *)
Definition _render_vu_pixels : M MatrixState unit :=
  clear >>
  for_each (range 32) (fun x =>
    let* m := get in
    let* h := lift (item (vu_levels m) (Z.of_nat x)) in
    for_each (range 8) (fun y =>
      pixel_set (7 - y) x (if Z.of_nat y <? h then 1 else 0))).

(**
<<
def apply_vu(self, levels_0_8):
    self.mode = "VU"
    self.vu_levels = [max(0, min(8, int(v))) for v in levels_0_8[:32]] + [0]*(32-len(levels_0_8[:32]))
    self._render_vu_pixels()
    self._last_decay = time.time()
>> *)
Definition apply_vu (now : float) (levels_0_8 : list Z) : M MatrixState unit :=
  modify (set_mode VU) >>
  modify (set_vu_levels
            (map (fun v => Z.max 0 (Z.min 8 v)) (slice_to levels_0_8 32)
             ++ replicate (Z.to_nat (32 - len (slice_to levels_0_8 32))) 0)) >>
  _render_vu_pixels >>
  modify (set_last_decay now).

(**
<<
def apply_fb_payload(self, hex_payload):
    if len(hex_payload) < 8*8:
        return
    self.mode = "FB"
    self.clear()
    try:
        rows = [int(hex_payload[i*8:(i+1)*8], 16) for i in range(8)]
        for y in range(8):
            row = rows[y]
            for x in range(32):
                bit = (row >> (31-x)) & 1
                self.pixels[y][x] = 1 if bit else 0
    except Exception:
        pass
>> *)
Definition apply_fb_payload (rt : PyRuntime) (hex_payload : str)
  : M MatrixState unit :=
  if len hex_payload <? 8 * 8 then ret tt
  else
    modify (set_mode FB) >>
    clear >>
    try_pass (
      let* rows :=
        lift (collect
                (fun i => py_int rt 16
                            (slice hex_payload (Z.of_nat i * 8) ((Z.of_nat i + 1) * 8)))
                (range 8)) in
      for_each (range 8) (fun y =>
        let* row := lift (item rows (Z.of_nat y)) in
        for_each (range 32) (fun x =>
          let bit := Z.land (Z.shiftr row (31 - Z.of_nat x)) 1 in
          pixel_set y x (if bit =? 0 then 0 else 1)))).

(**
<<
def tick_decay(self, enabled: bool, step_ms: int = 90):
    if self.mode != "VU":
        return
    now = time.time()
    if enabled:
        self._last_decay = now
        return
    if (now - self._last_decay) * 1000.0 < step_ms:
        return
    self._last_decay = now
    changed = False
    for i in range(32):
        if self.vu_levels[i] > 0:
            self.vu_levels[i] -= 1
            changed = True
    if changed:
        self._render_vu_pixels()
>> *)
Definition vu_level_set (i : nat) (v : Z) : M MatrixState unit :=
  fun m =>
    if (i <? length (vu_levels m))%nat
    then (Ok tt, set_vu_levels (<[i := v]> (vu_levels m)) m)
    else (Raised IndexError, m).

(** The loop of [tick_decay], threading [changed]. *)
Fixpoint decay_loop (idxs : list nat) (changed : bool) : M MatrixState bool :=
  match idxs with
  | [] => ret changed
  | i :: idxs' =>
      let* m := get in
      let* v := lift (item (vu_levels m) (Z.of_nat i)) in
      if 0 <? v then vu_level_set i (v - 1) >> decay_loop idxs' true
      else decay_loop idxs' changed
  end.

Definition tick_decay (now : float) (enabled : bool) (step_ms : Z)
  : M MatrixState unit :=
  let* m := get in
  match mode m with
  | VU =>
      if enabled then modify (set_last_decay now)
      else if float_lt_int ((now - _last_decay m) * 1000)%float step_ms
      then ret tt
      else
        modify (set_last_decay now) >>
        let* changed := decay_loop (range 32) false in
        if changed then _render_vu_pixels else ret tt
  | _ => ret tt
  end.

(** *** Vocabulary for the properties of the matrix *)

Definition all_lit : list (list Z) := replicate 8 (replicate 32 1).

Definition decayed_pixels : list (list Z) :=
  replicate 32 0 :: replicate 7 (replicate 32 1).

End Matrix.

(** ** The orchestrator's feature toggles *)

(** [c.isdigit()] on one code point. *)
Definition py_isdigit (rt : PyRuntime) (c : Z) : bool :=
  if c <? 128 then (48 <=? c) && (c <=? 57) else unicode_isdigit rt c.

Module Backend.

(** The part of [Backend] that [send_to_device] and the three toggles read
    and write. The [multiprocessing.Event]s are their flags. *)
Record Backend : Type := {
  serial : SerialLink;
  lcd : Lcd.LcdState;
  matrix : Matrix.MatrixState;
  CHANNEL_ENABLED : bool;
  AUDIO_MODE_ENABLED : bool;
  LOGO_ENABLED : bool;
  _vu_channel_enabled : bool;
  _vu_audio_mode_enabled : bool;
  _vu_rebind : bool
}.

Definition set_serial (v : SerialLink) (b : Backend) : Backend :=
  {| serial := v; lcd := lcd b; matrix := matrix b; CHANNEL_ENABLED :=
     CHANNEL_ENABLED b; AUDIO_MODE_ENABLED := AUDIO_MODE_ENABLED b;
     LOGO_ENABLED := LOGO_ENABLED b; _vu_channel_enabled :=
     _vu_channel_enabled b; _vu_audio_mode_enabled := _vu_audio_mode_enabled
     b; _vu_rebind := _vu_rebind b |}.

Definition set_lcd (v : Lcd.LcdState) (b : Backend) : Backend :=
  {| serial := serial b; lcd := v; matrix := matrix b; CHANNEL_ENABLED :=
     CHANNEL_ENABLED b; AUDIO_MODE_ENABLED := AUDIO_MODE_ENABLED b;
     LOGO_ENABLED := LOGO_ENABLED b; _vu_channel_enabled :=
     _vu_channel_enabled b; _vu_audio_mode_enabled := _vu_audio_mode_enabled
     b; _vu_rebind := _vu_rebind b |}.

Definition set_matrix (v : Matrix.MatrixState) (b : Backend) : Backend :=
  {| serial := serial b; lcd := lcd b; matrix := v; CHANNEL_ENABLED :=
     CHANNEL_ENABLED b; AUDIO_MODE_ENABLED := AUDIO_MODE_ENABLED b;
     LOGO_ENABLED := LOGO_ENABLED b; _vu_channel_enabled :=
     _vu_channel_enabled b; _vu_audio_mode_enabled := _vu_audio_mode_enabled
     b; _vu_rebind := _vu_rebind b |}.

Definition set_CHANNEL_ENABLED (v : bool) (b : Backend) : Backend :=
  {| serial := serial b; lcd := lcd b; matrix := matrix b; CHANNEL_ENABLED
     := v; AUDIO_MODE_ENABLED := AUDIO_MODE_ENABLED b; LOGO_ENABLED :=
     LOGO_ENABLED b; _vu_channel_enabled := _vu_channel_enabled b;
     _vu_audio_mode_enabled := _vu_audio_mode_enabled b; _vu_rebind :=
     _vu_rebind b |}.

Definition set_AUDIO_MODE_ENABLED (v : bool) (b : Backend) : Backend :=
  {| serial := serial b; lcd := lcd b; matrix := matrix b; CHANNEL_ENABLED
     := CHANNEL_ENABLED b; AUDIO_MODE_ENABLED := v; LOGO_ENABLED :=
     LOGO_ENABLED b; _vu_channel_enabled := _vu_channel_enabled b;
     _vu_audio_mode_enabled := _vu_audio_mode_enabled b; _vu_rebind :=
     _vu_rebind b |}.

Definition set_LOGO_ENABLED (v : bool) (b : Backend) : Backend :=
  {| serial := serial b; lcd := lcd b; matrix := matrix b; CHANNEL_ENABLED
     := CHANNEL_ENABLED b; AUDIO_MODE_ENABLED := AUDIO_MODE_ENABLED b;
     LOGO_ENABLED := v; _vu_channel_enabled := _vu_channel_enabled b;
     _vu_audio_mode_enabled := _vu_audio_mode_enabled b; _vu_rebind :=
     _vu_rebind b |}.

Definition set_vu_channel_enabled (v : bool) (b : Backend) : Backend :=
  {| serial := serial b; lcd := lcd b; matrix := matrix b; CHANNEL_ENABLED
     := CHANNEL_ENABLED b; AUDIO_MODE_ENABLED := AUDIO_MODE_ENABLED b;
     LOGO_ENABLED := LOGO_ENABLED b; _vu_channel_enabled := v;
     _vu_audio_mode_enabled := _vu_audio_mode_enabled b; _vu_rebind :=
     _vu_rebind b |}.

Definition set_vu_audio_mode_enabled (v : bool) (b : Backend) : Backend :=
  {| serial := serial b; lcd := lcd b; matrix := matrix b; CHANNEL_ENABLED
     := CHANNEL_ENABLED b; AUDIO_MODE_ENABLED := AUDIO_MODE_ENABLED b;
     LOGO_ENABLED := LOGO_ENABLED b; _vu_channel_enabled :=
     _vu_channel_enabled b; _vu_audio_mode_enabled := v; _vu_rebind :=
     _vu_rebind b |}.

Definition set_vu_rebind (v : bool) (b : Backend) : Backend :=
  {| serial := serial b; lcd := lcd b; matrix := matrix b; CHANNEL_ENABLED
     := CHANNEL_ENABLED b; AUDIO_MODE_ENABLED := AUDIO_MODE_ENABLED b;
     LOGO_ENABLED := LOGO_ENABLED b; _vu_channel_enabled :=
     _vu_channel_enabled b; _vu_audio_mode_enabled := _vu_audio_mode_enabled
     b; _vu_rebind := v |}.

(** What the outside answers during one [send_to_device]: the serial device,
    and the clock as the display and the matrix read it. *)
Record DeviceIo : Type := {
  serial_io : SerialIo;
  lcd_time : float;
  matrix_time : float
}.

(** A method call on [self.lcd] and on [self.matrix]. *)
Definition on_lcd {A : Type} (m : M Lcd.LcdState A) : M Backend A :=
  fun b => let (r, l) := m (lcd b) in (r, set_lcd l b).

Definition on_matrix {A : Type} (m : M Matrix.MatrixState A) : M Backend A :=
  fun b => let (r, x) := m (matrix b) in (r, set_matrix x b).

(**
<<
def send_to_device(self, line: str):
    ok = self.serial.send_line(line)
    try:
        self.lcd.handle_cmd(line)
        if line.startswith("V:"):
            levels = [int(c) for c in line[2:].strip() if c.isdigit()]
            self.matrix.apply_vu(levels)
        elif line.startswith("FB:"):
            self.matrix.apply_fb_payload(line[3:].strip())
        self._emit("on_state")
    except Exception:
        pass
    return ok
>>
    [_emit] runs the observers' callbacks, each under its own
    [try/except]; they are outside this model. *)
Definition send_to_device (rt : PyRuntime) (io : DeviceIo) (line : str)
  : M Backend bool :=
  let* ok :=
    (fun b =>
       let r := send_line rt (serial_io io) (serial b) line in
       (Ok (snd r), set_serial (fst r) b)) in
  try_pass (
    on_lcd (Lcd.handle_cmd rt (lcd_time io) line) >>
    if startswith line (py "V:") then
      let* levels :=
        lift (collect (fun c => py_int rt 10 [c])
                (List.filter (py_isdigit rt) (strip (slice_from line 2)))) in
      on_matrix (Matrix.apply_vu (matrix_time io) levels)
    else if startswith line (py "FB:") then
      on_matrix (Matrix.apply_fb_payload rt (strip (slice_from line 3)))
    else ret tt) >>
  ret ok.

(**
<<
def toggle_channel_mode(self):
    self.CHANNEL_ENABLED = not self.CHANNEL_ENABLED
    if self.CHANNEL_ENABLED:
        self.LOGO_ENABLED = False # Mutually exclusive
        self.AUDIO_MODE_ENABLED = False # Mutually exclusive
        self._vu_audio_mode_enabled.clear()
        self.send_to_device("CHANNEL:ON")
        self._vu_channel_enabled.set()
        self._vu_rebind.set()
    else:
        self.send_to_device("CHANNEL:OFF")
        self._vu_channel_enabled.clear()
>> *)
Definition toggle_channel_mode (rt : PyRuntime) (io : DeviceIo) : M Backend unit :=
  modify (fun b => set_CHANNEL_ENABLED (negb (CHANNEL_ENABLED b)) b) >>
  let* b := get in
  if CHANNEL_ENABLED b then
    modify (set_LOGO_ENABLED false) >>
    modify (set_AUDIO_MODE_ENABLED false) >>
    modify (set_vu_audio_mode_enabled false) >>
    send_to_device rt io (py "CHANNEL:ON") >>
    modify (set_vu_channel_enabled true) >>
    modify (set_vu_rebind true)
  else
    send_to_device rt io (py "CHANNEL:OFF") >>
    modify (set_vu_channel_enabled false).

(**
<<
def toggle_audio_mode(self):
    self.AUDIO_MODE_ENABLED = not self.AUDIO_MODE_ENABLED
    if self.AUDIO_MODE_ENABLED:
        self.LOGO_ENABLED = False # Mutually exclusive
        self.CHANNEL_ENABLED = False # Mutually exclusive
        self._vu_channel_enabled.clear()
        self.send_to_device("AUDIO:ON")
        self._vu_audio_mode_enabled.set()
        self._vu_rebind.set()
    else:
        self.send_to_device("AUDIO:OFF")
        self._vu_audio_mode_enabled.clear()
>> *)
Definition toggle_audio_mode (rt : PyRuntime) (io : DeviceIo) : M Backend unit :=
  modify (fun b => set_AUDIO_MODE_ENABLED (negb (AUDIO_MODE_ENABLED b)) b) >>
  let* b := get in
  if AUDIO_MODE_ENABLED b then
    modify (set_LOGO_ENABLED false) >>
    modify (set_CHANNEL_ENABLED false) >>
    modify (set_vu_channel_enabled false) >>
    send_to_device rt io (py "AUDIO:ON") >>
    modify (set_vu_audio_mode_enabled true) >>
    modify (set_vu_rebind true)
  else
    send_to_device rt io (py "AUDIO:OFF") >>
    modify (set_vu_audio_mode_enabled false).

(**
<<
def toggle_logo_mode(self):
    self.LOGO_ENABLED = not self.LOGO_ENABLED
    if self.LOGO_ENABLED:
        self.CHANNEL_ENABLED = False
        self.AUDIO_MODE_ENABLED = False
        self._vu_channel_enabled.clear()
        self._vu_audio_mode_enabled.clear()
        self.send_to_device("LOGO:ON")
    else:
        self.send_to_device("LOGO:OFF")
>> *)
Definition toggle_logo_mode (rt : PyRuntime) (io : DeviceIo) : M Backend unit :=
  modify (fun b => set_LOGO_ENABLED (negb (LOGO_ENABLED b)) b) >>
  let* b := get in
  if LOGO_ENABLED b then
    modify (set_CHANNEL_ENABLED false) >>
    modify (set_AUDIO_MODE_ENABLED false) >>
    modify (set_vu_channel_enabled false) >>
    modify (set_vu_audio_mode_enabled false) >>
    send_to_device rt io (py "LOGO:ON") >>
    ret tt
  else
    send_to_device rt io (py "LOGO:OFF") >>
    ret tt.

(** [Backend.__init__], from the link as [connect()] left it; [now] is the
    clock as [MatrixState()] reads it. *)
Definition init (link : SerialLink) (now : float) : Backend :=
  {| serial := link;
     lcd := Lcd.init;
     matrix := Matrix.init now;
     CHANNEL_ENABLED := false;
     AUDIO_MODE_ENABLED := false;
     LOGO_ENABLED := false;
     _vu_channel_enabled := false;
     _vu_audio_mode_enabled := false;
     _vu_rebind := false |}.

(** A device that takes every write, and a link with no port. *)
Definition quiet_io (now : float) : DeviceIo :=
  {| serial_io := {| write_ok := true; flush_ok := true; tx_time := now |};
     lcd_time := now;
     matrix_time := now |}.

Definition no_link : SerialLink := {| ser := None; last_tx := 0%float |}.

(** A call of one of the three toggles, and a run of such calls. *)
Inductive toggle : Type := ToggleChannel | ToggleAudio | ToggleLogo.

Definition run_toggle (rt : PyRuntime) (c : toggle * DeviceIo) : M Backend unit :=
  match fst c with
  | ToggleChannel => toggle_channel_mode rt (snd c)
  | ToggleAudio => toggle_audio_mode rt (snd c)
  | ToggleLogo => toggle_logo_mode rt (snd c)
  end.

Definition run_toggles (rt : PyRuntime) (cs : list (toggle * DeviceIo))
  : M Backend unit :=
  for_each cs (run_toggle rt).

(** *** Vocabulary for the properties of the toggles *)

Definition flags (b : Backend) : bool * bool * bool :=
  (CHANNEL_ENABLED b, AUDIO_MODE_ENABLED b, LOGO_ENABLED b).

(** At most one of the three flags is set. *)
Definition exclusive (b : Backend) : Prop :=
  CHANNEL_ENABLED b && AUDIO_MODE_ENABLED b = false
  /\ CHANNEL_ENABLED b && LOGO_ENABLED b = false
  /\ AUDIO_MODE_ENABLED b && LOGO_ENABLED b = false.

End Backend.

(** ** What the display sees over time *)

(** A statement keeps a property of the state, whether it returns or
    raises; and it establishes one, whatever state it starts in. *)
Definition keeps {S A : Type} (P : S -> Prop) (m : M S A) : Prop :=
  forall s, P s -> P (snd (m s)).

Definition establishes {S A : Type} (P : S -> Prop) (m : M S A) : Prop :=
  forall s, P (snd (m s)).

(** A statement returns, rather than raises, from every state with the
    property [P]. *)
Definition returns_on {S A : Type} (P : S -> Prop) (m : M S A) : Prop :=
  forall s, P s -> exists a, fst (m s) = Ok a.

Module LcdMore.
Import Lcd.

(** The two callers of the emulator: [send_to_device] hands it a line, and
    [loop_lcd_tick] calls [tick]; each with the clock as the call reads it. *)
Inductive event : Type :=
| Cmd (now : float) (line : str)
| Tick (now : float).

Definition step (rt : PyRuntime) (e : event) : M LcdState unit :=
  match e with
  | Cmd now line => handle_cmd rt now line
  | Tick now => tick rt now
  end.

Definition run (rt : PyRuntime) (es : list event) : M LcdState unit :=
  for_each es (step rt).

(** The display has its two rows of sixteen cells. *)
Definition wf (st : LcdState) : Prop := wf_ddram (ddram st).

(** The mode a mode number stands for. *)
Definition mode_of_num (m : Z) : option LcdMode :=
  if m =? 1 then Some VISIT
  else if m =? 3 then Some MUSIC
  else if m =? 4 then Some CLOCK
  else if m =? 5 then Some TEXT
  else if m =? 7 then Some SYSTEM
  else if m =? 8 then Some SCREEN
  else None.

(** What each mode shows when it is entered. *)
Definition placeholder (md : LcdMode) : list (list Z) :=
  match md with
  | VISIT => visit_rows 0 0 0
  | MUSIC => [icon_row 0 (py "Music Mode"); icon_row 1 (py "Loading...")]
  | CLOCK => [pad16 (py "Clock Mode"); pad16 (py "Loading...")]
  | TEXT => [pad16 (py "Text Mode"); pad16 (py "Loading...")]
  | SYSTEM => [icon_row 0 (py "System Mode"); icon_row 2 (py "Loading...")]
  | SCREEN => [pad16 (py "Screen Mirror"); pad16 (py "Running")]
  end.

(** The glyph bank after a mode is entered: VISIT, MUSIC and SYSTEM load
    their own, the other modes leave the bank as it is. *)
Definition glyphs_on_entry (md : LcdMode) (cg : gmap Z (list Z)) : gmap Z (list Z) :=
  match md with
  | VISIT => visit_cgram
  | MUSIC => load_icons _MUSIC_ICONS cg
  | SYSTEM => load_icons _SYSTEM_ICONS cg
  | CLOCK | TEXT | SCREEN => cg
  end.

(** The state a mode is entered into, from the state before. *)
Definition entered (md : LcdMode) (st : LcdState) : LcdState :=
  let st1 := set_cgram (glyphs_on_entry md (cgram st)) (set_mode md st) in
  let st2 :=
    match md with
    | VISIT =>
        set_last_visit_core 0
          (set_last_visit_astro 0
             (set_box_step 0 (set_visit_anim_active false st1)))
    | _ => st1
    end in
  set_ddram (placeholder md) st2.

(** The state after a [LIVE:] command with counts [astro] and [core], read
    at time [now] in VISIT mode. *)
Definition live_shown (now : float) (astro core : Z) (st : LcdState) : LcdState :=
  set_ddram (visit_rows astro core 0)
    (set_last_anim now
       (set_visit_anim_active true
          (set_box_step 0
             (set_last_visit_core core (set_last_visit_astro astro st))))).

(** [self.ddram[1][15] = v] on a display with its two rows. *)
Definition with_anim_cell (v : Z) (d : list (list Z)) : list (list Z) :=
  match d with
  | [r0; r1] => [r0; <[15%nat := v]> r1]
  | _ => d
  end.

(** One scroll step of a line: what is shown, and the next cursor. *)
Definition scrolled (text : str) (cursor : Z) : str * Z :=
  if len text <=? 14 then (text ++ replicate (14 - length text) 32, 0)
  else (window text cursor, cursor + 1).

(** [str(n)] is within the digit limit. *)
Definition prints (rt : PyRuntime) (n : Z) : Prop :=
  over_digit_limit rt (count_digits n) = false.

(** The display has its two rows, and the counts it remembers can be
    written out again. *)
Definition steady (rt : PyRuntime) (st : LcdState) : Prop :=
  wf st /\ prints rt (last_visit_astro st) /\ prints rt (last_visit_core st).

End LcdMore.

(** ** What the matrix shows *)

Module MatrixMore.
Import Matrix.

(** The picture of a level vector: in column [x] the bottom [levels[x]]
    rows are lit; row 0 is the top row. *)
Definition vu_grid (levels : list Z) : list (list Z) :=
  map (fun r => map (fun h => if Z.of_nat (7 - r) <? h then 1 else 0) levels)
      (seq 0 8).

(** The level vector [apply_vu] stores for its argument. *)
Definition clamp_levels (levels_0_8 : list Z) : list Z :=
  map (fun v => Z.max 0 (Z.min 8 v)) (slice_to levels_0_8 32)
  ++ replicate (Z.to_nat (32 - len (slice_to levels_0_8 32))) 0.

(** One decay step of a level vector. *)
Definition decay (levels : list Z) : list Z :=
  map (fun v => if 0 <? v then v - 1 else v) levels.

(** Column [x] of a pixel grid, top row first, and how many of its pixels
    are lit. *)
Definition column (px : list (list Z)) (x : nat) : list Z :=
  map (fun row => nth x row 0) px.

Definition lit (cells : list Z) : Z := len (List.filter (Z.eqb 1) cells).

(** The matrix is in VU mode and shows its levels. *)
Definition shows_levels (m : MatrixState) : Prop :=
  mode m = VU
  /\ length (vu_levels m) = 32%nat
  /\ Forall (fun v => 0 <= v <= 8) (vu_levels m)
  /\ pixels m = vu_grid (vu_levels m).

(** A call on the matrix: [apply_vu] from [send_to_device], [tick_decay]
    from [loop_lcd_tick], each with the clock as the call reads it. *)
Inductive call : Type :=
| ApplyVu (now : float) (levels : list Z)
| TickDecay (now : float) (enabled : bool) (step_ms : Z).

Definition do_call (c : call) : M MatrixState unit :=
  match c with
  | ApplyVu now levels => apply_vu now levels
  | TickDecay now enabled step_ms => tick_decay now enabled step_ms
  end.

(** The test [tick_decay] makes before it decays: the step has elapsed, that
    is, [(now - _last_decay) * 1000.0 < step_ms] is false. *)
Definition decay_due (m : MatrixState) (now : float) (step_ms : Z) : bool :=
  negb (float_lt_int ((now - _last_decay m) * 1000)%float step_ms).

(** Ticks with the feed disabled at the times [ts], each one due when it
    comes, counted from a last decay at [t0]. *)
Fixpoint all_due (t0 : float) (ts : list float) (step_ms : Z) : bool :=
  match ts with
  | [] => true
  | t :: ts' =>
      negb (float_lt_int ((t - t0) * 1000)%float step_ms)
      && all_due t ts' step_ms
  end.

Definition decay_ticks (ts : list float) (step_ms : Z) : M MatrixState unit :=
  for_each ts (fun t => tick_decay t false step_ms).

End MatrixMore.

(** ** The frame [loop_screen] sends

<<
gray = img_combined.convert("L")
bw = gray.point(lambda p: 255 if p > 128 else 0, mode="1")

rows32 = []
for y in range(8):
    row_val = 0
    for x in range(32):
        on = bw.getpixel((x, y)) != 0
        row_val = (row_val << 1) | (1 if on else 0)
    rows32.append(row_val)

payload = "".join(f"{row:08X}" for row in rows32)
self.send_to_device("FB:" + payload)
>>
    The thresholded 32x8 image [bw] is what its [getpixel] answers at
    [(x, y)]. *)
Module Screen.

(** The digit characters of [format(n, "X")]: [0-9A-F]. *)
Definition hex_char (d : Z) : Z := if d <? 10 then 48 + d else 55 + d.

(** The hexadecimal digits of [n >= 0], the most significant first. *)
Fixpoint hex_digits (fuel : nat) (n : Z) (acc : list Z) : list Z :=
  match fuel with
  | O => acc
  | S fuel' =>
      if n <? 16 then n :: acc
      else hex_digits fuel' (n / 16) (n mod 16 :: acc)
  end.

Definition format_X (n : Z) : str :=
  map hex_char (hex_digits (S (Z.to_nat (Z.log2 n))) n []).

(** [f"{row:08X}"]: the sign first, then zeros up to a width of 8. *)
Definition format_08X (row : Z) : str :=
  if row <? 0
  then 45 :: replicate (7 - length (format_X (- row))) 48 ++ format_X (- row)
  else replicate (8 - length (format_X row)) 48 ++ format_X row.

Definition pack_row (bw : Z -> Z -> Z) (y : Z) : Z :=
  fold_left
    (fun row_val x =>
       let on := negb (bw (Z.of_nat x) y =? 0) in
       Z.lor (Z.shiftl row_val 1) (if on then 1 else 0))
    (range 32) 0.

Definition rows32 (bw : Z -> Z -> Z) : list Z :=
  map (fun y => pack_row bw (Z.of_nat y)) (range 8).

Definition payload (bw : Z -> Z -> Z) : str := concat (map format_08X (rows32 bw)).

Definition frame_line (bw : Z -> Z -> Z) : str := py "FB:" ++ payload bw.

(** The picture of [bw] on the matrix: a pixel is lit where [bw] is not 0. *)
Definition picture (bw : Z -> Z -> Z) : list (list Z) :=
  map (fun y =>
         map (fun x => if bw (Z.of_nat x) (Z.of_nat y) =? 0 then 0 else 1)
             (range 32))
      (range 8).

(** The value of a digit string read from the left. *)
Definition hex_value (ds : list Z) : Z := fold_left (fun a d => a * 16 + d) ds 0.

(** What [apply_fb_payload] draws for eight row values. *)
Definition fb_grid (rows : list Z) : list (list Z) :=
  map (fun row =>
         map (fun x => if Z.land (Z.shiftr row (31 - Z.of_nat x)) 1 =? 0 then 0 else 1)
             (range 32))
      rows.

End Screen.

(** ** What the workers and the loops send

<<
levels = np.clip(np.rint(smooth * 8.0), 0, 8).astype(int).tolist()
s = "".join(str(int(v)) for v in levels[:32])
q_put_latest(out_q, ("V", s))
>>
    and [_native_consumer_loop] sends ["V:" + str(latest_vu)]. *)
Module Feed.

Definition vu_text (rt : PyRuntime) (levels : list Z) : outcome str :=
  match collect (py_str_int rt) (slice_to levels 32) with
  | Ok parts => Ok (concat parts)
  | Raised e => Raised e
  end.

Definition vu_line (s : str) : str := py "V:" ++ s.

(** [loop_visit]: [f"LIVE:{astro},{core}"] *)
Definition live_line (rt : PyRuntime) (astro core : Z) : outcome str :=
  match py_str_int rt astro with
  | Raised e => Raised e
  | Ok a =>
      match py_str_int rt core with
      | Raised e => Raised e
      | Ok c => Ok (py "LIVE:" ++ a ++ [44] ++ c)
      end
  end.

End Feed.

(** ** What the toggles leave to the worker and to the displays *)

Module BackendMore.
Import Backend.

(** The events the VU worker reads are in step with the flags. *)
Definition events_in_step (b : Backend) : Prop :=
  _vu_channel_enabled b = CHANNEL_ENABLED b
  /\ _vu_audio_mode_enabled b = AUDIO_MODE_ENABLED b.

(** The two emulated displays. *)
Definition displays (b : Backend) : Lcd.LcdState * Matrix.MatrixState :=
  (lcd b, matrix b).

(** The line a toggle sends when it leaves its flag at [on]. *)
Definition toggle_line (t : toggle) (on : bool) : str :=
  match t with
  | ToggleChannel => if on then py "CHANNEL:ON" else py "CHANNEL:OFF"
  | ToggleAudio => if on then py "AUDIO:ON" else py "AUDIO:OFF"
  | ToggleLogo => if on then py "LOGO:ON" else py "LOGO:OFF"
  end.

Definition own_flag (t : toggle) (b : Backend) : bool :=
  match t with
  | ToggleChannel => CHANNEL_ENABLED b
  | ToggleAudio => AUDIO_MODE_ENABLED b
  | ToggleLogo => LOGO_ENABLED b
  end.

End BackendMore.

(** ** Custom glyphs as the widget paints them

<<
def _cgram_to_cols(byte_rows_8):
    cols = [0]*5
    for y in range(8):
        row = int(byte_rows_8[y]) & 0x1F
        for x in range(5):
            if row & (1 << (4-x)):
                cols[x] |= (1 << y)
    return cols
>>
    [LcdWidget.paintEvent] lights the pixel in column [gx], row [gy] of a
    cell when [(cols[gx] >> gy) & 1] is set. *)
Module Glyph.

(** [cols[x] |= v] *)
Definition cols_or (x : nat) (v : Z) : M (list Z) unit :=
  fun cols =>
    match cols !! x with
    | Some c => (Ok tt, <[x := Z.lor c v]> cols)
    | None => (Raised IndexError, cols)
    end.

(** The body of the loop over [y]. *)
Definition cgram_row (byte_rows_8 : list Z) (y : nat) : M (list Z) unit :=
  let* row0 := lift (item byte_rows_8 (Z.of_nat y)) in
  let row := Z.land row0 31 in
  for_each (range 5) (fun x =>
    if Z.land row (Z.shiftl 1 (4 - Z.of_nat x)) =? 0 then ret tt
    else cols_or x (Z.shiftl 1 (Z.of_nat y))).

Definition _cgram_to_cols (byte_rows_8 : list Z) : outcome (list Z) :=
  match for_each (range 8) (cgram_row byte_rows_8) (replicate 5 0) with
  | (Ok _, cols) => Ok cols
  | (Raised e, _) => Raised e
  end.

(** The 5x7 font: five column bytes for each of the characters 0x20 to
    0x7F, bit 0 the top row. *)
Definition _FONT5X7 : list Z :=
  [
   0; 0; 0; 0; 0; 0; 0; 95; 0; 0; 0; 7; 0; 7; 0;
   20; 127; 20; 127; 20; 36; 42; 127; 42; 18; 35; 19; 8; 100; 98;
   54; 73; 85; 34; 80; 0; 5; 3; 0; 0; 0; 28; 34; 65; 0;
   0; 65; 34; 28; 0; 20; 8; 62; 8; 20; 8; 8; 62; 8; 8;
   0; 80; 48; 0; 0; 8; 8; 8; 8; 8; 0; 96; 96; 0; 0;
   32; 16; 8; 4; 2; 62; 81; 73; 69; 62; 0; 66; 127; 64; 0;
   66; 97; 81; 73; 70; 33; 65; 69; 75; 49; 24; 20; 18; 127; 16;
   39; 69; 69; 69; 57; 60; 74; 73; 73; 48; 1; 113; 9; 5; 3;
   54; 73; 73; 73; 54; 6; 73; 73; 41; 30; 0; 54; 54; 0; 0;
   0; 86; 54; 0; 0; 8; 20; 34; 65; 0; 20; 20; 20; 20; 20;
   0; 65; 34; 20; 8; 2; 1; 81; 9; 6; 50; 73; 121; 65; 62;
   126; 17; 17; 17; 126; 127; 73; 73; 73; 54; 62; 65; 65; 65; 34;
   127; 65; 65; 34; 28; 127; 73; 73; 73; 65; 127; 9; 9; 9; 1;
   62; 65; 73; 73; 122; 127; 8; 8; 8; 127; 0; 65; 127; 65; 0;
   32; 64; 65; 63; 1; 127; 8; 20; 34; 65; 127; 64; 64; 64; 64;
   127; 2; 12; 2; 127; 127; 4; 8; 16; 127; 62; 65; 65; 65; 62;
   127; 9; 9; 9; 6; 62; 65; 81; 33; 94; 127; 9; 25; 41; 70;
   70; 73; 73; 73; 49; 1; 1; 127; 1; 1; 63; 64; 64; 64; 63;
   31; 32; 64; 32; 31; 127; 32; 24; 32; 127; 99; 20; 8; 20; 99;
   3; 4; 120; 4; 3; 97; 81; 73; 69; 67; 0; 127; 65; 65; 0;
   2; 4; 8; 16; 32; 0; 65; 65; 127; 0; 4; 2; 1; 2; 4;
   64; 64; 64; 64; 64; 0; 1; 2; 4; 0; 32; 84; 84; 84; 120;
   127; 72; 68; 68; 56; 56; 68; 68; 68; 32; 56; 68; 68; 72; 127;
   56; 84; 84; 84; 24; 8; 126; 9; 1; 2; 12; 82; 82; 82; 62;
   127; 8; 4; 4; 120; 0; 68; 125; 64; 0; 32; 64; 68; 61; 0;
   127; 16; 40; 68; 0; 0; 65; 127; 64; 0; 124; 4; 24; 4; 120;
   124; 8; 4; 4; 120; 56; 68; 68; 68; 56; 124; 20; 20; 20; 8;
   8; 20; 20; 24; 124; 124; 8; 4; 4; 8; 72; 84; 84; 84; 32;
   4; 63; 68; 64; 32; 60; 64; 64; 32; 124; 28; 32; 64; 32; 28;
   60; 64; 48; 64; 60; 68; 40; 16; 40; 68; 12; 80; 80; 80; 60;
   68; 100; 84; 76; 68; 0; 8; 54; 65; 0; 0; 0; 127; 0; 0;
   0; 65; 54; 8; 0; 8; 4; 8; 16; 8; 0; 0; 0; 0; 0
  ].

(**
<<
def _glyph_cols_for_ascii(ch: int):
    if ch < 0x20 or ch > 0x7F:
        ch = 0x20
    i = (ch - 0x20) * 5
    return _FONT5X7[i:i+5]
>> *)
Definition _glyph_cols_for_ascii (ch : Z) : list Z :=
  let ch := if (ch <? 32) || (127 <? ch) then 32 else ch in
  let i := (ch - 32) * 5 in
  slice _FONT5X7 i (i + 5).

(** [(col_bits >> gy) & 1] *)
Definition painted (col_bits : Z) (gy : nat) : Z :=
  Z.land (Z.shiftr col_bits (Z.of_nat gy)) 1.

(** What pixel [x] of row [y], with the bits [row], adds to column [x]. *)
Definition pixel_bit (row : Z) (x y : nat) : Z :=
  if Z.testbit row (4 - Z.of_nat x) then Z.shiftl 1 (Z.of_nat y) else 0.

End Glyph.

(** ** Switching modes

<<
def send_mode(self, mode_num: int):
    return self.send_to_device(f"MODE:{mode_num}")

def set_mode(self, name: str):
    old = self.mode
    self.mode = name
    if name == "VISIT":
        self.send_mode(1)
    elif name == "MUSIC":
        self.send_mode(3)
    elif name == "CLOCK":
        self.send_mode(4)
    elif name == "TEXT":
        self.send_mode(5)
    elif name == "SYSTEM":
        self.send_mode(7)
    elif name == "SCREEN":
        self.send_to_device("VUMODE:OFF")
        self.send_mode(8)
    if old != name:
        _log(f"Mode -> {name}")

def send_custom_text(self, text: str):
    self.set_mode("TEXT")
    self.send_to_device(f"TEXT:{text}")
>>
    [io0] and [io1] are what the outside answers during the first and the
    second [send_to_device] of a call. *)
Module Orchestrator.
Import Backend.

(** [Backend.mode], beside the part of [Backend] modelled above. *)
Record State : Type := {
  mode : str;
  base : Backend
}.

Definition set_mode_name (v : str) (s : State) : State :=
  {| mode := v; base := base s |}.

(** A method that reads and writes only the part modelled above. *)
Definition on_base {A : Type} (m : M Backend A) : M State A :=
  fun s => let (r, b) := m (base s) in (r, {| mode := mode s; base := b |}).

Definition send_mode (rt : PyRuntime) (io : DeviceIo) (mode_num : Z)
  : M Backend bool :=
  let* t := lift (py_str_int rt mode_num) in
  send_to_device rt io (py "MODE:" ++ t).

Definition set_mode (rt : PyRuntime) (io0 io1 : DeviceIo) (name : str)
  : M State unit :=
  modify (set_mode_name name) >>
  if decide (name = py "VISIT") then on_base (send_mode rt io0 1) >> ret tt
  else if decide (name = py "MUSIC") then on_base (send_mode rt io0 3) >> ret tt
  else if decide (name = py "CLOCK") then on_base (send_mode rt io0 4) >> ret tt
  else if decide (name = py "TEXT") then on_base (send_mode rt io0 5) >> ret tt
  else if decide (name = py "SYSTEM") then on_base (send_mode rt io0 7) >> ret tt
  else if decide (name = py "SCREEN") then
    on_base (send_to_device rt io0 (py "VUMODE:OFF")) >>
    on_base (send_mode rt io1 8) >> ret tt
  else ret tt.

Definition send_custom_text (rt : PyRuntime) (io0 io1 : DeviceIo) (text : str)
  : M State unit :=
  set_mode rt io0 io1 (py "TEXT") >>
  on_base (send_to_device rt io1 (py "TEXT:" ++ text)) >> ret tt.

(** The display mode each name stands for. *)
Definition lcd_mode_named : list (str * Lcd.LcdMode) :=
  [(py "VISIT", Lcd.VISIT); (py "MUSIC", Lcd.MUSIC); (py "CLOCK", Lcd.CLOCK);
   (py "TEXT", Lcd.TEXT); (py "SYSTEM", Lcd.SYSTEM); (py "SCREEN", Lcd.SCREEN)].

End Orchestrator.

(** * Properties *)

(** ** Lists, slices and the monad *)

(** Closed facts are settled by evaluation. *)
Ltac by_evaluation :=
  cbv zeta;
  repeat match goal with |- _ /\ _ => split end;
  vm_compute;
  first [ reflexivity | discriminate
        | let H := fresh in intro H; discriminate H
        | intuition discriminate ].

Lemma len_nonneg {A : Type} (l : list A) : 0 <= len l.
Proof. unfold len. lia. Qed.

Lemma len_app {A : Type} (l k : list A) : len (l ++ k) = len l + len k.
Proof. unfold len. rewrite length_app. lia. Qed.

Lemma len_spaces (n : Z) : len (spaces n) = Z.max 0 n.
Proof. unfold len, spaces. rewrite length_replicate. lia. Qed.

Lemma slice_to_take {A : Type} (s : list A) (n : Z) :
  0 <= n -> slice_to s n = take (Z.to_nat n) s.
Proof.
  intros Hn. unfold slice_to, clamp_index.
  destruct (Z.ltb_spec n 0) as [?|_]; [lia|].
  destruct (Z.le_gt_cases n (len s)) as [Hle|Hgt].
  - now rewrite Z.min_l.
  - rewrite Z.min_r by lia. unfold len in *.
    rewrite Nat2Z.id, firstn_all. symmetry. apply take_ge. lia.
Qed.

Lemma slice_from_drop {A : Type} (s : list A) (n : Z) :
  0 <= n -> slice_from s n = drop (Z.to_nat n) s.
Proof.
  intros Hn. unfold slice_from, clamp_index.
  destruct (Z.ltb_spec n 0) as [?|_]; [lia|].
  destruct (Z.le_gt_cases n (len s)) as [Hle|Hgt].
  - now rewrite Z.min_l.
  - rewrite Z.min_r by lia. unfold len in *.
    rewrite Nat2Z.id, !drop_ge; [reflexivity|lia|lia].
Qed.

Lemma slice_from_app {A : Type} (p r : list A) : slice_from (p ++ r) (len p) = r.
Proof.
  rewrite slice_from_drop by apply len_nonneg.
  unfold len. rewrite Nat2Z.id. apply drop_app_length.
Qed.

(** ** C9: [pad16] *)

Lemma pad16_long (s : str) : 16 < len s -> pad16 s = take 16 s.
Proof.
  intros H. unfold pad16.
  destruct (Z.ltb_spec 16 (len s)) as [_|?]; [|lia].
  rewrite slice_to_take by lia. change (Z.to_nat 16) with 16%nat.
  assert (Hl : len (take 16 s) = 16).
  { unfold len in *. rewrite length_take. lia. }
  rewrite Hl. simpl. apply app_nil_r.
Qed.

Lemma pad16_short (s : str) :
  len s <= 16 -> pad16 s = s ++ replicate (16 - length s) 32.
Proof.
  intros H. unfold pad16.
  destruct (Z.ltb_spec 16 (len s)) as [?|_]; [lia|].
  unfold spaces, len in *. f_equal. f_equal. lia.
Qed.

Lemma pad16_length (s : str) : length (pad16 s) = 16%nat.
Proof.
  destruct (Z.lt_ge_cases 16 (len s)) as [H|H].
  - rewrite pad16_long by assumption. unfold len in H. rewrite length_take. lia.
  - rewrite pad16_short by lia. unfold len in H.
    rewrite length_app, length_replicate. lia.
Qed.

(** C9. For every string [s], [pad16 s] has exactly 16 characters: the first
    16 characters of [s] when [s] is longer than 16, and otherwise [s]
    followed by as many blanks as bring it to 16; and padding a padded
    string changes nothing. *)
Theorem pad16_spec (s : str) :
  len (pad16 s) = 16
  /\ (16 < len s -> pad16 s = take 16 s)
  /\ (len s <= 16 -> pad16 s = s ++ replicate (16 - length s) 32)
  /\ pad16 (pad16 s) = pad16 s.
Proof.
  split; [|split; [|split]].
  - unfold len. now rewrite pad16_length.
  - apply pad16_long.
  - apply pad16_short.
  - rewrite (pad16_short (pad16 s)).
    + rewrite pad16_length. simpl. apply app_nil_r.
    + unfold len. rewrite pad16_length. lia.
Qed.

Lemma pad16_spec_witness :
  pad16 (py "Clock Mode") = py "Clock Mode      "
  /\ pad16 (py "0123456789abcdefXYZ") = py "0123456789abcdef".
Proof.
  split.
  - destruct (pad16_spec (py "Clock Mode")) as (_ & _ & H & _).
    rewrite H; [reflexivity | vm_compute; discriminate].
  - destruct (pad16_spec (py "0123456789abcdefXYZ")) as (_ & H & _).
    rewrite H; [reflexivity | vm_compute; reflexivity].
Defined.

(** ** C6: what [send_line] puts on the wire *)

Lemma lstrip_Forall (P : Z -> Prop) (s : str) : Forall P s -> Forall P (lstrip s).
Proof.
  induction 1 as [|c s Hc Hs IH]; simpl; [constructor|].
  destruct (py_isspace c); [exact IH | now constructor].
Qed.

Lemma strip_Forall (P : Z -> Prop) (s : str) : Forall P s -> Forall P (strip s).
Proof.
  intros H. unfold strip, rstrip.
  apply Forall_rev, lstrip_Forall, Forall_rev, lstrip_Forall, H.
Qed.

Lemma printable_range (c : Z) : printable c = true <-> 32 <= c <= 126.
Proof. unfold printable. rewrite andb_true_iff, !Z.leb_le. tauto. Qed.

Lemma clean_string_printable (rt : PyRuntime) (text : str) :
  Forall (fun c => 32 <= c <= 126) (clean_string rt text).
Proof.
  unfold clean_string. apply strip_Forall.
  apply List.Forall_forall. intros c Hc.
  apply List.filter_In in Hc. now apply printable_range.
Qed.

Lemma endswith_newline_printable (s : str) :
  Forall (fun c => 32 <= c <= 126) s -> endswith s [10] = false.
Proof.
  intros H. unfold endswith. apply Forall_rev in H.
  change (rev [10]) with [10].
  destruct (rev s) as [|b r]; cbn [startswith]; [reflexivity|].
  inversion H; subst.
  destruct (Z.eqb_spec 10 b); [lia | reflexivity].
Qed.

Lemma encode_ascii_ignore_id (s : str) :
  Forall (fun c => c < 128) s -> encode_ascii_ignore s = s.
Proof.
  induction 1 as [|c s Hc Hs IH]; simpl; [reflexivity|].
  destruct (Z.ltb_spec c 128); [|lia]. now rewrite IH.
Qed.

Lemma send_line_text_eq (rt : PyRuntime) (line : str) :
  send_line_text rt line = clean_string rt line ++ [10].
Proof.
  unfold send_line_text.
  now rewrite endswith_newline_printable by apply clean_string_printable.
Qed.

(** C6. When the link is open (and the device takes the write),
    [send_line text] hands the device one byte string: the sanitized text,
    all of whose characters lie in 0x20..0x7E, followed by one newline. The
    text before the newline holds no NUL, no carriage return and no
    newline, and the newline is always appended. *)
Theorem send_line_writes_clean_line
  (rt : PyRuntime) (io : SerialIo) (l : SerialLink) (line : str) :
  is_open l = true ->
  write_ok io = true ->
  exists p payload,
    ser l = Some p
    /\ payload = clean_string rt line
    /\ send_line_text rt line = payload ++ [10]
    /\ ser (fst (send_line rt io l line))
       = Some {| port_open := true; wire := wire p ++ [payload ++ [10]] |}
    /\ Forall (fun c => 32 <= c <= 126) payload
    /\ ~ In 0 payload /\ ~ In 13 payload /\ ~ In 10 payload.
Proof.
  intros Hopen Hw. unfold is_open in Hopen.
  destruct (ser l) as [p|] eqn:Hser; [|discriminate].
  exists p, (clean_string rt line).
  pose proof (clean_string_printable rt line) as Hp.
  assert (Hno : forall c, ~ (32 <= c <= 126) -> ~ In c (clean_string rt line)).
  { intros c Hc Hin. apply Hc.
    exact (proj1 (List.Forall_forall _ _) Hp c Hin). }
  repeat split; try (apply Hno; lia); try assumption.
  - apply send_line_text_eq.
  - unfold send_line. rewrite Hser, Hopen, Hw, send_line_text_eq.
    rewrite encode_ascii_ignore_id.
    + destruct (_ || flush_ok io); reflexivity.
    + apply Forall_app. split.
      * eapply Forall_impl; [exact Hp|]. simpl. intros; lia.
      * repeat constructor.
Qed.

Lemma send_line_writes_clean_line_witness :
  exists p payload,
    ser {| ser := Some {| port_open := true; wire := [] |}; last_tx := 0%float |}
      = Some p
    /\ payload = clean_string ascii_runtime (py "  MODE:1" ++ [13; 10])
    /\ send_line_text ascii_runtime (py "  MODE:1" ++ [13; 10]) = payload ++ [10]
    /\ ser (fst (send_line ascii_runtime
                   {| write_ok := true; flush_ok := true; tx_time := 5%float |}
                   {| ser := Some {| port_open := true; wire := [] |};
                      last_tx := 0%float |}
                   (py "  MODE:1" ++ [13; 10])))
       = Some {| port_open := true; wire := wire p ++ [payload ++ [10]] |}
    /\ Forall (fun c => 32 <= c <= 126) payload
    /\ ~ In 0 payload /\ ~ In 13 payload /\ ~ In 10 payload.
Proof.
  apply (send_line_writes_clean_line ascii_runtime
           {| write_ok := true; flush_ok := true; tx_time := 5%float |}
           {| ser := Some {| port_open := true; wire := [] |};
              last_tx := 0%float |}
           (py "  MODE:1" ++ [13; 10])); reflexivity.
Defined.

Example send_line_example :
  send_line_text ascii_runtime (py "  MODE:1" ++ [13; 10]) = py "MODE:1" ++ [10].
Proof. reflexivity. Qed.

(** ** C5: the three feature flags exclude each other *)

Lemma preserves_ret {S A X : Type} (obs : S -> X) (a : A) :
  preserves obs (ret a).
Proof. intros s. reflexivity. Qed.

Lemma preserves_lift {S A X : Type} (obs : S -> X) (o : outcome A) :
  preserves obs (lift o).
Proof. intros s. reflexivity. Qed.

Lemma preserves_bind {S A B X : Type} (obs : S -> X) (m : M S A) (k : A -> M S B) :
  preserves obs m -> (forall a, preserves obs (k a)) -> preserves obs (bind m k).
Proof.
  intros Hm Hk s. unfold bind. specialize (Hm s).
  destruct (m s) as [[a|e] s']; simpl in *.
  - now rewrite Hk.
  - exact Hm.
Qed.

Lemma preserves_try_pass {S X : Type} (obs : S -> X) (m : M S unit) :
  preserves obs m -> preserves obs (try_pass m).
Proof. intros Hm s. apply Hm. Qed.

Lemma returns_try_pass {S : Type} (m : M S unit) : returns (try_pass m).
Proof. intros s. now exists tt. Qed.

Lemma returns_ret {S A : Type} (a : A) : returns (ret (S := S) a).
Proof. intros s. now exists a. Qed.

Lemma returns_modify {S : Type} (f : S -> S) : returns (modify f).
Proof. intros s. now exists tt. Qed.

Lemma returns_bind {S A B : Type} (m : M S A) (k : A -> M S B) :
  returns m -> (forall a, returns (k a)) -> returns (bind m k).
Proof.
  intros Hm Hk s. unfold bind. destruct (Hm s) as [a Ha].
  destruct (m s) as [[a'|e] s']; simpl in Ha; [|discriminate].
  apply Hk.
Qed.

Module BackendFacts.
Import Backend.

Lemma on_lcd_flags {A : Type} (m : M Lcd.LcdState A) : preserves flags (on_lcd m).
Proof. intros b. unfold on_lcd. now destruct (m (lcd b)). Qed.

Lemma on_matrix_flags {A : Type} (m : M Matrix.MatrixState A) :
  preserves flags (on_matrix m).
Proof. intros b. unfold on_matrix. now destruct (m (matrix b)). Qed.

Lemma send_to_device_flags (rt : PyRuntime) (io : DeviceIo) (line : str) :
  preserves flags (send_to_device rt io line).
Proof.
  unfold send_to_device. apply preserves_bind; [intros b; reflexivity|].
  intros ok. apply preserves_bind; [|intros; apply preserves_ret].
  apply preserves_try_pass, preserves_bind; [apply on_lcd_flags|].
  intros _. destruct (startswith line (py "V:")).
  - apply preserves_bind; [apply preserves_lift | intros; apply on_matrix_flags].
  - destruct (startswith line (py "FB:")).
    + apply on_matrix_flags.
    + apply preserves_ret.
Qed.

Lemma send_to_device_returns (rt : PyRuntime) (io : DeviceIo) (line : str) :
  returns (send_to_device rt io line).
Proof.
  unfold send_to_device. apply returns_bind.
  - intros b. eexists. reflexivity.
  - intros ok. apply returns_bind; [apply returns_try_pass|].
    intros; apply returns_ret.
Qed.

Lemma toggle_channel_mode_result (rt : PyRuntime) (io : DeviceIo) (b : Backend) :
  exists b',
    toggle_channel_mode rt io b = (Ok tt, b')
    /\ CHANNEL_ENABLED b' = negb (CHANNEL_ENABLED b)
    /\ AUDIO_MODE_ENABLED b'
       = (if CHANNEL_ENABLED b then AUDIO_MODE_ENABLED b else false)
    /\ LOGO_ENABLED b' = (if CHANNEL_ENABLED b then LOGO_ENABLED b else false).
Proof.
  unfold toggle_channel_mode, bind, modify, get.
  destruct (CHANNEL_ENABLED b) eqn:Hch; simpl.
  - eexists; split; [reflexivity|]. simpl. auto.
  - eexists; split; [reflexivity|]. simpl. auto.
Qed.

Lemma toggle_audio_mode_result (rt : PyRuntime) (io : DeviceIo) (b : Backend) :
  exists b',
    toggle_audio_mode rt io b = (Ok tt, b')
    /\ AUDIO_MODE_ENABLED b' = negb (AUDIO_MODE_ENABLED b)
    /\ CHANNEL_ENABLED b'
       = (if AUDIO_MODE_ENABLED b then CHANNEL_ENABLED b else false)
    /\ LOGO_ENABLED b' = (if AUDIO_MODE_ENABLED b then LOGO_ENABLED b else false).
Proof.
  unfold toggle_audio_mode, bind, modify, get.
  destruct (AUDIO_MODE_ENABLED b) eqn:Hch; simpl.
  - eexists; split; [reflexivity|]. simpl. auto.
  - eexists; split; [reflexivity|]. simpl. auto.
Qed.

Lemma toggle_logo_mode_result (rt : PyRuntime) (io : DeviceIo) (b : Backend) :
  exists b',
    toggle_logo_mode rt io b = (Ok tt, b')
    /\ LOGO_ENABLED b' = negb (LOGO_ENABLED b)
    /\ CHANNEL_ENABLED b'
       = (if LOGO_ENABLED b then CHANNEL_ENABLED b else false)
    /\ AUDIO_MODE_ENABLED b'
       = (if LOGO_ENABLED b then AUDIO_MODE_ENABLED b else false).
Proof.
  unfold toggle_logo_mode, bind, modify, get, ret.
  destruct (LOGO_ENABLED b) eqn:Hch; simpl.
  - eexists; split; [reflexivity|]. simpl. auto.
  - eexists; split; [reflexivity|]. simpl. auto.
Qed.

Lemma run_toggle_exclusive (rt : PyRuntime) (c : toggle * DeviceIo) (b : Backend) :
  exclusive b ->
  exists b', run_toggle rt c b = (Ok tt, b') /\ exclusive b'.
Proof.
  intros (H1 & H2 & H3). destruct c as [[| |] io]; unfold run_toggle; simpl.
  - destruct (toggle_channel_mode_result rt io b) as (b' & E & Hc & Ha & Hl).
    exists b'. split; [exact E|]. unfold exclusive. rewrite Hc, Ha, Hl.
    destruct (CHANNEL_ENABLED b), (AUDIO_MODE_ENABLED b), (LOGO_ENABLED b);
      simpl in *; auto.
  - destruct (toggle_audio_mode_result rt io b) as (b' & E & Ha & Hc & Hl).
    exists b'. split; [exact E|]. unfold exclusive. rewrite Hc, Ha, Hl.
    destruct (CHANNEL_ENABLED b), (AUDIO_MODE_ENABLED b), (LOGO_ENABLED b);
      simpl in *; auto.
  - destruct (toggle_logo_mode_result rt io b) as (b' & E & Hl & Hc & Ha).
    exists b'. split; [exact E|]. unfold exclusive. rewrite Hc, Ha, Hl.
    destruct (CHANNEL_ENABLED b), (AUDIO_MODE_ENABLED b), (LOGO_ENABLED b);
      simpl in *; auto.
Qed.

Lemma run_toggles_exclusive (rt : PyRuntime) (cs : list (toggle * DeviceIo)) :
  forall b, exclusive b ->
  exists b', run_toggles rt cs b = (Ok tt, b') /\ exclusive b'.
Proof.
  induction cs as [|c cs IH]; intros b Hb.
  - exists b. split; [reflexivity | exact Hb].
  - destruct (run_toggle_exclusive rt c b Hb) as (b1 & E1 & Hb1).
    destruct (IH b1 Hb1) as (b2 & E2 & Hb2).
    exists b2. split; [|exact Hb2].
    unfold run_toggles in *. simpl. unfold bind at 1. now rewrite E1.
Qed.

(** C5. From a state in which at most one of [CHANNEL_ENABLED],
    [AUDIO_MODE_ENABLED] and [LOGO_ENABLED] is set, every run of calls to
    the three toggles returns and ends in such a state; and a toggle that
    switches its own flag on leaves the other two off. *)
Theorem toggles_mutually_exclusive
  (rt : PyRuntime) (cs : list (toggle * DeviceIo)) (b : Backend) :
  exclusive b ->
  (exists b', run_toggles rt cs b = (Ok tt, b') /\ exclusive b')
  /\ (forall io, CHANNEL_ENABLED b = false ->
        flags (snd (toggle_channel_mode rt io b)) = (true, false, false))
  /\ (forall io, AUDIO_MODE_ENABLED b = false ->
        flags (snd (toggle_audio_mode rt io b)) = (false, true, false))
  /\ (forall io, LOGO_ENABLED b = false ->
        flags (snd (toggle_logo_mode rt io b)) = (false, false, true)).
Proof.
  intros Hb. split; [now apply run_toggles_exclusive|].
  split; [|split]; intros io Hoff.
  - destruct (toggle_channel_mode_result rt io b) as (b' & E & Hc & Ha & Hl).
    rewrite E. unfold flags. simpl. now rewrite Hc, Ha, Hl, Hoff.
  - destruct (toggle_audio_mode_result rt io b) as (b' & E & Ha & Hc & Hl).
    rewrite E. unfold flags. simpl. now rewrite Hc, Ha, Hl, Hoff.
  - destruct (toggle_logo_mode_result rt io b) as (b' & E & Hl & Hc & Ha).
    rewrite E. unfold flags. simpl. now rewrite Hc, Ha, Hl, Hoff.
Qed.

Lemma toggles_mutually_exclusive_witness :
  exclusive (init no_link 0%float)
  /\ exclusive
       (snd (run_toggles ascii_runtime
               [(ToggleChannel, quiet_io 1%float); (ToggleAudio, quiet_io 2%float);
                (ToggleLogo, quiet_io 3%float)]
               (init no_link 0%float))).
Proof.
  assert (H : exclusive (init no_link 0%float)) by (repeat split).
  split; [exact H|].
  destruct (toggles_mutually_exclusive ascii_runtime
              [(ToggleChannel, quiet_io 1%float); (ToggleAudio, quiet_io 2%float);
               (ToggleLogo, quiet_io 3%float)]
              (init no_link 0%float) H) as [(b' & E & Hb') _].
  rewrite E. exact Hb'.
Defined.

(** Channel mode and then audio mode: audio is on and channel is off; and
    the other way round; logo mode after either clears both. *)
Example channel_then_audio :
  flags (snd (run_toggles ascii_runtime
                [(ToggleChannel, quiet_io 1%float); (ToggleAudio, quiet_io 2%float)]
                (init no_link 0%float))) = (false, true, false)
  /\ flags (snd (run_toggles ascii_runtime
                   [(ToggleAudio, quiet_io 1%float); (ToggleChannel, quiet_io 2%float)]
                   (init no_link 0%float))) = (true, false, false)
  /\ flags (snd (run_toggles ascii_runtime
                   [(ToggleAudio, quiet_io 1%float); (ToggleLogo, quiet_io 2%float)]
                   (init no_link 0%float))) = (false, false, true).
Proof. repeat split. Qed.

End BackendFacts.

(** ** C1 and C7: the dot matrix *)

Module MatrixFacts.
Import Matrix.

Lemma clamp_index_take (n a : Z) :
  0 <= a <= 64 -> 64 <= n -> clamp_index 64 a = clamp_index n a.
Proof.
  intros Ha Hn. unfold clamp_index.
  destruct (Z.ltb_spec a 0); lia.
Qed.

Lemma slice_take_64 (s : str) (a b : Z) :
  0 <= a <= 64 -> 0 <= b <= 64 -> 64 <= len s ->
  slice (take 64 s) a b = slice s a b.
Proof.
  intros Ha Hb Hs. unfold slice.
  assert (Hl : len (take 64 s) = 64).
  { unfold len in *. rewrite length_take. lia. }
  rewrite Hl, !(clamp_index_take (len s)) by assumption.
  assert (Hca : 0 <= clamp_index (len s) a <= 64)
    by (unfold clamp_index; destruct (Z.ltb_spec a 0); lia).
  assert (Hcb : 0 <= clamp_index (len s) b <= 64)
    by (unfold clamp_index; destruct (Z.ltb_spec b 0); lia).
  set (x := clamp_index (len s) a) in *. set (y := clamp_index (len s) b) in *.
  rewrite skipn_firstn_comm, take_take. f_equal. lia.
Qed.

(** A frame longer than 64 characters is read as its first 64. *)
Lemma apply_fb_payload_prefix (rt : PyRuntime) (p : str) (m : MatrixState) :
  64 <= len p ->
  apply_fb_payload rt p m = apply_fb_payload rt (take 64 p) m.
Proof.
  intros Hp. unfold apply_fb_payload.
  assert (Hl : len (take 64 p) = 64).
  { unfold len in *. rewrite length_take. lia. }
  rewrite Hl.
  destruct (Z.ltb_spec (len p) (8 * 8)) as [?|_]; [lia|].
  change (64 <? 8 * 8) with false. cbv iota.
  unfold range. cbn [seq collect].
  rewrite !slice_take_64 by (simpl; lia).
  reflexivity.
Qed.

(** C1 (as the code has it). A payload shorter than 64 characters leaves
    the matrix (mode, pixels, levels) as it was; a longer one is read as its
    first 64 characters; and the 64-character all-F payload switches to
    frame-buffer mode with every one of the 8x32 pixels set to 1. *)
Theorem apply_fb_payload_spec (rt : PyRuntime) (m : MatrixState) (p : str) :
  (len p < 64 -> apply_fb_payload rt p m = (Ok tt, m))
  /\ (64 <= len p ->
        apply_fb_payload rt p m = apply_fb_payload rt (take 64 p) m)
  /\ apply_fb_payload rt (replicate 64 70) m
     = (Ok tt, {| mode := FB; pixels := all_lit; vu_levels := vu_levels m;
                  _last_decay := _last_decay m |}).
Proof.
  split; [|split].
  - intros H. unfold apply_fb_payload.
    destruct (Z.ltb_spec (len p) (8 * 8)) as [_|?]; [reflexivity | lia].
  - apply apply_fb_payload_prefix.
  - destruct m, rt. vm_compute. reflexivity.
Qed.

Lemma apply_fb_payload_spec_witness :
  apply_fb_payload ascii_runtime (py "FFFF") (init 0%float) = (Ok tt, init 0%float)
  /\ apply_fb_payload ascii_runtime (py "0000000100000000000000000000000000000000000000000000000000000000FFFFFFFF") (init 0%float)
     = apply_fb_payload ascii_runtime (py "0000000100000000000000000000000000000000000000000000000000000000") (init 0%float).
Proof.
  destruct (apply_fb_payload_spec ascii_runtime (init 0%float) (py "FFFF"))
    as (H1 & _).
  destruct (apply_fb_payload_spec ascii_runtime (init 0%float)
              (py "0000000100000000000000000000000000000000000000000000000000000000FFFFFFFF"))
    as (_ & H2 & _).
  split.
  - apply H1. vm_compute. reflexivity.
  - apply H2. vm_compute. discriminate.
Defined.

(** The claim as the spec words it fails twice: a 72-character payload is
    not 64 long, and a 64-character payload with a [G] in it is not hex, yet
    each changes the matrix (the second after an all-F frame, which it
    wipes). *)
Lemma apply_fb_payload_malformed_changes :
  (len (replicate 72 70) <> 64
   /\ snd (apply_fb_payload ascii_runtime (replicate 72 70) (init 0%float))
      <> init 0%float)
  /\ (let lit := snd (apply_fb_payload ascii_runtime (replicate 64 70) (init 0%float)) in
      let bad := 71 :: replicate 63 70 in
      len bad = 64
      /\ py_int ascii_runtime 16 (slice bad 0 8) = Raised ValueError
      /\ pixels lit = all_lit
      /\ pixels (snd (apply_fb_payload ascii_runtime bad lit)) = blank_pixels
      /\ snd (apply_fb_payload ascii_runtime bad lit) <> lit).
Proof.
  split; [split|repeat split]; try (vm_compute; congruence).
Qed.

(** The comparison of a float with an int is exact at every size of the
    int: nothing is rounded to a float and nothing wraps. *)
Lemma float_lt_int_exact :
  float_lt_int 500%float 90 = false
  /\ float_lt_int 89.5%float 90 = true
  /\ float_lt_int 90%float 90 = false
  /\ float_lt_int 1000%float (2 ^ 63) = true
  /\ float_lt_int 1000%float (2 ^ 64 + 90) = true
  /\ float_lt_int 9007199254740992%float (2 ^ 53 + 1) = true
  /\ float_lt_int 9007199254740992%float (2 ^ 53) = false
  /\ float_lt_int (-3.5)%float (-3) = true
  /\ float_lt_int 1e300%float (10 ^ 301) = true
  /\ float_lt_int PrimFloat.nan 1 = false
  /\ float_lt_int PrimFloat.infinity (2 ^ 2000) = false
  /\ float_lt_int PrimFloat.neg_infinity (- 2 ^ 2000) = true.
Proof.
  repeat match goal with |- _ /\ _ => split end; vm_compute; reflexivity.
Qed.

(** A finite float below an int is below it as a number: with the float
    written [m * 2^e], the test is the order of the integers, scaled by the
    power of two. *)
Lemma float_lt_int_finite (x : float) (s : bool) (m : positive) (e n : Z) :
  Prim2SF x = S754_finite s m e ->
  float_lt_int x n = true
  <-> (if s then Z.neg m else Z.pos m) * 2 ^ Z.max e 0 < n * 2 ^ Z.max (- e) 0.
Proof.
  intros Hx. unfold float_lt_int. rewrite Hx.
  destruct (Z.leb_spec 0 e) as [He|He].
  - rewrite (Z.max_l e 0), (Z.max_r (- e) 0) by lia.
    rewrite Z.ltb_lt. change (2 ^ 0) with 1. lia.
  - rewrite (Z.max_r e 0), (Z.max_l (- e) 0) by lia.
    rewrite Z.ltb_lt. change (2 ^ 0) with 1. lia.
Qed.

(** C7. After [apply_vu([8]*32)], one [tick_decay] with the feed disabled
    and the step interval elapsed brings every one of the 32 levels from 8
    to 7 and redraws the columns (the top row dark, the other seven lit);
    and [tick_decay] with the feed enabled never changes the levels. The
    interval has elapsed when the code's own test
    [(now - _last_decay) * 1000.0 < step_ms] is false, the float set
    against the int exactly as Python compares them. *)
Theorem tick_decay_spec
  (m : MatrixState) (t0 t1 : float) (step_ms : Z) :
  (float_lt_int ((t1 - t0) * 1000)%float step_ms = false ->
   vu_levels (snd (apply_vu t0 (replicate 32 8) m)) = replicate 32 8
   /\ tick_decay t1 false step_ms (snd (apply_vu t0 (replicate 32 8) m))
      = (Ok tt, {| mode := VU; pixels := decayed_pixels;
                   vu_levels := replicate 32 7; _last_decay := t1 |}))
  /\ (exists m', tick_decay t1 true step_ms m = (Ok tt, m')
                 /\ vu_levels m' = vu_levels m).
Proof.
  split.
  - intros Hel.
    assert (E : snd (apply_vu t0 (replicate 32 8) m)
                = {| mode := VU; pixels := all_lit;
                     vu_levels := replicate 32 8; _last_decay := t0 |}).
    { destruct m. vm_compute. reflexivity. }
    rewrite E. split; [reflexivity|].
    unfold tick_decay, bind at 1, get.
    cbn [mode _last_decay]. rewrite Hel.
    vm_compute. reflexivity.
  - unfold tick_decay, bind, get. destruct (mode m) eqn:Hm.
    + exists m. split; reflexivity.
    + eexists. split; reflexivity.
    + exists m. split; reflexivity.
Qed.

Lemma tick_decay_spec_witness :
  float_lt_int ((10.5 - 10) * 1000)%float 90 = false
  /\ tick_decay 10.5%float false 90
       (snd (apply_vu 10%float (replicate 32 8) (init 0%float)))
     = (Ok tt, {| mode := VU; pixels := decayed_pixels;
                  vu_levels := replicate 32 7; _last_decay := 10.5%float |}).
Proof.
  split; [vm_compute; reflexivity|].
  apply (tick_decay_spec (init 0%float) 10%float 10.5%float 90).
  vm_compute. reflexivity.
Defined.

(** With a step no elapsed time reaches, the same tick leaves the levels at
    8: a second is 1000 ms, below [2^53 + 1] and below [2^63]. *)
Lemma tick_decay_step_not_elapsed :
  let m := snd (apply_vu 10%float (replicate 32 8) (init 0%float)) in
  float_lt_int ((11 - 10) * 1000)%float (2 ^ 63) = true
  /\ tick_decay 11%float false (2 ^ 63) m = (Ok tt, m)
  /\ tick_decay 11%float false (2 ^ 53 + 1) m = (Ok tt, m)
  /\ vu_levels m = replicate 32 8.
Proof.
  cbv zeta. split; [|split; [|split]]; vm_compute; reflexivity.
Qed.

End MatrixFacts.

(** ** The display: rows and their closed forms *)

Module LcdFacts.
Import Lcd.

Ltac explode l H :=
  repeat (destruct l as [|? l]; [discriminate H|]; simpl in H);
  destruct l; [clear H | discriminate H].

Lemma pad14_length (text : str) : length (pad14 text) = 14%nat.
Proof.
  unfold pad14. destruct (Z.ltb_spec 14 (len text)) as [H|H].
  - rewrite slice_to_take by lia. change (Z.to_nat 14) with 14%nat.
    unfold len in *. rewrite length_app, length_take.
    unfold spaces. rewrite length_replicate, ?length_take. lia.
  - unfold spaces, len in *. rewrite length_app, length_replicate. lia.
Qed.

Lemma write_icon_prefix_line_ok (row : nat) (icon : Z) (text : str) (st : LcdState) :
  (row < 2)%nat -> wf_ddram (ddram st) ->
  write_icon_prefix_line row icon text st
  = (Ok tt, set_ddram (<[row := icon_row icon text]> (ddram st)) st).
Proof.
  intros Hrow (r0 & r1 & Hd & H0 & H1).
  unfold write_icon_prefix_line, icon_row.
  change ((if 14 <? len text then slice_to text 14 else text)
          ++ spaces (14 - len (if 14 <? len text then slice_to text 14 else text)))
    with (pad14 text).
  pose proof (pad14_length text) as Ht.
  generalize dependent (pad14 text). intros t Ht.
  generalize (Z.land icon 255). intros g.
  explode t Ht. explode r0 H0. explode r1 H1.
  destruct st; simpl in Hd; subst.
  destruct row as [|[|row]]; [reflexivity | reflexivity | lia].
Qed.

Lemma write_line_ok (row : nat) (text : str) (st : LcdState) :
  (row < 2)%nat -> wf_ddram (ddram st) ->
  write_line row text st
  = (Ok tt, set_ddram (<[row := pad16 text]> (ddram st)) st).
Proof.
  intros Hrow (r0 & r1 & Hd & H0 & H1).
  unfold write_line.
  pose proof (pad16_length text) as Ht.
  rewrite slice_to_take by lia. change (Z.to_nat 16) with 16%nat.
  rewrite take_ge by lia.
  generalize dependent (pad16 text). intros t Ht.
  explode t Ht. explode r0 H0. explode r1 H1.
  destruct st; simpl in Hd; subst.
  destruct row as [|[|row]]; [reflexivity | reflexivity | lia].
Qed.

Lemma visit_bottom15_length (a c : str) : length (visit_bottom15 a c) = 15%nat.
Proof.
  unfold visit_bottom15.
  set (b := py "ARI:" ++ a ++ py " CC:" ++ c).
  destruct (Z.ltb_spec 15 (len b)) as [H|H].
  - rewrite slice_to_take by lia. change (Z.to_nat 15) with 15%nat.
    unfold len in *. rewrite length_app, length_take.
    unfold spaces. rewrite length_replicate, ?length_take. lia.
  - unfold spaces, len in *. rewrite length_app, length_replicate. lia.
Qed.

Lemma draw_visit_header_counts_ok
  (rt : PyRuntime) (astro core : Z) (st : LcdState) :
  wf_ddram (ddram st) ->
  py_str_int rt astro = Ok (decimal astro) ->
  py_str_int rt core = Ok (decimal core) ->
  draw_visit_header_counts rt astro core st
  = (Ok tt,
     set_ddram (visit_rows astro core (box_step st))
       (set_last_visit_core core (set_last_visit_astro astro st))).
Proof.
  intros (r0 & r1 & Hd & H0 & H1) Ha Hc.
  unfold draw_visit_header_counts, visit_rows.
  unfold bind at 1. unfold modify at 1. unfold bind at 1. unfold modify at 1.
  unfold bind at 1, lift at 1. rewrite Ha. unfold bind at 1, lift at 1. rewrite Hc.
  change ((if 15 <? len (py "ARI:" ++ decimal astro ++ py " CC:" ++ decimal core)
           then slice_to (py "ARI:" ++ decimal astro ++ py " CC:" ++ decimal core) 15
           else py "ARI:" ++ decimal astro ++ py " CC:" ++ decimal core)
          ++ spaces (15 - len (if 15 <? len (py "ARI:" ++ decimal astro ++ py " CC:" ++ decimal core)
           then slice_to (py "ARI:" ++ decimal astro ++ py " CC:" ++ decimal core) 15
           else py "ARI:" ++ decimal astro ++ py " CC:" ++ decimal core)))
    with (visit_bottom15 (decimal astro) (decimal core)).
  pose proof (visit_bottom15_length (decimal astro) (decimal core)) as Hb.
  generalize dependent (visit_bottom15 (decimal astro) (decimal core)). intros b Hb.
  explode b Hb. explode r0 H0. explode r1 H1.
  destruct st; simpl in Hd; subst. reflexivity.
Qed.

(** ** C8: the scroll step *)

Lemma item_lookup {A : Type} (l : list A) (i : nat) (x : A) :
  l !! i = Some x -> item l (Z.of_nat i) = Ok x.
Proof.
  intros H. unfold item.
  destruct (Z.ltb_spec (Z.of_nat i) 0) as [?|_]; [lia|].
  destruct (Z.ltb_spec (Z.of_nat i) 0) as [?|_]; [lia|].
  now rewrite Nat2Z.id, H.
Qed.

Lemma ring_lookup (buf : str) (j : nat) :
  (j < 2 * length buf)%nat ->
  (buf ++ buf) !! j = buf !! Z.to_nat (Z.of_nat j mod len buf).
Proof.
  intros Hj. unfold len.
  destruct (Nat.lt_ge_cases j (length buf)) as [Hlt|Hge].
  - rewrite Z.mod_small by lia. rewrite Nat2Z.id. now apply lookup_app_l.
  - rewrite lookup_app_r by lia. f_equal.
    assert (E : Z.of_nat j = Z.of_nat (j - length buf) + 1 * Z.of_nat (length buf)) by lia.
    rewrite E, Z.mod_add by lia. rewrite Z.mod_small by lia. lia.
Qed.

Lemma collect_ring (buf : str) (pos : nat) (n : nat) :
  forall k : nat,
    (pos < length buf)%nat -> (k + n <= length buf)%nat ->
    collect (fun i => item buf ((Z.of_nat pos + Z.of_nat i) mod len buf)) (seq k n)
    = Ok (take n (drop (pos + k) (buf ++ buf))).
Proof.
  induction n as [|n IH]; intros k Hpos Hk; [reflexivity|].
  cbn [seq collect].
  assert (Hj : (pos + k < 2 * length buf)%nat) by lia.
  pose proof (ring_lookup buf (pos + k) Hj) as Hring.
  destruct ((buf ++ buf) !! (pos + k)%nat) as [x|] eqn:Hx.
  2:{ apply lookup_ge_None in Hx. rewrite length_app in Hx. lia. }
  assert (Hmod : 0 <= (Z.of_nat pos + Z.of_nat k) mod len buf)
    by (apply Z.mod_pos_bound; unfold len; lia).
  replace ((Z.of_nat pos + Z.of_nat k) mod len buf)
    with (Z.of_nat (Z.to_nat ((Z.of_nat pos + Z.of_nat k) mod len buf))) by lia.
  rewrite (item_lookup buf _ x).
  2:{ rewrite Hring. do 2 f_equal. lia. }
  rewrite (IH (S k)) by lia.
  rewrite (drop_S _ x (pos + k)) by exact Hx.
  replace (pos + S k)%nat with (S (pos + k)) by lia. reflexivity.
Qed.

Lemma pad14_short (t : str) :
  len t <= 14 -> pad14 t = t ++ replicate (14 - length t) 32.
Proof.
  intros H. unfold pad14.
  destruct (Z.ltb_spec 14 (len t)) as [?|_]; [lia|].
  unfold spaces, len in *. do 2 f_equal. lia.
Qed.

Lemma pad14_exact (t : str) : length t = 14%nat -> pad14 t = t.
Proof.
  intros H. rewrite pad14_short by (unfold len; lia).
  rewrite H. simpl. apply app_nil_r.
Qed.

Lemma setattr_eq (a : idx_attr) (v : Z) (st : LcdState) :
  setattr a v st = (Ok tt, set_idx a v st).
Proof. now destruct a. Qed.

(** C8. On a display with its two rows, the scroll step for a string of at
    most 14 characters shows the string as it is (glyph, blank, the string,
    blanks to the end of the row) and sets its cursor to 0; for a longer
    string it shows the 14-character window of the ring made of the string
    and four blanks, from position [cursor mod (len s + 4)], and adds one
    to the cursor. Nothing else changes. *)
Theorem scroll_text_line_icon_spec
  (row : nat) (text : str) (a : idx_attr) (icon : Z) (st : LcdState) :
  (row < 2)%nat -> wf_ddram (ddram st) ->
  (len text <= 14 ->
   scroll_text_line_icon row text a icon st
   = (Ok tt,
      set_idx a 0
        (set_ddram
           (<[row := Z.land icon 255 :: 32 :: text ++ replicate (14 - length text) 32]>
              (ddram st)) st)))
  /\ (14 < len text ->
      scroll_text_line_icon row text a icon st
      = (Ok tt,
         set_idx a (getattr st a + 1)
           (set_ddram
              (<[row := Z.land icon 255 :: 32 :: window text (getattr st a)]>
                 (ddram st)) st))).
Proof.
  intros Hrow Hwf. split; intros Hlen.
  - unfold scroll_text_line_icon, bind at 1, get.
    change (Z.of_nat 14) with 14.
    destruct (Z.leb_spec (len text) 14) as [_|?]; [|lia].
    unfold bind. rewrite write_icon_prefix_line_ok by assumption.
    rewrite setattr_eq. unfold icon_row. now rewrite pad14_short.
  - unfold scroll_text_line_icon, bind at 1, get.
    change (Z.of_nat 14) with 14.
    destruct (Z.leb_spec (len text) 14) as [?|_]; [lia|].
    set (buf := text ++ py "    ").
    assert (Hbuf : len buf = len text + 4).
    { unfold buf. rewrite len_app. reflexivity. }
    assert (Hpos : 0 <= getattr st a mod len buf < len buf)
      by (apply Z.mod_pos_bound; lia).
    set (pos := getattr st a mod len buf) in *.
    replace pos with (Z.of_nat (Z.to_nat pos)) by lia.
    unfold range, bind at 1, lift.
    rewrite (collect_ring buf (Z.to_nat pos) 14 0) by (unfold len in *; lia).
    unfold bind. rewrite write_icon_prefix_line_ok by assumption.
    rewrite setattr_eq. unfold icon_row, window.
    rewrite pad14_exact.
    + rewrite Nat.add_0_r. subst pos. now rewrite Hbuf.
    + rewrite length_take, length_drop, length_app. unfold len in *. lia.
Qed.

Lemma scroll_text_line_icon_spec_witness :
  scroll_text_line_icon 0 (py "Short") scroll_i_top_attr 0 Lcd.init
  = (Ok tt,
     set_idx scroll_i_top_attr 0
       (set_ddram [0 :: 32 :: py "Short         "; replicate 16 32] Lcd.init))
  /\ scroll_text_line_icon 1 (py "ABCDEFGHIJKLMNOPQ") scroll_i_bottom_attr 1
       (set_scroll_i_bottom 30 Lcd.init)
     = (Ok tt,
        set_idx scroll_i_bottom_attr 31
          (set_ddram [replicate 16 32; 1 :: 32 :: py "JKLMNOPQ    AB"]
             (set_scroll_i_bottom 30 Lcd.init))).
Proof.
  assert (Hwf : wf_ddram (ddram Lcd.init)).
  { exists (replicate 16 32), (replicate 16 32). repeat split. }
  split.
  - destruct (scroll_text_line_icon_spec 0 (py "Short") scroll_i_top_attr 0
                Lcd.init) as [H _]; [lia | exact Hwf |].
    rewrite H; [reflexivity | vm_compute; discriminate].
  - destruct (scroll_text_line_icon_spec 1 (py "ABCDEFGHIJKLMNOPQ")
                scroll_i_bottom_attr 1 (set_scroll_i_bottom 30 Lcd.init))
      as [_ H]; [lia | exact Hwf |].
    rewrite H; [reflexivity | vm_compute; reflexivity].
Defined.

(** ** C10 and C3: which commands take effect *)

Lemma startswith_prefix (s p : str) :
  startswith s p = true <-> exists r, s = p ++ r.
Proof.
  revert s. induction p as [|a p IH]; intros s; cbn [startswith].
  - split; [intros _; now exists s | reflexivity].
  - destruct s as [|b s].
    + split; [discriminate | intros [r Hr]; discriminate Hr].
    + rewrite andb_true_iff, Z.eqb_eq, IH. split.
      * intros [-> [r ->]]. now exists r.
      * intros [r Hr]. inversion Hr; subst. split; [reflexivity | now exists r].
Qed.

Lemma set_mode_by_num_other (rt : PyRuntime) (m : Z) :
  ~ is_mode_num m -> set_mode_by_num rt m = ret tt.
Proof.
  intros H. unfold set_mode_by_num, is_mode_num in *.
  repeat match goal with
         | |- context [?x =? ?y] => destruct (Z.eqb_spec x y); [exfalso; tauto|]
         end.
  reflexivity.
Qed.

Lemma handle_cmd_returns (rt : PyRuntime) (now : float) (cmd : str) (st : LcdState) :
  fst (handle_cmd rt now cmd st) = Ok tt.
Proof.
  unfold handle_cmd.
  repeat match goal with
         | |- context [if startswith ?c ?t then _ else _] =>
             destruct (startswith c t); [reflexivity|]
         end.
  reflexivity.
Qed.

(** C10. [handle_cmd] returns for every state and every string: it never
    raises. A [MODE:] command whose argument does not read as an integer,
    or reads as one that is not 1, 3, 4, 5, 7 or 8, and a command that
    carries none of the six tags, leave the state as it was. *)
Theorem handle_cmd_total
  (rt : PyRuntime) (now : float) (cmd : str) (st : LcdState) :
  fst (handle_cmd rt now cmd st) = Ok tt
  /\ (startswith (strip cmd) (py "MODE:") = true ->
      (forall m, py_int rt 10 (slice_from (strip cmd) 5) = Ok m -> ~ is_mode_num m) ->
      handle_cmd rt now cmd st = (Ok tt, st))
  /\ (has_known_tag (strip cmd) = false ->
      handle_cmd rt now cmd st = (Ok tt, st)).
Proof.
  split; [apply handle_cmd_returns|]. split.
  - intros Htag Harg. unfold handle_cmd. rewrite Htag.
    unfold try_pass, bind, lift.
    destruct (py_int rt 10 (slice_from (strip cmd) 5)) as [m|e] eqn:Hm.
    + now rewrite (set_mode_by_num_other rt m (Harg m eq_refl)).
    + reflexivity.
  - intros Hno. unfold has_known_tag, known_tags in Hno. cbn [existsb] in Hno.
    repeat (apply orb_false_iff in Hno; destruct Hno as [? Hno]).
    unfold handle_cmd.
    repeat match goal with
           | H : startswith _ _ = false |- _ => rewrite H; clear H
           end.
    reflexivity.
Qed.

Lemma handle_cmd_total_witness :
  handle_cmd ascii_runtime 0%float (py " MODE:2 ") Lcd.init = (Ok tt, Lcd.init)
  /\ handle_cmd ascii_runtime 0%float (py "MODE:x1") Lcd.init = (Ok tt, Lcd.init)
  /\ handle_cmd ascii_runtime 0%float (py "SYS:12,3.4|5,67") Lcd.init
     = (Ok tt, Lcd.init).
Proof.
  split; [|split].
  - destruct (handle_cmd_total ascii_runtime 0%float (py " MODE:2 ") Lcd.init)
      as (_ & H & _).
    apply H; [reflexivity|].
    intros m Hm. vm_compute in Hm. inversion Hm; subst.
    unfold is_mode_num. lia.
  - destruct (handle_cmd_total ascii_runtime 0%float (py "MODE:x1") Lcd.init)
      as (_ & H & _).
    apply H; [reflexivity|].
    intros m Hm. vm_compute in Hm. discriminate Hm.
  - destruct (handle_cmd_total ascii_runtime 0%float (py "SYS:12,3.4|5,67")
                Lcd.init) as (_ & _ & H).
    apply H. reflexivity.
Defined.

Lemma tag_exclusive (p : str) :
  forall c q : str,
    startswith c p = true -> startswith p q = false -> startswith q p = false ->
    startswith c q = false.
Proof.
  induction p as [|a p IH]; intros c q Hc Hpq Hqp.
  - discriminate Hqp.
  - destruct q as [|b q]; [discriminate Hpq|].
    destruct c as [|x c]; [reflexivity|].
    cbn [startswith] in *.
    apply andb_true_iff in Hc. destruct Hc as [Hax Hc].
    apply Z.eqb_eq in Hax. subst x.
    destruct (Z.eqb_spec b a) as [->|Hne].
    + rewrite Z.eqb_refl in *. simpl in *. now apply IH.
    + reflexivity.
Qed.

Ltac other_tags H :=
  repeat match goal with
         | |- context [startswith ?c ?q] =>
             lazymatch type of H with
             | startswith c q = true => fail
             | startswith c _ = true =>
                 rewrite (tag_exclusive _ c q H eq_refl eq_refl)
             end
         end;
  rewrite H.

Lemma contains_bar (x y : str) : contains (x ++ 124 :: y) 124 = true.
Proof.
  unfold contains. apply existsb_exists. exists 124. split.
  - apply in_or_app. right. now left.
  - reflexivity.
Qed.

Lemma split_once_bar (x y : str) :
  ~ In 124 x -> split_once (x ++ 124 :: y) 124 = (x, y).
Proof.
  induction x as [|a x IH]; intros Hx; cbn [split_once app].
  - reflexivity.
  - destruct (Z.eqb_spec a 124) as [->|Hne].
    + exfalso. apply Hx. now left.
    + rewrite IH; [reflexivity|]. intros Hin. apply Hx. now right.
Qed.

(** C3 (as the code has it). In a mode other than its own, a [LIVE:], a
    [CLOCK:] or a [TEXT:] command leaves the whole state as it was. A
    [MUSIC:] command outside MUSIC mode leaves the mode, both display
    memories and every other field as they were, but still caches the
    command's title and artist, sanitized, and ["Unknown Title"] or
    ["Unknown Artist"] where the sanitized text is empty, resets both scroll
    cursors and restarts the scroll timer. The title is what stands before
    the first bar, the artist what follows it; without a bar the whole body
    is the title. *)
Theorem mode_specific_commands_gated
  (rt : PyRuntime) (now : float) (cmd : str) (st : LcdState) :
  (startswith (strip cmd) (py "LIVE:") = true -> mode st <> VISIT ->
   handle_cmd rt now cmd st = (Ok tt, st))
  /\ (startswith (strip cmd) (py "CLOCK:") = true -> mode st <> CLOCK ->
      handle_cmd rt now cmd st = (Ok tt, st))
  /\ (startswith (strip cmd) (py "TEXT:") = true -> mode st <> TEXT ->
      handle_cmd rt now cmd st = (Ok tt, st))
  /\ (forall title artist : str,
        strip cmd = py "MUSIC:" ++ title ++ [124] ++ artist ->
        ~ In 124 title ->
        mode st <> MUSIC ->
        let top := or_else (clean_string rt title) (py "Unknown Title") in
        let bottom := or_else (clean_string rt artist) (py "Unknown Artist") in
        top <> [] /\ bottom <> []
        /\ handle_cmd rt now cmd st = (Ok tt, cache_music now top bottom st))
  /\ (forall title : str,
        strip cmd = py "MUSIC:" ++ title ->
        ~ In 124 title ->
        mode st <> MUSIC ->
        let top := or_else (clean_string rt title) (py "Unknown Title") in
        let bottom := or_else (clean_string rt []) (py "Unknown Artist") in
        top <> [] /\ bottom <> []
        /\ handle_cmd rt now cmd st = (Ok tt, cache_music now top bottom st)).
Proof.
  split; [|split; [|split]].
  1-3: intros Htag Hmode; unfold handle_cmd;
       other_tags Htag; unfold try_pass, bind, lift, get.
  - destruct (py_int rt 10 _) as [astro|e]; [|reflexivity].
    destruct (py_int rt 10 _) as [core|e]; [|reflexivity].
    destruct (mode st); try reflexivity. congruence.
  - destruct (if contains _ 124 then _ else _) as [top bottom].
    unfold bind, get. destruct (mode st); try reflexivity. congruence.
  - destruct (mode st); try reflexivity. congruence.
  - assert (Hne : forall t d : str, d <> [] -> or_else (clean_string rt t) d <> []).
    { intros t d Hd. unfold or_else.
      destruct (clean_string rt t); [exact Hd|discriminate]. }
    split.
    + intros title artist Hs Hbar Hmode. cbv zeta.
      split; [apply Hne; discriminate|]. split; [apply Hne; discriminate|].
      unfold handle_cmd. rewrite Hs.
      assert (Htag : startswith (py "MUSIC:" ++ title ++ [124] ++ artist)
                       (py "MUSIC:") = true)
        by (apply startswith_prefix; eexists; reflexivity).
      other_tags Htag.
      change 6 with (len (py "MUSIC:")). rewrite slice_from_app.
      cbn [app]. rewrite contains_bar, split_once_bar by exact Hbar.
      unfold try_pass, bind, modify, get, cache_music. cbn [fst snd].
      destruct st as [md]; cbn in *. destruct md; try reflexivity. congruence.
    + intros title Hs Hbar Hmode. cbv zeta.
      split; [apply Hne; discriminate|]. split; [apply Hne; discriminate|].
      assert (Hc : contains title 124 = false).
      { unfold contains. apply not_true_is_false. intros Hex.
        apply existsb_exists in Hex. destruct Hex as (c & Hin & Hc).
        apply Z.eqb_eq in Hc. subst c. contradiction. }
      unfold handle_cmd. rewrite Hs.
      assert (Htag : startswith (py "MUSIC:" ++ title) (py "MUSIC:") = true)
        by (apply startswith_prefix; eexists; reflexivity).
      other_tags Htag.
      change 6 with (len (py "MUSIC:")). rewrite slice_from_app.
      rewrite Hc.
      unfold try_pass, bind, modify, get, cache_music. cbn [fst snd].
      destruct st as [md]; cbn in *. destruct md; try reflexivity. congruence.
Qed.

Lemma mode_specific_commands_gated_witness :
  handle_cmd ascii_runtime 7%float (py "LIVE:12,7")
    (snd (enter_clock Lcd.init))
  = (Ok tt, snd (enter_clock Lcd.init))
  /\ handle_cmd ascii_runtime 7%float (py "CLOCK:12:00|Jan 1") Lcd.init
     = (Ok tt, Lcd.init)
  /\ handle_cmd ascii_runtime 7%float (py "TEXT:hello") Lcd.init
     = (Ok tt, Lcd.init)
  /\ handle_cmd ascii_runtime 7%float (py " MUSIC:Song|Band ") Lcd.init
     = (Ok tt, cache_music 7%float (py "Song") (py "Band") Lcd.init)
  /\ handle_cmd ascii_runtime 7%float (py "MUSIC: |") Lcd.init
     = (Ok tt, cache_music 7%float (py "Unknown Title") (py "Unknown Artist")
                 Lcd.init)
  /\ handle_cmd ascii_runtime 7%float (py "MUSIC:Song") Lcd.init
     = (Ok tt, cache_music 7%float (py "Song") (py "Unknown Artist") Lcd.init).
Proof.
  split; [|split; [|split; [|split; [|split]]]].
  - destruct (mode_specific_commands_gated ascii_runtime 7%float
                (py "LIVE:12,7") (snd (enter_clock Lcd.init))) as (H & _).
    apply H; [vm_compute; reflexivity | vm_compute; discriminate].
  - destruct (mode_specific_commands_gated ascii_runtime 7%float
                (py "CLOCK:12:00|Jan 1") Lcd.init) as (_ & H & _).
    apply H; [reflexivity | discriminate].
  - destruct (mode_specific_commands_gated ascii_runtime 7%float
                (py "TEXT:hello") Lcd.init) as (_ & _ & H & _).
    apply H; [reflexivity | discriminate].
  - destruct (mode_specific_commands_gated ascii_runtime 7%float
                (py " MUSIC:Song|Band ") Lcd.init) as (_ & _ & _ & H & _).
    destruct (H (py "Song") (py "Band")) as (_ & _ & E).
    + vm_compute. reflexivity.
    + intros Hin. vm_compute in Hin. intuition discriminate.
    + discriminate.
    + etransitivity; [exact E|]. vm_compute. reflexivity.
  - destruct (mode_specific_commands_gated ascii_runtime 7%float
                (py "MUSIC: |") Lcd.init) as (_ & _ & _ & H & _).
    destruct (H (py " ") []) as (_ & _ & E).
    + vm_compute. reflexivity.
    + intros Hin. vm_compute in Hin. intuition discriminate.
    + discriminate.
    + etransitivity; [exact E|]. vm_compute. reflexivity.
  - destruct (mode_specific_commands_gated ascii_runtime 7%float
                (py "MUSIC:Song") Lcd.init) as (_ & _ & _ & _ & H).
    destruct (H (py "Song")) as (_ & _ & E).
    + vm_compute. reflexivity.
    + intros Hin. vm_compute in Hin. intuition discriminate.
    + discriminate.
    + etransitivity; [exact E|]. vm_compute. reflexivity.
Defined.

(** The claim as the spec words it fails for [MUSIC:]: in VISIT mode the
    command is not a no-op, it replaces the cached title and artist. *)
Lemma music_outside_music_mode_changes_state :
  mode Lcd.init = VISIT
  /\ scroll_top Lcd.init = []
  /\ scroll_top (snd (handle_cmd ascii_runtime 7%float (py "MUSIC:Song|Band") Lcd.init))
     = py "Song"
  /\ snd (handle_cmd ascii_runtime 7%float (py "MUSIC:Song|Band") Lcd.init)
     <> Lcd.init.
Proof.
  repeat split. intros H.
  apply (f_equal scroll_top) in H. vm_compute in H. discriminate H.
Qed.

(** ** C4: the [MUSIC:] command in MUSIC mode *)

Lemma lstrip_app_nonspace (x : str) (c : Z) (y : str) :
  py_isspace c = false -> lstrip (x ++ c :: y) = lstrip x ++ c :: y.
Proof.
  intros Hc. induction x as [|a x IH]; cbn [lstrip app].
  - now rewrite Hc.
  - destruct (py_isspace a); [exact IH | reflexivity].
Qed.

Lemma rstrip_app_nonspace (x : str) (c : Z) (y : str) :
  py_isspace c = false -> rstrip (x ++ c :: y) = x ++ c :: rstrip y.
Proof.
  intros Hc. unfold rstrip.
  rewrite rev_app_distr. cbn [rev]. rewrite <- app_assoc. cbn [app].
  rewrite lstrip_app_nonspace by exact Hc.
  rewrite rev_app_distr. cbn [rev]. rewrite rev_involutive, <- app_assoc.
  reflexivity.
Qed.

(** A command that starts with a tag and has a bar in it keeps all but the
    white space at its end. *)
Lemma strip_tagged (tag : str) (c0 : Z) (x y : str) :
  py_isspace c0 = false ->
  strip ((c0 :: tag) ++ x ++ [124] ++ y) = (c0 :: tag) ++ x ++ [124] ++ rstrip y.
Proof.
  intros Hc. unfold strip. cbn [app lstrip]. rewrite Hc.
  replace (c0 :: tag ++ x ++ 124 :: y) with ((c0 :: tag ++ x) ++ 124 :: y)
    by (cbn [app]; now rewrite <- app_assoc).
  rewrite rstrip_app_nonspace by reflexivity.
  cbn [app]. now rewrite <- app_assoc.
Qed.

Lemma pad14_take (t : str) : pad14 t = take 14 t ++ replicate (14 - length t) 32.
Proof.
  unfold pad14. destruct (Z.ltb_spec 14 (len t)) as [H|H].
  - rewrite slice_to_take by lia. change (Z.to_nat 14) with 14%nat.
    unfold spaces, len in *. rewrite length_take. do 2 f_equal. lia.
  - unfold spaces, len in *. rewrite take_ge by lia. do 2 f_equal. lia.
Qed.

Lemma pad14_slice_15 (t : str) : pad14 (slice_to t 15) = pad14 t.
Proof.
  rewrite slice_to_take by lia. change (Z.to_nat 15) with 15%nat.
  rewrite !pad14_take, take_take, length_take.
  change (14 `min` 15)%nat with 14%nat. f_equal. f_equal. lia.
Qed.

Lemma pad14_slice_14 (t : str) : pad14 (slice_to t 14) = pad14 t.
Proof.
  rewrite slice_to_take by lia. change (Z.to_nat 14) with 14%nat.
  rewrite !pad14_take, take_take, length_take.
  change (14 `min` 14)%nat with 14%nat. f_equal. f_equal. lia.
Qed.

Lemma wf_ddram_insert (row : nat) (r : list Z) (d : list (list Z)) :
  wf_ddram d -> length r = 16%nat -> wf_ddram (<[row := r]> d).
Proof.
  intros (r0 & r1 & -> & H0 & H1) Hr.
  destruct row as [|[|row]]; cbn.
  - exists r, r1. auto.
  - exists r0, r. auto.
  - exists r0, r1. auto.
Qed.

Lemma icon_row_length (icon : Z) (t : str) : length (icon_row icon t) = 16%nat.
Proof. unfold icon_row. cbn [length]. now rewrite pad14_length. Qed.

Lemma insert_both_rows (d : list (list Z)) (a b : list Z) :
  wf_ddram d -> <[1%nat := b]> (<[0%nat := a]> d) = [a; b].
Proof. intros (r0 & r1 & -> & _). reflexivity. Qed.

(** C4 (as the code has it). In MUSIC mode with no volume overlay, on a
    display with its two rows, [MUSIC:<title>|<artist>] caches the sanitized
    title and artist (a placeholder when one is empty), sets both scroll
    cursors to 0 and restarts the scroll timer, and shows on row 0 the glyph
    0, a blank and the first 14 characters of the cached title, and on row 1
    the glyph 1, a blank and the first 14 characters of the cached artist,
    each filled with blanks to the end of the row. *)
Theorem music_command_renders
  (rt : PyRuntime) (now : float) (title artist : str) (st : LcdState) :
  ~ In 124 title ->
  wf_ddram (ddram st) ->
  mode st = MUSIC ->
  volume_overlay st = false ->
  let top := or_else (clean_string rt title) (py "Unknown Title") in
  let bottom := or_else (clean_string rt (rstrip artist)) (py "Unknown Artist") in
  handle_cmd rt now (py "MUSIC:" ++ title ++ [124] ++ artist) st
  = (Ok tt,
     set_ddram
       [ 0 :: 32 :: take 14 top ++ replicate (14 - length top) 32;
         1 :: 32 :: take 14 bottom ++ replicate (14 - length bottom) 32 ]
       (cache_music now top bottom st)).
Proof.
  intros Hbar Hwf Hmode Hov top bottom.
  assert (Hs : strip (py "MUSIC:" ++ title ++ [124] ++ artist)
               = py "MUSIC:" ++ title ++ [124] ++ rstrip artist)
    by exact (strip_tagged [85; 83; 73; 67; 58] 77 title artist eq_refl).
  unfold handle_cmd. rewrite Hs.
  assert (Htag : startswith (py "MUSIC:" ++ title ++ [124] ++ rstrip artist)
                   (py "MUSIC:") = true)
    by (apply startswith_prefix; eexists; reflexivity).
  other_tags Htag.
  change 6 with (len (py "MUSIC:")). rewrite slice_from_app.
  cbn [app]. rewrite contains_bar, split_once_bar by exact Hbar.
  fold top. fold bottom.
  unfold try_pass, bind, modify, get. cbn [fst snd].
  assert (Hm : mode (set_last_scroll now (set_scroll_i_bottom 0 (set_scroll_i_top 0
                 (set_scroll_bottom bottom (set_scroll_top top st))))) = MUSIC)
    by exact Hmode.
  assert (Hv : volume_overlay (set_last_scroll now (set_scroll_i_bottom 0 (set_scroll_i_top 0
                 (set_scroll_bottom bottom (set_scroll_top top st))))) = false)
    by exact Hov.
  rewrite Hm, Hv.
  fold (cache_music now top bottom st).
  change (scroll_top (cache_music now top bottom st)) with top.
  change (scroll_bottom (cache_music now top bottom st)) with bottom.
  unfold bind.
  rewrite write_icon_prefix_line_ok by (try lia; exact Hwf).
  rewrite write_icon_prefix_line_ok.
  2: lia.
  2:{ cbn [ddram set_ddram]. apply wf_ddram_insert; [exact Hwf|].
      apply icon_row_length. }
  cbn [fst snd]. f_equal.
  unfold icon_row. rewrite !pad14_slice_15, !pad14_take.
  change (ddram (set_ddram ?d ?s)) with d.
  destruct Hwf as (r0 & r1 & Hd & _).
  destruct st; cbn in *; subst. reflexivity.
Qed.

Lemma music_mode_wf : wf_ddram (ddram music_mode).
Proof.
  exists (0 :: 32 :: py "Music Mode    "), (1 :: 32 :: py "Loading...    ").
  split; [|split]; vm_compute; reflexivity.
Qed.

Lemma music_command_renders_witness :
  handle_cmd ascii_runtime 7%float (py "MUSIC:" ++ py "Song" ++ [124] ++ py "Band ")
    music_mode
  = (Ok tt,
     set_ddram [0 :: 32 :: py "Song          "; 1 :: 32 :: py "Band          "]
       (cache_music 7%float (py "Song") (py "Band") music_mode)).
Proof.
  apply (music_command_renders ascii_runtime 7%float (py "Song") (py "Band ")
           music_mode).
  - vm_compute. intuition discriminate.
  - exact music_mode_wf.
  - vm_compute. reflexivity.
  - vm_compute. reflexivity.
Defined.

(** The claim as the spec words it fails: of a 16-character title only 14
    characters reach row 0 (the fifteenth, [O], is nowhere on it), and an
    empty title is cached as a placeholder, not as the sanitized title. *)
Lemma music_command_shows_14_not_15 :
  let st := snd (handle_cmd ascii_runtime 7%float
                   (py "MUSIC:ABCDEFGHIJKLMNOP|Band") music_mode) in
  mode music_mode = MUSIC
  /\ volume_overlay music_mode = false
  /\ scroll_top st = py "ABCDEFGHIJKLMNOP"
  /\ ddram st !! 0%nat = Some (0 :: 32 :: py "ABCDEFGHIJKLMN")
  /\ ddram st !! 0%nat <> Some (0 :: py "ABCDEFGHIJKLMNO")
  /\ ~ In 79 (default [] (ddram st !! 0%nat))
  /\ clean_string ascii_runtime [] = []
  /\ scroll_top (snd (handle_cmd ascii_runtime 7%float (py "MUSIC:|Band") music_mode))
     = py "Unknown Title".
Proof.
  repeat split; try (vm_compute; congruence).
  vm_compute. intuition discriminate.
Qed.

(** ** C2: the volume overlay and its expiry *)

Lemma load_icons_music_absorbs (cg : gmap Z (list Z)) :
  load_icons _MUSIC_ICONS (load_icons _MUSIC_ICONS cg) = load_icons _MUSIC_ICONS cg.
Proof.
  apply map_eq. intros k.
  unfold load_icons, _MUSIC_ICONS, range. cbn [foldl seq fst snd].
  rewrite !lookup_insert. repeat case_decide; try reflexivity; lia.
Qed.

Lemma load_icons_system_absorbs (cg : gmap Z (list Z)) :
  load_icons _SYSTEM_ICONS (load_icons _MUSIC_ICONS cg) = load_icons _SYSTEM_ICONS cg.
Proof.
  apply map_eq. intros k.
  unfold load_icons, _SYSTEM_ICONS, _MUSIC_ICONS, range. cbn [foldl seq fst snd].
  rewrite !lookup_insert. repeat case_decide; try reflexivity; lia.
Qed.

Lemma handle_cmd_vol
  (rt : PyRuntime) (now : float) (pct dev : str) (st : LcdState) :
  ~ In 124 pct -> wf_ddram (ddram st) ->
  handle_cmd rt now (py "VOL:" ++ pct ++ [124] ++ dev) st
  = (Ok tt, overlay_state now (clean_string rt pct) (clean_string rt (rstrip dev)) st).
Proof.
  intros Hbar Hwf.
  assert (Hs : strip (py "VOL:" ++ pct ++ [124] ++ dev)
               = py "VOL:" ++ pct ++ [124] ++ rstrip dev)
    by exact (strip_tagged [79; 76; 58] 86 pct dev eq_refl).
  unfold handle_cmd. rewrite Hs.
  assert (Htag : startswith (py "VOL:" ++ pct ++ [124] ++ rstrip dev)
                   (py "VOL:") = true)
    by (apply startswith_prefix; eexists; reflexivity).
  other_tags Htag.
  change 4 with (len (py "VOL:")). rewrite slice_from_app.
  cbn [app]. rewrite contains_bar, split_once_bar by exact Hbar.
  unfold try_pass, bind, modify. cbn [fst snd].
  rewrite write_icon_prefix_line_ok by (try lia; exact Hwf).
  rewrite write_icon_prefix_line_ok.
  2: lia.
  2:{ cbn [ddram set_ddram]. apply wf_ddram_insert; [exact Hwf|].
      apply icon_row_length. }
  cbn [fst snd]. f_equal. unfold overlay_state, overlay_rows.
  destruct Hwf as (r0 & r1 & Hd & _).
  destruct st; cbn in *; subst. reflexivity.
Qed.

Lemma set_ddram_same (st : LcdState) : set_ddram (ddram st) st = st.
Proof. now destruct st. Qed.

Lemma ddram_set_visit_cell (st : LcdState) (astro core box : Z) :
  ddram st = visit_rows astro core box ->
  ddram_set 1 15 box st = (Ok tt, st).
Proof.
  intros H. unfold ddram_set. rewrite H. unfold visit_rows.
  set (top := pad16 (py "Live Visit Count")).
  set (vb := visit_bottom15 (decimal astro) (decimal core)).
  assert (Hvb : length vb = 15%nat) by apply visit_bottom15_length.
  change ([top; vb ++ [box]] !! 1%nat) with (Some (vb ++ [box])).
  assert (Hlen : (15 <? length (vb ++ [box]))%nat = true).
  { apply Nat.ltb_lt. rewrite length_app, Hvb. simpl. lia. }
  cbv beta iota. rewrite Hlen.
  assert (Hins : <[15%nat := box]> (vb ++ [box]) = vb ++ [box]).
  { rewrite insert_app_r_alt by lia. rewrite Hvb. reflexivity. }
  rewrite Hins.
  change (<[1%nat := vb ++ [box]]> [top; vb ++ [box]]) with [top; vb ++ [box]].
  change [top; vb ++ [box]] with (visit_rows astro core box).
  rewrite <- H. now rewrite set_ddram_same.
Qed.

(** Expiry in CLOCK, TEXT and SCREEN mode: only the flag is cleared. *)
Lemma tick_expiry_plain (rt : PyRuntime) (now : float) (st : LcdState) :
  overlay_expired st now = true ->
  mode st = CLOCK \/ mode st = TEXT \/ mode st = SCREEN ->
  tick rt now st = (Ok tt, set_volume_overlay false st).
Proof.
  intros Hexp Hmode. unfold overlay_expired in Hexp.
  unfold tick, tick_overlay, tick_visit_anim, tick_music_scroll,
    bind at 1, bind at 1, get at 1. rewrite Hexp.
  unfold bind, modify, get, ret.
  destruct st as [md]; cbn in Hmode |- *.
  destruct Hmode as [H|[H|H]]; subst md; reflexivity.
Qed.

(** Expiry in SYSTEM mode: the flag is cleared and the glyphs reloaded. *)
Lemma tick_expiry_system (rt : PyRuntime) (now : float) (st : LcdState) :
  overlay_expired st now = true ->
  mode st = SYSTEM ->
  tick rt now st
  = (Ok tt, set_cgram (load_icons _SYSTEM_ICONS (cgram st))
              (set_volume_overlay false st)).
Proof.
  intros Hexp Hmode. unfold overlay_expired in Hexp.
  unfold tick, tick_overlay, tick_visit_anim, tick_music_scroll,
    bind at 1, bind at 1, get at 1. rewrite Hexp.
  unfold bind, modify, get, ret.
  destruct st as [md]; cbn in Hmode |- *. subst md. reflexivity.
Qed.

(** Expiry in MUSIC mode: glyphs reloaded, both lines redrawn from the
    cached title and artist, scroll timer restarted. *)
Lemma tick_expiry_music (rt : PyRuntime) (now : float) (st : LcdState) :
  overlay_expired st now = true ->
  mode st = MUSIC ->
  wf_ddram (ddram st) ->
  PrimFloat.leb (scroll_interval st) (now - now)%float = false ->
  tick rt now st
  = (Ok tt,
     set_last_scroll now
       (set_ddram [icon_row 0 (scroll_top st); icon_row 1 (scroll_bottom st)]
          (set_cgram (load_icons _MUSIC_ICONS (cgram st))
             (set_volume_overlay false st)))).
Proof.
  intros Hexp Hmode Hwf Hdue. unfold overlay_expired in Hexp.
  unfold tick, tick_overlay, tick_visit_anim, tick_music_scroll,
    bind at 1, bind at 1, get at 1. rewrite Hexp.
  unfold bind at 1. unfold bind at 1. unfold modify at 1.
  rewrite Hmode.
  unfold bind at 1. unfold bind at 1. unfold bind at 1. unfold bind at 1.
  unfold modify at 1. unfold bind at 1, get at 1.
  rewrite write_icon_prefix_line_ok by (try lia; exact Hwf).
  unfold bind at 1, get at 1.
  rewrite write_icon_prefix_line_ok.
  2: lia.
  2:{ cbn [ddram set_ddram]. apply wf_ddram_insert; [exact Hwf|].
      apply icon_row_length. }
  unfold modify at 1.
  unfold bind, get, ret, modify.
  unfold icon_row. rewrite !pad14_slice_14.
  destruct Hwf as (r0 & r1 & Hd & _).
  destruct st as [md dd]; cbn in Hmode, Hdue, Hd |- *. subst md dd.
  cbn. rewrite Hdue. reflexivity.
Qed.

(** The animation block of [tick] in VISIT mode, on a display that shows
    the header with the current step in its last cell: the display, the
    glyphs and the overlay flag stay as they are. *)
Lemma tick_visit_anim_keeps_display
  (now : float) (astro core : Z) (st : LcdState) :
  mode st = VISIT ->
  ddram st = visit_rows astro core (box_step st) ->
  exists st2,
    tick_visit_anim now st = (Ok tt, st2)
    /\ mode st2 = VISIT
    /\ volume_overlay st2 = volume_overlay st
    /\ cgram st2 = cgram st
    /\ ddram st2 = ddram st.
Proof.
  intros Hmode Hd. unfold tick_visit_anim, bind at 1, get at 1. rewrite Hmode.
  destruct (visit_anim_active st).
  - destruct (PrimFloat.leb (anim_interval st) (now - last_anim st)).
    + unfold bind at 1.
      rewrite (ddram_set_visit_cell st astro core) by exact Hd.
      destruct (box_step st <? 7); unfold bind, modify;
        (eexists; split; [reflexivity|]);
        destruct st; cbn in *; auto.
    + exists st. unfold ret. auto.
  - exists st. unfold ret. auto.
Qed.

Lemma tick_music_scroll_other_mode (now : float) (st : LcdState) :
  mode st <> MUSIC -> tick_music_scroll now st = (Ok tt, st).
Proof.
  intros H. unfold tick_music_scroll, bind, get.
  destruct (mode st); try reflexivity. congruence.
Qed.

(** The overlay block of [tick] in VISIT mode at expiry. *)
Lemma tick_overlay_visit (rt : PyRuntime) (now : float) (st : LcdState) :
  overlay_expired st now = true ->
  mode st = VISIT ->
  wf_ddram (ddram st) ->
  py_str_int rt (last_visit_astro st) = Ok (decimal (last_visit_astro st)) ->
  py_str_int rt (last_visit_core st) = Ok (decimal (last_visit_core st)) ->
  tick_overlay rt now st
  = (Ok tt,
     set_ddram
       (visit_rows (last_visit_astro st) (last_visit_core st) (box_step st))
       (set_last_visit_core (last_visit_core st)
          (set_last_visit_astro (last_visit_astro st)
             (set_cgram visit_cgram (set_volume_overlay false st))))).
Proof.
  intros Hexp Hmode Hwf Ha Hc. unfold overlay_expired in Hexp.
  unfold tick_overlay, bind at 1, get at 1. rewrite Hexp, Hmode.
  unfold bind at 1. unfold modify at 1.
  unfold bind at 1. unfold bind at 1. unfold modify at 1.
  unfold bind at 1, get at 1.
  rewrite draw_visit_header_counts_ok by assumption.
  unfold bind at 1, get at 1.
  rewrite (ddram_set_visit_cell _ (last_visit_astro st) (last_visit_core st))
    by reflexivity.
  reflexivity.
Qed.

(** Expiry in VISIT mode: glyphs reloaded and the header redrawn from the
    last counts, with the animation cell showing the step it had; the
    animation may then advance, which leaves the display as it is. *)
Lemma tick_expiry_visit (rt : PyRuntime) (now : float) (st : LcdState) :
  overlay_expired st now = true ->
  mode st = VISIT ->
  wf_ddram (ddram st) ->
  py_str_int rt (last_visit_astro st) = Ok (decimal (last_visit_astro st)) ->
  py_str_int rt (last_visit_core st) = Ok (decimal (last_visit_core st)) ->
  exists st2,
    tick rt now st = (Ok tt, st2)
    /\ mode st2 = VISIT
    /\ volume_overlay st2 = false
    /\ cgram st2 = visit_cgram
    /\ ddram st2
       = visit_rows (last_visit_astro st) (last_visit_core st) (box_step st).
Proof.
  intros Hexp Hmode Hwf Ha Hc.
  unfold tick, bind at 1. rewrite tick_overlay_visit by assumption.
  set (s1 := set_ddram _ _).
  destruct (tick_visit_anim_keeps_display now (last_visit_astro st)
              (last_visit_core st) s1 Hmode eq_refl)
    as (st2 & E & Hm2 & Hv2 & Hc2 & Hd2).
  unfold bind at 1. rewrite E.
  rewrite tick_music_scroll_other_mode by congruence.
  exists st2. auto.
Qed.

(** C2 (as the code has it). On a display with its two rows, a
    [VOL:<pct>|<device>] command read at time [t0] shows the volume text at
    once (glyph 2 and ["Volume: <pct>"] on row 0, glyph 3 and the device on
    row 1) with the music glyphs loaded. A [tick] at a time [t1] not before
    [t0 + 1.5] clears the overlay and redraws what the mode keeps a copy of:
    in VISIT mode the visit glyphs and the header with the last counts and
    the current animation step; in MUSIC mode the music glyphs and the first
    14 characters of the cached title and artist; in SYSTEM mode the system
    glyphs only. In SYSTEM, CLOCK, TEXT and SCREEN mode both rows keep the
    volume text, and in the last three the glyphs stay the music ones. *)
Theorem volume_overlay_expiry
  (rt : PyRuntime) (t0 t1 : float) (pct dev : str) (st : LcdState) :
  ~ In 124 pct ->
  wf_ddram (ddram st) ->
  float_truthy (t0 + 1.5)%float = true ->
  PrimFloat.leb (t0 + 1.5)%float t1 = true ->
  let overlay :=
    overlay_rows (clean_string rt pct) (clean_string rt (rstrip dev)) in
  exists st1,
    handle_cmd rt t0 (py "VOL:" ++ pct ++ [124] ++ dev) st = (Ok tt, st1)
    /\ ddram st1 = overlay
    /\ cgram st1 = load_icons _MUSIC_ICONS (cgram st)
    /\ volume_overlay st1 = true
    /\ mode st1 = mode st
    /\ match mode st with
       | VISIT =>
           py_str_int rt (last_visit_astro st) = Ok (decimal (last_visit_astro st)) ->
           py_str_int rt (last_visit_core st) = Ok (decimal (last_visit_core st)) ->
           exists st2,
             tick rt t1 st1 = (Ok tt, st2)
             /\ volume_overlay st2 = false
             /\ cgram st2 = visit_cgram
             /\ ddram st2
                = visit_rows (last_visit_astro st) (last_visit_core st) (box_step st)
       | MUSIC =>
           PrimFloat.leb (scroll_interval st) (t1 - t1)%float = false ->
           exists st2,
             tick rt t1 st1 = (Ok tt, st2)
             /\ volume_overlay st2 = false
             /\ cgram st2 = load_icons _MUSIC_ICONS (cgram st)
             /\ ddram st2
                = [icon_row 0 (scroll_top st); icon_row 1 (scroll_bottom st)]
       | SYSTEM =>
           exists st2,
             tick rt t1 st1 = (Ok tt, st2)
             /\ volume_overlay st2 = false
             /\ cgram st2 = load_icons _SYSTEM_ICONS (cgram st)
             /\ ddram st2 = overlay
       | CLOCK | TEXT | SCREEN =>
           exists st2,
             tick rt t1 st1 = (Ok tt, st2)
             /\ volume_overlay st2 = false
             /\ cgram st2 = load_icons _MUSIC_ICONS (cgram st)
             /\ ddram st2 = overlay
       end.
Proof.
  intros Hbar Hwf Htruthy Hdue overlay.
  set (st1 := overlay_state t0 (clean_string rt pct) (clean_string rt (rstrip dev)) st).
  exists st1. split; [now apply handle_cmd_vol|].
  do 4 (split; [reflexivity|]).
  assert (Hexp : overlay_expired st1 t1 = true).
  { unfold overlay_expired, st1, overlay_state. cbn.
    now rewrite Htruthy, Hdue. }
  assert (Hwf1 : wf_ddram (ddram st1)).
  { unfold st1, overlay_state, overlay_rows. cbn.
    eexists _, _. split; [reflexivity|]. split; apply icon_row_length. }
  destruct (mode st) eqn:Hmode.
  - intros Ha Hc.
    destruct (tick_expiry_visit rt t1 st1 Hexp Hmode Hwf1 Ha Hc)
      as (st2 & E & _ & Hv & Hcg & Hd).
    exists st2. auto.
  - intros Hscroll. eexists. split.
    + now apply tick_expiry_music.
    + cbn. split; [reflexivity|]. split; [|reflexivity].
      apply load_icons_music_absorbs.
  - eexists. split; [apply tick_expiry_plain; auto|]. cbn. auto.
  - eexists. split; [apply tick_expiry_plain; auto|]. cbn. auto.
  - eexists. split; [now apply tick_expiry_system|]. cbn.
    split; [reflexivity|]. split; [|reflexivity].
    apply load_icons_system_absorbs.
  - eexists. split; [apply tick_expiry_plain; auto|]. cbn. auto.
Qed.

Lemma shown_wf (st : LcdState) (r0 r1 : list Z) :
  ddram st = [r0; r1] -> length r0 = 16%nat -> length r1 = 16%nat ->
  wf_ddram (ddram st).
Proof. intros H H0 H1. now exists r0, r1. Qed.

Lemma volume_overlay_expiry_witness :
  (exists st1 st2,
     handle_cmd ascii_runtime 100%float (py "VOL:" ++ py "42" ++ [124] ++ py "Speakers")
       clock_shown = (Ok tt, st1)
     /\ tick ascii_runtime 102%float st1 = (Ok tt, st2)
     /\ ddram st2 = [2 :: 32 :: py "Volume: 42    "; 3 :: 32 :: py "Speakers      "])
  /\ (exists st1 st2,
        handle_cmd ascii_runtime 100%float (py "VOL:" ++ py "42" ++ [124] ++ py "Speakers")
          visit_shown = (Ok tt, st1)
        /\ tick ascii_runtime 102%float st1 = (Ok tt, st2)
        /\ ddram st2 = [py "Live Visit Count"; py "ARI:12 CC:7    " ++ [0]])
  /\ (exists st1 st2,
        handle_cmd ascii_runtime 100%float (py "VOL:" ++ py "42" ++ [124] ++ py "Speakers")
          music_shown = (Ok tt, st1)
        /\ tick ascii_runtime 102%float st1 = (Ok tt, st2)
        /\ ddram st2 = [0 :: 32 :: py "Song          "; 1 :: 32 :: py "Band          "]).
Proof.
  assert (Hbar : ~ In 124 (py "42")) by (vm_compute; intuition discriminate).
  split; [|split].
  - assert (Hm : mode clock_shown = CLOCK) by (vm_compute; reflexivity).
    destruct (volume_overlay_expiry ascii_runtime 100%float 102%float
                (py "42") (py "Speakers") clock_shown Hbar)
      as (st1 & E1 & _ & _ & _ & _ & H).
    + apply (shown_wf _ (py "12:00           ") (py "Jan 1           "));
        vm_compute; reflexivity.
    + vm_compute; reflexivity.
    + vm_compute; reflexivity.
    + rewrite Hm in H. destruct H as (st2 & E2 & _ & _ & Hd).
      exists st1, st2. split; [exact E1|]. split; [exact E2|].
      rewrite Hd. vm_compute. reflexivity.
  - assert (Hm : mode visit_shown = VISIT) by (vm_compute; reflexivity).
    destruct (volume_overlay_expiry ascii_runtime 100%float 102%float
                (py "42") (py "Speakers") visit_shown Hbar)
      as (st1 & E1 & _ & _ & _ & _ & H).
    + apply (shown_wf _ (py "Live Visit Count") (py "ARI:12 CC:7    " ++ [0]));
        vm_compute; reflexivity.
    + vm_compute; reflexivity.
    + vm_compute; reflexivity.
    + rewrite Hm in H. destruct H as (st2 & E2 & _ & _ & Hd).
      * vm_compute; reflexivity.
      * vm_compute; reflexivity.
      * exists st1, st2. split; [exact E1|]. split; [exact E2|].
        rewrite Hd. vm_compute. reflexivity.
  - assert (Hm : mode music_shown = MUSIC) by (vm_compute; reflexivity).
    destruct (volume_overlay_expiry ascii_runtime 100%float 102%float
                (py "42") (py "Speakers") music_shown Hbar)
      as (st1 & E1 & _ & _ & _ & _ & H).
    + apply (shown_wf _ (0 :: 32 :: py "Song          ") (1 :: 32 :: py "Band          "));
        vm_compute; reflexivity.
    + vm_compute; reflexivity.
    + vm_compute; reflexivity.
    + rewrite Hm in H. destruct H as (st2 & E2 & _ & _ & Hd).
      * vm_compute; reflexivity.
      * exists st1, st2. split; [exact E1|]. split; [exact E2|].
        rewrite Hd. vm_compute. reflexivity.
Defined.

(** The claim as the spec words it fails in CLOCK mode: the clock lines
    shown before the overlay are not put back. After the overlay has run
    out, and however [tick] is called meanwhile, both rows still hold the
    volume text and the glyphs are still the music ones. *)
Lemma volume_overlay_not_restored_in_clock_mode :
  let before := clock_shown in
  let st1 := snd (handle_cmd ascii_runtime 100%float (py "VOL:42|Speakers") before) in
  let st2 :=
    run_ticks [100.05%float; 100.5%float; 101%float; 101.5%float; 102%float] st1 in
  mode before = CLOCK
  /\ ddram before = [py "12:00           "; py "Jan 1           "]
  /\ ddram st1 = [2 :: 32 :: py "Volume: 42    "; 3 :: 32 :: py "Speakers      "]
  /\ _vol_until st1 = 101.5%float
  /\ volume_overlay st2 = false
  /\ ddram st2 = ddram st1
  /\ ddram st2 <> ddram before
  /\ cgram st2 !! 1 <> cgram before !! 1.
Proof. by_evaluation. Qed.

(** Where the display showed what the mode caches, the overlay does give
    it back: the VISIT header right after [MODE:1], glyphs included. While
    the fill animation runs it moves on under the overlay, and the header
    comes back with a later step in its last cell. *)
Example volume_overlay_restores_visit_header :
  let idle := run_cmds 99%float [py "MODE:1"] Lcd.init in
  let over := snd (handle_cmd ascii_runtime 100%float (py "VOL:42|Speakers") idle) in
  let back := run_ticks [100.05%float; 100.5%float; 101.5%float] over in
  let over' := snd (handle_cmd ascii_runtime 100%float (py "VOL:42|Speakers") visit_shown) in
  let back' := run_ticks [100.05%float; 100.5%float; 101.5%float] over' in
  ddram over <> ddram idle
  /\ volume_overlay back = false
  /\ ddram back = ddram idle
  /\ cgram back = cgram idle
  /\ ddram visit_shown = [py "Live Visit Count"; py "ARI:12 CC:7    " ++ [0]]
  /\ ddram back' = [py "Live Visit Count"; py "ARI:12 CC:7    " ++ [1]].
Proof. by_evaluation. Qed.

End LcdFacts.

(** ** More on the display: shape, mode entry, the mode commands, ticks *)

Lemma keeps_ret {S A : Type} (P : S -> Prop) (a : A) : keeps P (ret a).
Proof. intros s H. exact H. Qed.

Lemma keeps_lift {S A : Type} (P : S -> Prop) (o : outcome A) : keeps P (lift o).
Proof. intros s H. exact H. Qed.

Lemma keeps_get {S : Type} (P : S -> Prop) : keeps P get.
Proof. intros s H. exact H. Qed.

Lemma keeps_bind {S A B : Type} (P : S -> Prop) (m : M S A) (k : A -> M S B) :
  keeps P m -> (forall a, keeps P (k a)) -> keeps P (bind m k).
Proof.
  intros Hm Hk s Hs. unfold bind. specialize (Hm s Hs).
  destruct (m s) as [[a|e] s']; simpl in *.
  - now apply Hk.
  - exact Hm.
Qed.

Lemma keeps_try_pass {S : Type} (P : S -> Prop) (m : M S unit) :
  keeps P m -> keeps P (try_pass m).
Proof. intros Hm s Hs. now apply Hm. Qed.

Lemma keeps_for_each {S A : Type} (P : S -> Prop) (xs : list A) (body : A -> M S unit) :
  (forall x, keeps P (body x)) -> keeps P (for_each xs body).
Proof.
  intros Hb. induction xs as [|x xs IH]; cbn [for_each].
  - apply keeps_ret.
  - apply keeps_bind; [apply Hb | intros _; exact IH].
Qed.

Lemma keeps_modify {S : Type} (P : S -> Prop) (f : S -> S) :
  (forall s, P s -> P (f s)) -> keeps P (modify f).
Proof. intros Hf s Hs. now apply Hf. Qed.

Lemma establishes_keeps {S A : Type} (P : S -> Prop) (m : M S A) :
  establishes P m -> keeps P m.
Proof. intros H s _. apply H. Qed.

Lemma establishes_bind {S A B : Type} (P : S -> Prop) (m : M S A) (k : A -> M S B) :
  establishes P m -> (forall a, keeps P (k a)) -> establishes P (bind m k).
Proof.
  intros Hm Hk s. unfold bind. specialize (Hm s).
  destruct (m s) as [[a|e] s']; simpl in *.
  - now apply Hk.
  - exact Hm.
Qed.

Lemma establishes_after {S A B : Type} (P : S -> Prop) (m : M S A) (k : A -> M S B) :
  returns m -> (forall a, establishes P (k a)) -> establishes P (bind m k).
Proof.
  intros Hm Hk s. unfold bind. destruct (Hm s) as [a Ha].
  destruct (m s) as [[a'|e] s']; simpl in Ha; [|discriminate].
  apply Hk.
Qed.

Module LcdExtra.
Import Lcd LcdMore LcdFacts.

Lemma pad16_idem (t : str) : pad16 (pad16 t) = pad16 t.
Proof.
  rewrite (pad16_short (pad16 t)) by (unfold len; rewrite pad16_length; lia).
  rewrite pad16_length. simpl. apply app_nil_r.
Qed.

Lemma wf_set_ddram (d : list (list Z)) (st : LcdState) :
  wf_ddram d -> wf (set_ddram d st).
Proof. intros H. exact H. Qed.

Lemma keeps_wf_ddram_set (row col : nat) (v : Z) : keeps wf (ddram_set row col v).
Proof.
  intros st Hwf. unfold ddram_set.
  destruct (ddram st !! row) as [r|] eqn:Hr; [|exact Hwf].
  destruct (col <? length r)%nat; [|exact Hwf].
  cbn [snd]. apply wf_set_ddram.
  destruct Hwf as (r0 & r1 & Hd & H0 & H1). rewrite Hd in *.
  destruct row as [|[|row]]; cbn in Hr |- *.
  - injection Hr as <-. exists (<[col := v]> r0), r1.
    rewrite length_insert. auto.
  - injection Hr as <-. exists r0, (<[col := v]> r1).
    rewrite length_insert. auto.
  - discriminate Hr.
Qed.

Lemma keeps_wf_frame (f : LcdState -> LcdState) :
  (forall st, ddram (f st) = ddram st) -> keeps wf (modify f).
Proof.
  intros Hf. apply keeps_modify. intros st H. unfold wf. now rewrite Hf.
Qed.

Lemma establishes_wf_clear : establishes wf clear.
Proof.
  intros st. exists (replicate 16 32), (replicate 16 32). repeat split.
Qed.

Ltac keeps_wf :=
  cbv zeta;
  repeat match goal with
         | |- keeps _ (ret _) => apply keeps_ret
         | |- keeps _ (lift _) => apply keeps_lift
         | |- keeps _ get => apply keeps_get
         | |- keeps _ (try_pass _) => apply keeps_try_pass
         | |- keeps _ (ddram_set _ _ _) => apply keeps_wf_ddram_set
         | |- keeps _ (modify _) => apply keeps_wf_frame; intros []; reflexivity
         | |- keeps _ (for_each _ _) => apply keeps_for_each; intros ?
         | |- keeps _ (bind _ _) => apply keeps_bind; [|intros ?]
         | |- keeps _ (if ?c then _ else _) => destruct c
         | |- keeps _ (match ?x with _ => _ end) => destruct x
         | |- keeps _ (setattr ?a _) => destruct a; cbn [setattr]
         end.

Lemma keeps_wf_write_line (row : nat) (text : str) : keeps wf (write_line row text).
Proof. unfold write_line. keeps_wf. Qed.

Lemma keeps_wf_write_icon_prefix_line (row : nat) (icon : Z) (text : str) :
  keeps wf (write_icon_prefix_line row icon text).
Proof. unfold write_icon_prefix_line. keeps_wf. Qed.

Lemma keeps_wf_draw_visit_header_counts (rt : PyRuntime) (a c : Z) :
  keeps wf (draw_visit_header_counts rt a c).
Proof.
  unfold draw_visit_header_counts. keeps_wf. apply keeps_wf_write_line.
Qed.

Lemma keeps_wf_scroll (row : nat) (text : str) (a : idx_attr) (icon : Z) :
  keeps wf (scroll_text_line_icon row text a icon).
Proof.
  unfold scroll_text_line_icon. keeps_wf; apply keeps_wf_write_icon_prefix_line.
Qed.

Ltac keeps_wf_call :=
  match goal with
  | |- keeps _ (write_line _ _) => apply keeps_wf_write_line
  | |- keeps _ (write_icon_prefix_line _ _ _) => apply keeps_wf_write_icon_prefix_line
  | |- keeps _ (draw_visit_header_counts _ _ _) =>
      apply keeps_wf_draw_visit_header_counts
  | |- keeps _ (scroll_text_line_icon _ _ _ _) => apply keeps_wf_scroll
  end.

Lemma establishes_wf_enter (m : M LcdState unit) (f : LcdState -> LcdState) :
  keeps wf m -> establishes wf (modify f >> clear >> m).
Proof.
  intros Hm. apply establishes_after; [apply returns_modify|]. intros _.
  apply establishes_bind; [apply establishes_wf_clear|]. intros _. exact Hm.
Qed.

Lemma establishes_wf_enter_visit (rt : PyRuntime) : establishes wf (enter_visit rt).
Proof. apply establishes_wf_enter. keeps_wf. keeps_wf_call. Qed.

Lemma establishes_wf_enter_music : establishes wf enter_music.
Proof. apply establishes_wf_enter. keeps_wf; keeps_wf_call. Qed.

Lemma establishes_wf_enter_clock : establishes wf enter_clock.
Proof. apply establishes_wf_enter. keeps_wf; keeps_wf_call. Qed.

Lemma establishes_wf_enter_text : establishes wf enter_text.
Proof. apply establishes_wf_enter. keeps_wf; keeps_wf_call. Qed.

Lemma establishes_wf_enter_system : establishes wf enter_system.
Proof. apply establishes_wf_enter. keeps_wf; keeps_wf_call. Qed.

Lemma establishes_wf_enter_screen : establishes wf enter_screen.
Proof. apply establishes_wf_enter. keeps_wf; keeps_wf_call. Qed.

Lemma keeps_wf_set_mode_by_num (rt : PyRuntime) (m : Z) :
  keeps wf (set_mode_by_num rt m).
Proof.
  unfold set_mode_by_num.
  repeat match goal with
         | |- keeps _ (if ?c then _ else _) => destruct c
         end.
  - apply establishes_keeps, establishes_wf_enter_visit.
  - apply establishes_keeps, establishes_wf_enter_music.
  - apply establishes_keeps, establishes_wf_enter_clock.
  - apply establishes_keeps, establishes_wf_enter_text.
  - apply establishes_keeps, establishes_wf_enter_system.
  - apply establishes_keeps, establishes_wf_enter_screen.
  - apply keeps_ret.
Qed.

Lemma keeps_wf_handle_cmd (rt : PyRuntime) (now : float) (cmd : str) :
  keeps wf (handle_cmd rt now cmd).
Proof.
  unfold handle_cmd. keeps_wf;
    first [ apply keeps_wf_set_mode_by_num | keeps_wf_call ].
Qed.

Lemma keeps_wf_tick (rt : PyRuntime) (now : float) : keeps wf (tick rt now).
Proof.
  unfold tick, tick_overlay, tick_visit_anim, tick_music_scroll.
  keeps_wf; keeps_wf_call.
Qed.

Lemma init_wf : wf Lcd.init.
Proof. exists (replicate 16 32), (replicate 16 32). repeat split. Qed.

(** X1. The display always has its two rows of sixteen cells: a fresh
    [LcdState()] has them, and every command and every tick, in any order
    and whether it returns or raises, leaves them. *)
Theorem display_shape_invariant (rt : PyRuntime) (es : list event) :
  keeps wf (run rt es) /\ wf (snd (run rt es Lcd.init)).
Proof.
  assert (H : keeps wf (run rt es)).
  { unfold run. apply keeps_for_each. intros [now line|now]; cbn [step].
    - apply keeps_wf_handle_cmd.
    - apply keeps_wf_tick. }
  split; [exact H | apply H, init_wf].
Qed.

(** *** Entering a mode *)

Lemma over_digit_limit_small (rt : PyRuntime) (d : Z) :
  d <= 640 -> over_digit_limit rt d = false.
Proof.
  intros H. unfold over_digit_limit.
  destruct (Z.ltb_spec 640 d); [lia|]. apply andb_false_r.
Qed.

Lemma py_str_int_small (rt : PyRuntime) (n : Z) :
  count_digits n <= 640 -> py_str_int rt n = Ok (decimal n).
Proof.
  intros H. unfold py_str_int. now rewrite over_digit_limit_small.
Qed.

Lemma blank_wf (st : LcdState) : wf_ddram (ddram (set_ddram blank_ddram st)).
Proof. exists (replicate 16 32), (replicate 16 32). repeat split. Qed.

Lemma enter_visit_eq (rt : PyRuntime) (st : LcdState) :
  enter_visit rt st = (Ok tt, entered VISIT st).
Proof.
  unfold enter_visit, clear.
  do 5 (unfold bind at 1; unfold modify at 1).
  rewrite draw_visit_header_counts_ok.
  - destruct st. reflexivity.
  - exists (replicate 16 32), (replicate 16 32). repeat split.
  - apply py_str_int_small. vm_compute. discriminate.
  - apply py_str_int_small. vm_compute. discriminate.
Qed.

Lemma enter_with_lines (md : LcdMode) (t0 t1 : str) (st : LcdState) :
  (modify (set_mode md) >> clear >> write_line 0 (pad16 t0) >> write_line 1 (pad16 t1)) st
  = (Ok tt, set_ddram [pad16 t0; pad16 t1] (set_mode md st)).
Proof.
  unfold clear. do 2 (unfold bind at 1; unfold modify at 1).
  unfold bind.
  rewrite write_line_ok by (try lia; apply blank_wf).
  rewrite write_line_ok.
  2: lia.
  2:{ cbn [ddram set_ddram]. apply wf_ddram_insert.
      - exists (replicate 16 32), (replicate 16 32). repeat split.
      - apply pad16_length. }
  rewrite !pad16_idem. destruct st. reflexivity.
Qed.

Lemma enter_with_icons
  (md : LcdMode) (icons : list (Z * list Z)) (i0 i1 : Z) (t0 t1 : str) (st : LcdState) :
  (modify (set_mode md) >> clear >>
   modify (fun st => set_cgram (load_icons icons (cgram st)) st) >>
   write_icon_prefix_line 0 i0 t0 >> write_icon_prefix_line 1 i1 t1) st
  = (Ok tt,
     set_ddram [icon_row i0 t0; icon_row i1 t1]
       (set_cgram (load_icons icons (cgram st)) (set_mode md st))).
Proof.
  unfold clear. do 3 (unfold bind at 1; unfold modify at 1).
  unfold bind.
  rewrite write_icon_prefix_line_ok.
  2: lia.
  2:{ exists (replicate 16 32), (replicate 16 32). repeat split. }
  rewrite write_icon_prefix_line_ok.
  2: lia.
  2:{ cbn [ddram set_ddram]. apply wf_ddram_insert.
      - exists (replicate 16 32), (replicate 16 32). repeat split.
      - apply icon_row_length. }
  destruct st. reflexivity.
Qed.

Lemma set_mode_by_num_enters (rt : PyRuntime) (m : Z) (md : LcdMode) (st : LcdState) :
  mode_of_num m = Some md ->
  set_mode_by_num rt m st = (Ok tt, entered md st).
Proof.
  unfold mode_of_num, set_mode_by_num. intros H.
  repeat match type of H with
         | (if ?c then _ else _) = _ => destruct c
         end; try discriminate H; injection H as <-.
  - apply enter_visit_eq.
  - unfold enter_music. rewrite enter_with_icons. destruct st. reflexivity.
  - unfold enter_clock. rewrite enter_with_lines. destruct st. reflexivity.
  - unfold enter_text. rewrite enter_with_lines. destruct st. reflexivity.
  - unfold enter_system. rewrite enter_with_icons. destruct st. reflexivity.
  - unfold enter_screen. rewrite enter_with_lines. destruct st. reflexivity.
Qed.

(** X2. A [MODE:] command whose argument reads as one of the six mode numbers
    enters that mode from any state, even one whose display memory is out of
    shape: the grid is rebuilt and shows the mode's fixed first lines
    whatever was on it, VISIT, MUSIC and SYSTEM load their glyphs (CLOCK,
    TEXT and SCREEN keep the bank they find), VISIT also resets its counts
    and animation, and nothing else changes; a volume overlay that was on
    stays flagged. *)
Theorem mode_command_enters
  (rt : PyRuntime) (now : float) (cmd : str) (m : Z) (md : LcdMode) (st : LcdState) :
  startswith (strip cmd) (py "MODE:") = true ->
  py_int rt 10 (slice_from (strip cmd) 5) = Ok m ->
  mode_of_num m = Some md ->
  handle_cmd rt now cmd st = (Ok tt, entered md st)
  /\ mode (entered md st) = md
  /\ ddram (entered md st) = placeholder md
  /\ volume_overlay (entered md st) = volume_overlay st.
Proof.
  intros Htag Hm Hmd. split.
  - unfold handle_cmd. rewrite Htag. unfold try_pass, bind, lift. rewrite Hm.
    now rewrite (set_mode_by_num_enters rt m md st Hmd).
  - destruct md, st; repeat split.
Qed.

Lemma mode_command_enters_witness :
  handle_cmd ascii_runtime 0%float (py " MODE:+04 ") music_shown
  = (Ok tt, entered CLOCK music_shown)
  /\ ddram (entered CLOCK music_shown) = [py "Clock Mode      "; py "Loading...      "].
Proof.
  destruct (mode_command_enters ascii_runtime 0%float (py " MODE:+04 ") 4 CLOCK
              music_shown) as (H & _ & Hd & _).
  - vm_compute. reflexivity.
  - vm_compute. reflexivity.
  - reflexivity.
  - split; [exact H|]. rewrite Hd. vm_compute. reflexivity.
Defined.

(** *** The mode commands in their own mode *)

Lemma ddram_set_visit_cell_to (st : LcdState) (astro core box v : Z) :
  ddram st = visit_rows astro core box ->
  ddram_set 1 15 v st = (Ok tt, set_ddram (visit_rows astro core v) st).
Proof.
  intros H. unfold ddram_set. rewrite H. unfold visit_rows.
  set (top := pad16 (py "Live Visit Count")).
  set (vb := visit_bottom15 (decimal astro) (decimal core)).
  assert (Hvb : length vb = 15%nat) by apply visit_bottom15_length.
  change ([top; vb ++ [box]] !! 1%nat) with (Some (vb ++ [box])).
  assert (Hlen : (15 <? length (vb ++ [box]))%nat = true).
  { apply Nat.ltb_lt. rewrite length_app, Hvb. simpl. lia. }
  cbv beta iota. rewrite Hlen.
  assert (Hins : <[15%nat := v]> (vb ++ [box]) = vb ++ [v]).
  { rewrite insert_app_r_alt by lia. rewrite Hvb. reflexivity. }
  rewrite Hins. reflexivity.
Qed.

(** X3. In VISIT mode, on a display with its two rows, a [LIVE:] command whose
    two fields read as the integers [astro] and [core] shows the header
    ["Live Visit Count"] over ["ARI:<astro> CC:<core>"] (cut and filled to 15
    cells), restarts the fill animation at step 0 with the animation cell
    showing glyph 0, and remembers both counts. *)
Theorem live_command_renders
  (rt : PyRuntime) (now : float) (cmd : str) (astro core : Z) (st : LcdState) :
  startswith (strip cmd) (py "LIVE:") = true ->
  py_int rt 10 (slice (strip cmd) 5 (find (strip cmd) 44)) = Ok astro ->
  py_int rt 10 (slice_from (strip cmd) (find (strip cmd) 44 + 1)) = Ok core ->
  py_str_int rt astro = Ok (decimal astro) ->
  py_str_int rt core = Ok (decimal core) ->
  mode st = VISIT ->
  wf st ->
  handle_cmd rt now cmd st = (Ok tt, live_shown now astro core st).
Proof.
  intros Htag Ha Hc Hsa Hsc Hmode Hwf. unfold handle_cmd.
  other_tags Htag.
  unfold try_pass. unfold bind at 1, lift at 1. rewrite Ha.
  unfold bind at 1, lift at 1. rewrite Hc.
  unfold bind at 1, get at 1. rewrite Hmode.
  unfold bind at 1. rewrite draw_visit_header_counts_ok by assumption.
  do 3 (unfold bind at 1; unfold modify at 1).
  unfold bind at 1, get at 1.
  rewrite (ddram_set_visit_cell_to _ astro core (box_step st)) by reflexivity.
  destruct st. reflexivity.
Qed.

Lemma live_command_renders_witness :
  handle_cmd ascii_runtime 5%float (py "LIVE:12,7") (entered VISIT Lcd.init)
  = (Ok tt, live_shown 5%float 12 7 (entered VISIT Lcd.init))
  /\ ddram (live_shown 5%float 12 7 (entered VISIT Lcd.init))
     = [py "Live Visit Count"; py "ARI:12 CC:7    " ++ [0]].
Proof.
  split.
  - apply (live_command_renders ascii_runtime 5%float (py "LIVE:12,7") 12 7
             (entered VISIT Lcd.init)); try (vm_compute; reflexivity).
    exists (py "Live Visit Count"), (py "ARI:0 CC:0     " ++ [0]).
    split; [|split]; vm_compute; reflexivity.
  - vm_compute. reflexivity.
Defined.

Lemma py_int_letter (rt : PyRuntime) (c : Z) (s : str) :
  65 <= c <= 90 -> py_int rt 10 (c :: s) = Raised ValueError.
Proof.
  intros Hc. destruct c as [|p|p]; try lia.
  do 7 (destruct p as [p|p|]; try lia);
    unfold py_int; cbn [transform_decimal_and_space];
    (destruct (transform_decimal_and_space rt s) as [r|]; reflexivity).
Qed.

(** X4. A [LIVE:] line without a comma never changes anything, in any mode:
    [find] gives -1, so the second field is read from the whole line, tag
    included, and is not a number. *)
Theorem live_without_comma_ignored
  (rt : PyRuntime) (now : float) (cmd : str) (st : LcdState) :
  startswith (strip cmd) (py "LIVE:") = true ->
  ~ In 44 (strip cmd) ->
  handle_cmd rt now cmd st = (Ok tt, st).
Proof.
  intros Htag Hno. unfold handle_cmd. other_tags Htag.
  assert (Hfind : forall s i, ~ In 44 s -> find_from i s 44 = -1).
  { induction s as [|x s IH]; intros i Hs; cbn [find_from]; [reflexivity|].
    destruct (Z.eqb_spec x 44) as [->|_].
    - exfalso. apply Hs. now left.
    - apply IH. intros Hin. apply Hs. now right. }
  unfold find. rewrite (Hfind _ 0 Hno).
  apply startswith_prefix in Htag. destruct Htag as [r Hr].
  assert (Hwhole : slice_from (strip cmd) (-1 + 1) = strip cmd).
  { rewrite slice_from_drop by lia. reflexivity. }
  assert (Hcore : py_int rt 10 (strip cmd) = Raised ValueError).
  { rewrite Hr. change (py "LIVE:" ++ r) with (76 :: (py "IVE:" ++ r)).
    apply py_int_letter. lia. }
  rewrite Hwhole, Hcore. clear Hcore.
  unfold try_pass, bind, lift.
  destruct (py_int rt 10 (slice _ _ _)); reflexivity.
Qed.

Lemma live_without_comma_ignored_witness :
  handle_cmd ascii_runtime 5%float (py "LIVE:12") (entered VISIT Lcd.init)
  = (Ok tt, entered VISIT Lcd.init).
Proof.
  apply (live_without_comma_ignored ascii_runtime 5%float (py "LIVE:12")
           (entered VISIT Lcd.init)).
  - vm_compute. reflexivity.
  - vm_compute. intuition discriminate.
Defined.

Lemma strip_after (pre : str) (c0 c : Z) (y : str) :
  py_isspace c0 = false -> py_isspace c = false ->
  strip ((c0 :: pre) ++ c :: y) = (c0 :: pre) ++ c :: rstrip y.
Proof.
  intros H0 Hc. unfold strip. cbn [app lstrip]. rewrite H0.
  change (c0 :: pre ++ c :: y) with ((c0 :: pre) ++ c :: y).
  now rewrite rstrip_app_nonspace.
Qed.

Lemma contains_no_bar (x : str) : ~ In 124 x -> contains x 124 = false.
Proof.
  intros H. unfold contains. apply not_true_is_false. intros Hex.
  apply existsb_exists in Hex. destruct Hex as (c & Hin & Hc).
  apply Z.eqb_eq in Hc. subst c. contradiction.
Qed.

Lemma rstrip_no_bar (x : str) : ~ In 124 x -> ~ In 124 (rstrip x).
Proof.
  intros H Hin. apply H. unfold rstrip in Hin.
  apply in_rev in Hin. apply in_rev.
  revert Hin. generalize (rev x). intros l.
  induction l as [|a l IH]; cbn [lstrip]; [tauto|].
  destruct (py_isspace a); [intros Hl; right; now apply IH | tauto].
Qed.

(** X5. In CLOCK mode, on a display with its two rows, [CLOCK:<time>|<date>]
    writes the sanitized time on row 0 and the sanitized date on row 1,
    each cut or filled with blanks to 16 cells; without a bar the whole
    text goes to row 0 and row 1 shows the sanitized empty text. Nothing
    else changes. *)
Theorem clock_command_renders
  (rt : PyRuntime) (now : float) (t d : str) (st : LcdState) :
  ~ In 124 t ->
  mode st = CLOCK ->
  wf st ->
  handle_cmd rt now (py "CLOCK:" ++ t ++ [124] ++ d) st
  = (Ok tt,
     set_ddram [pad16 (clean_string rt t); pad16 (clean_string rt (rstrip d))] st)
  /\ handle_cmd rt now (py "CLOCK:" ++ t) st
     = (Ok tt,
        set_ddram [pad16 (clean_string rt (rstrip t)); pad16 (clean_string rt [])] st).
Proof.
  intros Hbar Hmode Hwf.
  assert (Hwrite : forall a b,
    (write_line 0 (pad16 a) >> write_line 1 (pad16 b)) st
    = (Ok tt, set_ddram [pad16 a; pad16 b] st)).
  { intros a b. unfold bind.
    rewrite write_line_ok by (try lia; exact Hwf).
    rewrite write_line_ok.
    2: lia.
    2:{ cbn [ddram set_ddram]. apply wf_ddram_insert; [exact Hwf|].
        apply pad16_length. }
    rewrite !pad16_idem. destruct Hwf as (r0 & r1 & Hd & _).
    destruct st; cbn in *; subst. reflexivity. }
  split.
  - assert (Hs : strip (py "CLOCK:" ++ t ++ [124] ++ d)
                 = py "CLOCK:" ++ t ++ [124] ++ rstrip d)
      by exact (strip_tagged [76; 79; 67; 75; 58] 67 t d eq_refl).
    unfold handle_cmd. rewrite Hs.
    assert (Htag : startswith (py "CLOCK:" ++ t ++ [124] ++ rstrip d)
                     (py "CLOCK:") = true)
      by (apply startswith_prefix; eexists; reflexivity).
    other_tags Htag.
    change 6 with (len (py "CLOCK:")). rewrite slice_from_app.
    cbn [app]. rewrite contains_bar, split_once_bar by exact Hbar.
    unfold try_pass, bind at 1, get at 1. rewrite Hmode.
    now rewrite Hwrite.
  - assert (Hs : strip (py "CLOCK:" ++ t) = py "CLOCK:" ++ rstrip t)
      by exact (strip_after [76; 79; 67; 75] 67 58 t eq_refl eq_refl).
    unfold handle_cmd. rewrite Hs.
    assert (Htag : startswith (py "CLOCK:" ++ rstrip t) (py "CLOCK:") = true)
      by (apply startswith_prefix; eexists; reflexivity).
    other_tags Htag.
    change 6 with (len (py "CLOCK:")). rewrite slice_from_app.
    rewrite contains_no_bar by (now apply rstrip_no_bar).
    unfold try_pass, bind at 1, get at 1. rewrite Hmode.
    now rewrite Hwrite.
Qed.

Lemma entered_wf (md : LcdMode) (st : LcdState) : wf (entered md st).
Proof.
  unfold wf, entered. cbn [ddram set_ddram].
  destruct md; cbn [placeholder];
    (eexists _, _; split; [reflexivity|]; split;
     first [apply pad16_length | apply icon_row_length
           | rewrite length_app, visit_bottom15_length; reflexivity]).
Qed.

Lemma clock_command_renders_witness :
  handle_cmd ascii_runtime 0%float (py "CLOCK:" ++ py "09:41:07 PM" ++ [124] ++ py "11/03/2026")
    (entered CLOCK Lcd.init)
  = (Ok tt,
     set_ddram [py "09:41:07 PM     "; py "11/03/2026      "] (entered CLOCK Lcd.init)).
Proof.
  destruct (clock_command_renders ascii_runtime 0%float (py "09:41:07 PM")
              (py "11/03/2026") (entered CLOCK Lcd.init)) as [H _].
  - vm_compute. intuition discriminate.
  - reflexivity.
  - apply entered_wf.
  - rewrite H. vm_compute. reflexivity.
Defined.

Lemma pad16_take_16 (t : str) : pad16 (take 16 t) = pad16 t.
Proof.
  destruct (Z.lt_ge_cases 16 (len t)) as [H|H].
  - rewrite (pad16_long t H).
    rewrite pad16_short by (unfold len in *; rewrite length_take; lia).
    rewrite length_take. unfold len in H.
    replace (16 - 16 `min` length t)%nat with 0%nat by lia.
    apply app_nil_r.
  - now rewrite take_ge by (unfold len in H; lia).
Qed.

Lemma slice_16_32 (t : str) : 16 < len t -> slice t 16 32 = take 16 (drop 16 t).
Proof.
  intros H. unfold slice, clamp_index. cbn [Z.ltb Z.compare].
  rewrite (Z.min_l 16) by lia. change (Z.to_nat 16) with 16%nat.
  destruct (Z.le_gt_cases 32 (len t)) as [H32|H32].
  - rewrite Z.min_l by lia. reflexivity.
  - rewrite Z.min_r by lia.
    rewrite !take_ge; try reflexivity; rewrite length_drop; unfold len in *; lia.
Qed.

Lemma handle_cmd_text
  (rt : PyRuntime) (now : float) (text : str) (st : LcdState) :
  mode st = TEXT ->
  wf st ->
  handle_cmd rt now (py "TEXT:" ++ text) st
  = (Ok tt,
     set_ddram [pad16 (clean_string rt (rstrip text));
                pad16 (drop 16 (clean_string rt (rstrip text)))] st).
Proof.
  intros Hmode Hwf. set (txt := clean_string rt (rstrip text)).
  assert (Hs : strip (py "TEXT:" ++ text) = py "TEXT:" ++ rstrip text)
    by exact (strip_after [69; 88; 84] 84 58 text eq_refl eq_refl).
  unfold handle_cmd. rewrite Hs.
  assert (Htag : startswith (py "TEXT:" ++ rstrip text) (py "TEXT:") = true)
    by (apply startswith_prefix; eexists; reflexivity).
  other_tags Htag.
  change 5 with (len (py "TEXT:")). rewrite slice_from_app. fold txt.
  unfold try_pass, bind at 1, get at 1. rewrite Hmode.
  assert (Hbottom : (if 16 <? len txt then pad16 (slice txt 16 32) else pad16 [])
                    = pad16 (drop 16 txt)).
  { destruct (Z.ltb_spec 16 (len txt)) as [H|H].
    - rewrite slice_16_32 by exact H. apply pad16_take_16.
    - rewrite drop_ge by (unfold len in H; lia). reflexivity. }
  rewrite Hbottom. rewrite slice_to_take by lia. change (Z.to_nat 16) with 16%nat.
  rewrite pad16_take_16.
  unfold bind.
  rewrite write_line_ok by (try lia; exact Hwf).
  rewrite write_line_ok.
  2: lia.
  2:{ cbn [ddram set_ddram]. apply wf_ddram_insert; [exact Hwf|].
      apply pad16_length. }
  rewrite !pad16_idem. destruct Hwf as (r0 & r1 & Hd & _).
  destruct st; cbn in *; subst. reflexivity.
Qed.

(** X6. In TEXT mode, on a display with its two rows, [TEXT:<text>] wraps the
    sanitized text at 16 cells: its first 16 characters on row 0 and the
    next 16 on row 1, each row filled with blanks; what lies beyond 32
    characters is not shown. Nothing else changes. *)
Theorem text_command_wraps
  (rt : PyRuntime) (now : float) (text : str) (st : LcdState) :
  mode st = TEXT ->
  wf st ->
  let txt := clean_string rt (rstrip text) in
  handle_cmd rt now (py "TEXT:" ++ text) st
  = (Ok tt, set_ddram [pad16 txt; pad16 (drop 16 txt)] st).
Proof. intros Hmode Hwf txt. now apply handle_cmd_text. Qed.

Lemma text_command_wraps_witness :
  handle_cmd ascii_runtime 0%float (py "TEXT:" ++ py "The quick brown fox jumps over the lazy dog  ")
    (entered TEXT Lcd.init)
  = (Ok tt,
     set_ddram [py "The quick brown "; py "fox jumps over t"] (entered TEXT Lcd.init)).
Proof.
  rewrite (text_command_wraps ascii_runtime 0%float
             (py "The quick brown fox jumps over the lazy dog  ")
             (entered TEXT Lcd.init)).
  - vm_compute. reflexivity.
  - reflexivity.
  - apply entered_wf.
Defined.

(** *** Ticks *)

Lemma tick_overlay_idle (rt : PyRuntime) (now : float) (st : LcdState) :
  overlay_expired st now = false -> tick_overlay rt now st = (Ok tt, st).
Proof.
  intros H. unfold overlay_expired in H.
  unfold tick_overlay, bind, get. now rewrite H.
Qed.

Lemma tick_visit_anim_other_mode (now : float) (st : LcdState) :
  mode st <> VISIT -> tick_visit_anim now st = (Ok tt, st).
Proof.
  intros H. unfold tick_visit_anim, bind, get.
  destruct (mode st); try reflexivity. congruence.
Qed.

Lemma ddram_set_anim_cell (v : Z) (st : LcdState) :
  wf st ->
  ddram_set 1 15 v st = (Ok tt, set_ddram (with_anim_cell v (ddram st)) st).
Proof.
  intros (r0 & r1 & Hd & H0 & H1). unfold ddram_set. rewrite Hd.
  change ([r0; r1] !! 1%nat) with (Some r1). cbv beta iota.
  rewrite H1. reflexivity.
Qed.

(** X7. The fill animation of VISIT mode. On a display with its two rows, with
    no overlay running out, a tick that finds the animation active and its
    interval elapsed puts the glyph of the current step in the last cell of
    row 1 and then moves to the next step and restarts the interval, up to
    step 7; at step 7 it shows glyph 7 and switches the animation off, so
    the step never passes 7. A tick that finds the animation off, or the
    interval not elapsed, changes nothing. *)
Theorem visit_animation_step (rt : PyRuntime) (now : float) (st : LcdState) :
  mode st = VISIT ->
  wf st ->
  overlay_expired st now = false ->
  (visit_anim_active st = true ->
   PrimFloat.leb (anim_interval st) (now - last_anim st)%float = true ->
   tick rt now st
   = (Ok tt,
      let shown := set_ddram (with_anim_cell (box_step st) (ddram st)) st in
      if box_step st <? 7
      then set_last_anim now (set_box_step (box_step st + 1) shown)
      else set_visit_anim_active false shown))
  /\ (visit_anim_active st = false
      \/ PrimFloat.leb (anim_interval st) (now - last_anim st)%float = false ->
      tick rt now st = (Ok tt, st)).
Proof.
  intros Hmode Hwf Hov.
  assert (Hhead : forall k : M LcdState unit, (tick_overlay rt now >> k) st = k st).
  { intros k. unfold bind at 1. now rewrite tick_overlay_idle. }
  split.
  - intros Hact Hdue. unfold tick. rewrite Hhead.
    unfold bind at 1. unfold tick_visit_anim, bind at 1, get at 1.
    rewrite Hmode, Hact, Hdue.
    unfold bind at 1. rewrite ddram_set_anim_cell by exact Hwf.
    destruct (box_step st <? 7).
    + unfold bind at 1, modify at 1. unfold modify.
      rewrite tick_music_scroll_other_mode; [reflexivity|].
      destruct st; cbn in *; congruence.
    + unfold modify.
      rewrite tick_music_scroll_other_mode; [reflexivity|].
      destruct st; cbn in *; congruence.
  - intros Hidle. unfold tick. rewrite Hhead.
    unfold bind at 1. unfold tick_visit_anim, bind at 1, get at 1.
    rewrite Hmode.
    assert (Hskip : (if visit_anim_active st
                     then if PrimFloat.leb (anim_interval st) (now - last_anim st)
                          then ddram_set 1 15 (box_step st) >>
                               (if box_step st <? 7
                                then modify (set_box_step (box_step st + 1)) >>
                                     modify (set_last_anim now)
                                else modify (set_visit_anim_active false))
                          else ret tt
                     else ret tt) st = (Ok tt, st)).
    { destruct Hidle as [H|H]; rewrite H; [reflexivity|].
      destruct (visit_anim_active st); reflexivity. }
    rewrite Hskip.
    rewrite tick_music_scroll_other_mode; [reflexivity | congruence].
Qed.

Lemma visit_animation_step_witness :
  let st := live_shown 5%float 12 7 (entered VISIT Lcd.init) in
  tick ascii_runtime 6%float st
  = (Ok tt, set_last_anim 6%float (set_box_step 1 st))
  /\ tick ascii_runtime 5.5%float st = (Ok tt, st).
Proof.
  cbv zeta.
  assert (Hwf : wf (live_shown 5%float 12 7 (entered VISIT Lcd.init))).
  { eexists _, _. split; [reflexivity|]. split.
    - apply pad16_length.
    - rewrite length_app, visit_bottom15_length. reflexivity. }
  destruct (visit_animation_step ascii_runtime 6%float
              (live_shown 5%float 12 7 (entered VISIT Lcd.init)))
    as [H _]; [reflexivity | exact Hwf | reflexivity |].
  destruct (visit_animation_step ascii_runtime 5.5%float
              (live_shown 5%float 12 7 (entered VISIT Lcd.init)))
    as [_ H']; [reflexivity | exact Hwf | reflexivity |].
  split.
  - rewrite H; [vm_compute; reflexivity | reflexivity | vm_compute; reflexivity].
  - apply H'. right. vm_compute. reflexivity.
Defined.

Lemma scroll_step_eq
  (row : nat) (text : str) (a : idx_attr) (icon : Z) (st : LcdState) :
  (row < 2)%nat -> wf st ->
  scroll_text_line_icon row text a icon st
  = (Ok tt,
     set_idx a (snd (scrolled text (getattr st a)))
       (set_ddram
          (<[row := Z.land icon 255 :: 32 :: fst (scrolled text (getattr st a))]>
             (ddram st)) st)).
Proof.
  intros Hrow Hwf. unfold scrolled.
  unfold scroll_text_line_icon, bind at 1, get.
  change (Z.of_nat 14) with 14.
  destruct (Z.leb_spec (len text) 14) as [Hlen|Hlen]; cbn [fst snd].
  - unfold bind. rewrite write_icon_prefix_line_ok by assumption.
    rewrite setattr_eq. unfold icon_row. now rewrite pad14_short.
  - set (buf := text ++ py "    ").
    assert (Hbuf : len buf = len text + 4).
    { unfold buf. rewrite len_app. reflexivity. }
    assert (Hpos : 0 <= getattr st a mod len buf < len buf)
      by (apply Z.mod_pos_bound; lia).
    set (pos := getattr st a mod len buf) in *.
    replace pos with (Z.of_nat (Z.to_nat pos)) by lia.
    unfold range, bind at 1, lift.
    rewrite (collect_ring buf (Z.to_nat pos) 14 0) by (unfold len in *; lia).
    unfold bind. rewrite write_icon_prefix_line_ok by assumption.
    rewrite setattr_eq. unfold icon_row, window.
    rewrite pad14_exact.
    + rewrite Nat.add_0_r. subst pos. now rewrite Hbuf.
    + rewrite length_take, length_drop, length_app. unfold len in *. lia.
Qed.

Lemma scrolled_length (text : str) (c : Z) : length (fst (scrolled text c)) = 14%nat.
Proof.
  unfold scrolled. destruct (Z.leb_spec (len text) 14) as [E|E]; cbn [fst].
  - unfold len in E. rewrite length_app, length_replicate. lia.
  - unfold window, len in *.
    rewrite length_take, length_drop, !length_app, length_replicate.
    assert (0 <= c mod (Z.of_nat (length text) + 4) < Z.of_nat (length text) + 4)
      by (apply Z.mod_pos_bound; lia).
    lia.
Qed.

(** X8. The scroll tick of MUSIC mode. On a display with its two rows and no
    overlay, a tick that finds the scroll interval elapsed scrolls the title
    on row 0 and the artist on row 1 by one step each, every line with its
    own cursor, and restarts the interval; a tick before that changes
    nothing. *)
Theorem music_scroll_tick (rt : PyRuntime) (now : float) (st : LcdState) :
  mode st = MUSIC ->
  wf st ->
  volume_overlay st = false ->
  (PrimFloat.leb (scroll_interval st) (now - last_scroll st)%float = true ->
   let top := scrolled (scroll_top st) (scroll_i_top st) in
   let bottom := scrolled (scroll_bottom st) (scroll_i_bottom st) in
   tick rt now st
   = (Ok tt,
      set_last_scroll now
        (set_scroll_i_bottom (snd bottom)
           (set_scroll_i_top (snd top)
              (set_ddram [0 :: 32 :: fst top; 1 :: 32 :: fst bottom] st)))))
  /\ (PrimFloat.leb (scroll_interval st) (now - last_scroll st)%float = false ->
      tick rt now st = (Ok tt, st)).
Proof.
  intros Hmode Hwf Hov.
  assert (Hidle : overlay_expired st now = false)
    by (unfold overlay_expired; now rewrite Hov).
  assert (Hhead : forall k : M LcdState unit,
            (tick_overlay rt now >> tick_visit_anim now >> k) st = k st).
  { intros k. unfold bind at 1. rewrite tick_overlay_idle by exact Hidle.
    unfold bind at 1. rewrite tick_visit_anim_other_mode by congruence.
    reflexivity. }
  split.
  - intros Hdue top bottom. unfold tick. rewrite Hhead.
    unfold tick_music_scroll, bind at 1, get at 1. rewrite Hmode, Hov, Hdue.
    unfold bind at 1. unfold bind at 1.
    rewrite scroll_step_eq by (try lia; exact Hwf).
    unfold bind at 1, get at 1.
    rewrite scroll_step_eq.
    2: lia.
    2:{ unfold wf. cbn [ddram set_ddram set_idx set_scroll_i_top].
        apply wf_ddram_insert; [exact Hwf|].
        cbn [length]. now rewrite scrolled_length. }
    unfold modify. subst top bottom.
    destruct Hwf as (r0 & r1 & Hd & _).
    destruct st; cbn in *; subst. reflexivity.
  - intros Hdue. unfold tick. rewrite Hhead.
    unfold tick_music_scroll, bind at 1, get at 1.
    now rewrite Hmode, Hov, Hdue.
Qed.

Lemma music_scroll_tick_witness :
  let st := run_cmds 99%float
              [py "MODE:3"; py "MUSIC:Never Gonna Give You Up|Rick"] Lcd.init in
  ddram (snd (tick ascii_runtime 100%float st))
  = [0 :: 32 :: py "Never Gonna Gi"; 1 :: 32 :: py "Rick          "]
  /\ ddram (snd (tick ascii_runtime 101%float (snd (tick ascii_runtime 100%float st))))
     = [0 :: 32 :: py "ever Gonna Giv"; 1 :: 32 :: py "Rick          "]
  /\ tick ascii_runtime 99.5%float st = (Ok tt, st).
Proof.
  cbv zeta.
  set (st := run_cmds 99%float
               [py "MODE:3"; py "MUSIC:Never Gonna Give You Up|Rick"] Lcd.init).
  assert (Hwf : wf st).
  { exists (0 :: 32 :: py "Never Gonna Gi"), (1 :: 32 :: py "Rick          ").
    split; [|split]; vm_compute; reflexivity. }
  assert (Hm : mode st = MUSIC) by (vm_compute; reflexivity).
  assert (Hv : volume_overlay st = false) by (vm_compute; reflexivity).
  destruct (music_scroll_tick ascii_runtime 100%float st Hm Hwf Hv) as [H _].
  destruct (music_scroll_tick ascii_runtime 99.5%float st Hm Hwf Hv) as [_ H'].
  split; [|split].
  - rewrite H by (vm_compute; reflexivity). vm_compute. reflexivity.
  - vm_compute. reflexivity.
  - apply H'. vm_compute. reflexivity.
Defined.

End LcdExtra.

(** ** More on the matrix: levels, decay, frames *)

Lemma item_lookup_nat {A : Type} (l : list A) (i : nat) (x : A) :
  l !! i = Some x -> item l (Z.of_nat i) = Ok x.
Proof.
  intros H. unfold item.
  destruct (Z.ltb_spec (Z.of_nat i) 0) as [?|_]; [lia|].
  destruct (Z.ltb_spec (Z.of_nat i) 0) as [?|_]; [lia|].
  now rewrite Nat2Z.id, H.
Qed.

Module MatrixExtra.
Import Matrix MatrixMore.

Ltac explode l H :=
  repeat (destruct l as [|? l]; [discriminate H|]; simpl in H);
  destruct l; [clear H | discriminate H].

Lemma render_vu_pixels_eq (m : MatrixState) :
  length (vu_levels m) = 32%nat ->
  _render_vu_pixels m = (Ok tt, set_pixels (vu_grid (vu_levels m)) m).
Proof.
  intros H. destruct m as [md px lv ld]. cbn [vu_levels] in *.
  explode lv H.
  cbv -[Z.ltb]. reflexivity.
Qed.

Lemma clamp_levels_length (levels : list Z) : length (clamp_levels levels) = 32%nat.
Proof.
  unfold clamp_levels. rewrite length_app, length_map, length_replicate.
  rewrite slice_to_take by lia. change (Z.to_nat 32) with 32%nat.
  unfold len. rewrite length_take. lia.
Qed.

Lemma clamp_levels_range (levels : list Z) :
  Forall (fun v => 0 <= v <= 8) (clamp_levels levels).
Proof.
  unfold clamp_levels. apply Forall_app. split.
  - apply List.Forall_forall. intros v Hv. apply in_map_iff in Hv.
    destruct Hv as (w & <- & _). lia.
  - apply Forall_replicate. lia.
Qed.

Lemma apply_vu_eq (now : float) (levels : list Z) (m : MatrixState) :
  apply_vu now levels m
  = (Ok tt, {| mode := VU; pixels := vu_grid (clamp_levels levels);
               vu_levels := clamp_levels levels; _last_decay := now |}).
Proof.
  unfold apply_vu. do 2 (unfold bind at 1; unfold modify at 1).
  fold (clamp_levels levels).
  unfold bind at 1. rewrite render_vu_pixels_eq by apply clamp_levels_length.
  destruct m. reflexivity.
Qed.

Lemma nth_map_lookup (f : Z -> Z) (l : list Z) :
  forall (x : nat) (h : Z), l !! x = Some h -> nth x (map f l) 0 = f h.
Proof.
  induction l as [|a l IH]; intros [|x] h H; try discriminate H; cbn in *.
  - now injection H as ->.
  - now apply IH.
Qed.

Lemma lit_column_vu_grid (levels : list Z) (x : nat) (h : Z) :
  levels !! x = Some h -> 0 <= h <= 8 ->
  column (vu_grid levels) x
  = map (fun r => if Z.of_nat (7 - r) <? h then 1 else 0) (seq 0 8)
  /\ lit (column (vu_grid levels) x) = h.
Proof.
  intros Hx Hh.
  assert (E : column (vu_grid levels) x
              = map (fun r => if Z.of_nat (7 - r) <? h then 1 else 0) (seq 0 8)).
  { unfold column, vu_grid. rewrite map_map. apply map_ext. intros r.
    exact (nth_map_lookup (fun h0 => if Z.of_nat (7 - r) <? h0 then 1 else 0)
             levels x h Hx). }
  split; [exact E|]. rewrite E.
  assert (Hcases : h = 0 \/ h = 1 \/ h = 2 \/ h = 3 \/ h = 4 \/ h = 5 \/ h = 6
                   \/ h = 7 \/ h = 8) by lia.
  repeat (destruct Hcases as [->|Hcases]; [reflexivity|]). subst h. reflexivity.
Qed.

(** X9. [apply_vu] accepts any list of levels: it returns, switches to VU
    mode, keeps the first 32 levels clamped to 0..8 (padding with zeros to
    32), restarts the decay timer, and draws them: in every column exactly
    as many pixels are lit as its level says, and they are the bottom
    ones. *)
Theorem apply_vu_shows_levels (now : float) (levels : list Z) (m : MatrixState) :
  exists m',
    apply_vu now levels m = (Ok tt, m')
    /\ shows_levels m'
    /\ vu_levels m' = clamp_levels levels
    /\ _last_decay m' = now
    /\ (forall x h, vu_levels m' !! x = Some h ->
          lit (column (pixels m') x) = h
          /\ forall r, (r < 8)%nat ->
               nth r (column (pixels m') x) 0 = if Z.of_nat (7 - r) <? h then 1 else 0).
Proof.
  eexists. split; [apply apply_vu_eq|]. cbn [vu_levels pixels _last_decay].
  split; [|split; [reflexivity|split; [reflexivity|]]].
  - repeat split; cbn; [apply clamp_levels_length | apply clamp_levels_range].
  - intros x h Hx.
    assert (Hh : 0 <= h <= 8).
    { pose proof (clamp_levels_range levels) as HF.
      rewrite List.Forall_forall in HF. apply HF.
      apply list_elem_of_In. eapply list_elem_of_lookup_2. exact Hx. }
    destruct (lit_column_vu_grid _ x h Hx Hh) as [E Hl].
    split; [exact Hl|]. intros r Hr. rewrite E.
    do 8 (destruct r as [|r]; [reflexivity|]). lia.
Qed.

(** *** Decay *)

Lemma decay_loop_eq (md : MatrixMode) (px : list (list Z)) (ld : float) (n : nat) :
  forall (k : nat) (changed : bool) (done rest : list Z),
    length done = k -> (n <= length rest)%nat ->
    decay_loop (seq k n) changed
      {| mode := md; pixels := px; vu_levels := done ++ rest; _last_decay := ld |}
    = (Ok (changed || existsb (Z.ltb 0) (take n rest)),
       {| mode := md; pixels := px;
          vu_levels := done ++ decay (take n rest) ++ drop n rest;
          _last_decay := ld |}).
Proof.
  induction n as [|n IH]; intros k changed done rest Hk Hn.
  - cbn. now rewrite orb_false_r.
  - destruct rest as [|v rest]; [cbn in Hn; lia|]. cbn in Hn.
    cbn [seq decay_loop]. unfold bind at 1, get at 1.
    cbn [vu_levels].
    assert (Hitem : item (done ++ v :: rest) (Z.of_nat k) = Ok v).
    { apply item_lookup_nat. rewrite lookup_app_r by lia.
      now replace (k - length done)%nat with 0%nat by lia. }
    unfold bind at 1, lift at 1. rewrite Hitem.
    assert (Hassoc : forall w, done ++ w :: rest = (done ++ [w]) ++ rest)
      by (intros w; now rewrite <- app_assoc).
    destruct (0 <? v) eqn:Hv.
    + unfold bind at 1. unfold vu_level_set. cbn [vu_levels].
      assert (Hlt : (k <? length (done ++ v :: rest))%nat = true).
      { apply Nat.ltb_lt. rewrite length_app. cbn. lia. }
      rewrite Hlt. unfold set_vu_levels. cbn [mode pixels _last_decay].
      assert (Hins : <[k := v - 1]> (done ++ v :: rest) = (done ++ [v - 1]) ++ rest).
      { rewrite insert_app_r_alt by lia.
        replace (k - length done)%nat with 0%nat by lia.
        cbn. now rewrite <- app_assoc. }
      rewrite Hins.
      rewrite (IH (S k) true (done ++ [v - 1]) rest)
        by (try rewrite length_app; cbn; lia).
      cbn [take drop decay map existsb]. rewrite Hv.
      rewrite orb_true_r. rewrite <- app_assoc. reflexivity.
    + rewrite Hassoc.
      rewrite (IH (S k) changed (done ++ [v]) rest)
        by (try rewrite length_app; cbn; lia).
      cbn [take drop decay map existsb]. rewrite Hv.
      rewrite <- app_assoc. reflexivity.
Qed.

Lemma decay_length (lv : list Z) : length (decay lv) = length lv.
Proof. unfold decay. apply length_map. Qed.

Lemma decay_range (lv : list Z) :
  Forall (fun v => 0 <= v <= 8) lv -> Forall (fun v => 0 <= v <= 8) (decay lv).
Proof.
  intros H. unfold decay. apply Forall_map.
  eapply Forall_impl; [exact H|]. cbn. intros v Hv.
  destruct (Z.ltb_spec 0 v); lia.
Qed.

Lemma decay_fixed (lv : list Z) : existsb (Z.ltb 0) lv = false -> decay lv = lv.
Proof.
  unfold decay. induction lv as [|v lv IH]; cbn [existsb map]; [reflexivity|].
  intros H. apply orb_false_iff in H. destruct H as [Hv Hl].
  rewrite Hv. now rewrite IH.
Qed.

(** The matrix after a decay step that is due. *)
Lemma tick_decay_due_eq (now : float) (step_ms : Z) (m : MatrixState) :
  mode m = VU -> length (vu_levels m) = 32%nat ->
  decay_due m now step_ms = true ->
  tick_decay now false step_ms m
  = (Ok tt,
     {| mode := VU;
        pixels := if existsb (Z.ltb 0) (vu_levels m)
                  then vu_grid (decay (vu_levels m)) else pixels m;
        vu_levels := decay (vu_levels m);
        _last_decay := now |}).
Proof.
  intros Hmode Hlen Hdue. unfold decay_due in Hdue.
  apply negb_true_iff in Hdue.
  unfold tick_decay, bind at 1, get at 1. rewrite Hmode, Hdue.
  unfold bind at 1, modify at 1.
  destruct m as [md px lv ld]. cbn [mode pixels vu_levels _last_decay] in *.
  subst md. unfold set_last_decay. cbn [mode pixels vu_levels _last_decay].
  unfold range, bind at 1.
  pose proof (decay_loop_eq VU px now 32 0 false [] lv eq_refl) as Hloop.
  cbn [app] in Hloop. rewrite Hloop by lia.
  rewrite take_ge, drop_ge by lia. rewrite app_nil_r. cbn [orb].
  destruct (existsb (Z.ltb 0) lv).
  - rewrite render_vu_pixels_eq by (cbn; now rewrite decay_length). reflexivity.
  - reflexivity.
Qed.

Lemma tick_decay_other_mode
  (now : float) (enabled : bool) (step_ms : Z) (m : MatrixState) :
  mode m <> VU -> tick_decay now enabled step_ms m = (Ok tt, m).
Proof.
  intros Hmode. unfold tick_decay, bind, get.
  destruct (mode m); [reflexivity|congruence|reflexivity].
Qed.

Lemma tick_decay_enabled (now : float) (step_ms : Z) (m : MatrixState) :
  mode m = VU -> tick_decay now true step_ms m = (Ok tt, set_last_decay now m).
Proof. intros Hmode. unfold tick_decay, bind, get. now rewrite Hmode. Qed.

Lemma tick_decay_not_due (now : float) (step_ms : Z) (m : MatrixState) :
  mode m = VU -> decay_due m now step_ms = false ->
  tick_decay now false step_ms m = (Ok tt, m).
Proof.
  intros Hmode Hdue. unfold decay_due in Hdue. apply negb_false_iff in Hdue.
  unfold tick_decay, bind, get. now rewrite Hmode, Hdue.
Qed.

Lemma shows_levels_after_decay (now : float) (m : MatrixState) :
  shows_levels m ->
  shows_levels
    {| mode := VU;
       pixels := if existsb (Z.ltb 0) (vu_levels m)
                 then vu_grid (decay (vu_levels m)) else pixels m;
       vu_levels := decay (vu_levels m);
       _last_decay := now |}.
Proof.
  intros (Hmode & Hlen & Hrange & Hpx). unfold shows_levels.
  cbn [mode pixels vu_levels _last_decay].
  split; [reflexivity|]. split; [now rewrite decay_length|].
  split; [now apply decay_range|].
  destruct (existsb (Z.ltb 0) (vu_levels m)) eqn:E; [reflexivity|].
  now rewrite decay_fixed.
Qed.

Lemma shows_levels_apply_vu (now : float) (levels : list Z) (m : MatrixState) :
  shows_levels (snd (apply_vu now levels m)).
Proof.
  rewrite apply_vu_eq. cbn [snd].
  repeat split; cbn; [apply clamp_levels_length | apply clamp_levels_range].
Qed.

Lemma keeps_shows_levels (c : call) : keeps shows_levels (do_call c).
Proof.
  intros m Hm. destruct c as [now levels|now enabled step_ms]; cbn [do_call].
  - apply shows_levels_apply_vu.
  - pose proof Hm as (Hmode & Hlen & Hrange & Hpx).
    destruct enabled.
    + rewrite tick_decay_enabled by exact Hmode. cbn [snd].
      destruct m. repeat split; assumption.
    + destruct (decay_due m now step_ms) eqn:Hdue.
      * rewrite tick_decay_due_eq by assumption. cbn [snd].
        now apply shows_levels_after_decay.
      * rewrite tick_decay_not_due by assumption. exact Hm.
Qed.

Lemma do_call_ok (c : call) (m : MatrixState) :
  shows_levels m -> exists m', do_call c m = (Ok tt, m') /\ shows_levels m'.
Proof.
  intros Hm. pose proof (keeps_shows_levels c m Hm) as Hk.
  assert (E : fst (do_call c m) = Ok tt).
  { destruct c as [now levels|now enabled step_ms]; cbn [do_call].
    - now rewrite apply_vu_eq.
    - pose proof Hm as (Hmode & Hlen & _).
      destruct enabled.
      + now rewrite tick_decay_enabled.
      + destruct (decay_due m now step_ms) eqn:Hdue.
        * now rewrite tick_decay_due_eq.
        * now rewrite tick_decay_not_due. }
  exists (snd (do_call c m)). split; [|exact Hk].
  destruct (do_call c m) as [o m']. cbn in E. now subst o.
Qed.

(** X10. [tick_decay] as a whole, on a matrix with its 32 levels. Outside VU mode
    it does nothing. In VU mode, while the feed is enabled it only restarts
    the timer; with the feed disabled it does nothing until the step has
    elapsed, and then lowers every level above zero by one, keeps the zeros,
    restarts the timer, and redraws the columns if any level moved. The step
    has elapsed when [(now - _last_decay) * 1000.0 < step_ms] is false, the
    float set against the int exactly, whatever the size of [step_ms]. *)
Theorem tick_decay_cases
  (now : float) (enabled : bool) (step_ms : Z) (m : MatrixState) :
  length (vu_levels m) = 32%nat ->
  tick_decay now enabled step_ms m
  = (Ok tt,
     match mode m with
     | VU =>
         if enabled then set_last_decay now m
         else if decay_due m now step_ms
         then {| mode := VU;
                 pixels := if existsb (Z.ltb 0) (vu_levels m)
                           then vu_grid (decay (vu_levels m)) else pixels m;
                 vu_levels := decay (vu_levels m);
                 _last_decay := now |}
         else m
     | _ => m
     end).
Proof.
  intros Hlen. destruct (mode m) eqn:Hmode.
  - apply tick_decay_other_mode. congruence.
  - destruct enabled; [now apply tick_decay_enabled|].
    destruct (decay_due m now step_ms) eqn:Hdue.
    + now apply tick_decay_due_eq.
    + now apply tick_decay_not_due.
  - apply tick_decay_other_mode. congruence.
Qed.

Lemma tick_decay_cases_witness :
  tick_decay 10.5%float false 90
    (snd (apply_vu 10%float [3; 0; 8; 1] (init 0%float)))
  = (Ok tt,
     {| mode := VU;
        pixels := vu_grid ([2; 0; 7; 0] ++ replicate 28 0);
        vu_levels := [2; 0; 7; 0] ++ replicate 28 0;
        _last_decay := 10.5%float |})
  /\ tick_decay 11%float false (2 ^ 63)
       (snd (apply_vu 10%float [3; 0; 8; 1] (init 0%float)))
     = (Ok tt, snd (apply_vu 10%float [3; 0; 8; 1] (init 0%float)))
  /\ tick_decay 9007199254750.992%float false (2 ^ 53 + 1)
       (snd (apply_vu 10%float [3; 0; 8; 1] (init 0%float)))
     = (Ok tt, snd (apply_vu 10%float [3; 0; 8; 1] (init 0%float))).
Proof.
  split; [|split].
  - rewrite (tick_decay_cases 10.5%float false 90
               (snd (apply_vu 10%float [3; 0; 8; 1] (init 0%float)))).
    + vm_compute. reflexivity.
    + vm_compute. reflexivity.
  - rewrite (tick_decay_cases 11%float false (2 ^ 63)
               (snd (apply_vu 10%float [3; 0; 8; 1] (init 0%float)))).
    + vm_compute. reflexivity.
    + vm_compute. reflexivity.
  - rewrite (tick_decay_cases 9007199254750.992%float false (2 ^ 53 + 1)
               (snd (apply_vu 10%float [3; 0; 8; 1] (init 0%float)))).
    + vm_compute. reflexivity.
    + vm_compute. reflexivity.
Defined.

(** X11. Once the matrix shows a VU frame, every later sequence of [apply_vu]
    and [tick_decay] calls returns and leaves it in VU mode with 32 levels
    between 0 and 8 and with the picture of exactly those levels: in each
    column as many pixels are lit as its level says. *)
Theorem vu_display_invariant (cs : list call) (m : MatrixState) :
  shows_levels m ->
  exists m',
    for_each cs do_call m = (Ok tt, m')
    /\ shows_levels m'
    /\ forall x h, vu_levels m' !! x = Some h -> lit (column (pixels m') x) = h.
Proof.
  revert m. induction cs as [|c cs IH]; intros m Hm.
  - exists m. split; [reflexivity|]. split; [exact Hm|].
    intros x h Hx. destruct Hm as (_ & _ & Hrange & Hpx). rewrite Hpx.
    apply lit_column_vu_grid; [exact Hx|].
    rewrite List.Forall_forall in Hrange. apply Hrange.
    apply list_elem_of_In. eapply list_elem_of_lookup_2. exact Hx.
  - destruct (do_call_ok c m Hm) as (m1 & E1 & H1).
    destruct (IH m1 H1) as (m' & E' & H').
    exists m'. split; [|exact H'].
    cbn [for_each]. unfold bind. rewrite E1. exact E'.
Qed.

Lemma vu_display_invariant_witness :
  exists m',
    for_each [TickDecay 10.5%float false 90; ApplyVu 11%float [9; 4];
              TickDecay 11.5%float true 90; TickDecay 12%float false 90]
             do_call (snd (apply_vu 10%float [3; 0; 8; 1] (init 0%float)))
    = (Ok tt, m')
    /\ shows_levels m'
    /\ forall x h, vu_levels m' !! x = Some h -> lit (column (pixels m') x) = h.
Proof.
  apply (vu_display_invariant
           [TickDecay 10.5%float false 90; ApplyVu 11%float [9; 4];
            TickDecay 11.5%float true 90; TickDecay 12%float false 90]
           (snd (apply_vu 10%float [3; 0; 8; 1] (init 0%float)))).
  unfold shows_levels. repeat split; try (vm_compute; reflexivity).
  vm_compute. repeat constructor; discriminate.
Defined.

Lemma levels_all_zero (lv : list Z) :
  Forall (fun v => 0 <= v <= 0) lv -> lv = replicate (length lv) 0.
Proof.
  induction 1 as [|v lv Hv _ IH]; cbn; [reflexivity|].
  rewrite <- IH. f_equal. lia.
Qed.

Lemma decay_bound (n : Z) (lv : list Z) :
  0 <= n ->
  Forall (fun v => 0 <= v <= n + 1) lv -> Forall (fun v => 0 <= v <= n) (decay lv).
Proof.
  intros Hn H. unfold decay. apply Forall_map.
  eapply Forall_impl; [exact H|]. cbv beta. intros v Hv.
  destruct (Z.ltb_spec 0 v); lia.
Qed.

Lemma decay_ticks_reach_zero (step_ms : Z) (ts : list float) :
  forall m : MatrixState,
    shows_levels m ->
    Forall (fun v => 0 <= v <= Z.of_nat (length ts)) (vu_levels m) ->
    all_due (_last_decay m) ts step_ms = true ->
    exists m',
      decay_ticks ts step_ms m = (Ok tt, m')
      /\ shows_levels m'
      /\ vu_levels m' = replicate 32 0.
Proof.
  induction ts as [|t ts IH]; intros m Hm Hb Hdue.
  - exists m. split; [reflexivity|]. split; [exact Hm|].
    destruct Hm as (_ & Hlen & _). rewrite <- Hlen. now apply levels_all_zero.
  - cbn [all_due] in Hdue. apply andb_true_iff in Hdue. destruct Hdue as [Ht Hts].
    pose proof Hm as (Hmode & Hlen & _).
    assert (E : tick_decay t false step_ms m
                = (Ok tt,
                   {| mode := VU;
                      pixels := if existsb (Z.ltb 0) (vu_levels m)
                                then vu_grid (decay (vu_levels m)) else pixels m;
                      vu_levels := decay (vu_levels m);
                      _last_decay := t |}))
      by (apply tick_decay_due_eq; assumption).
    destruct (IH _ (shows_levels_after_decay t m Hm)) as (m' & E' & H').
    + cbn [vu_levels]. apply decay_bound; [lia|].
      eapply Forall_impl; [exact Hb|]. cbv beta. intros v Hv.
      change (length (t :: ts)) with (S (length ts)) in Hv. lia.
    + exact Hts.
    + exists m'. split; [|exact H'].
      unfold decay_ticks in *. cbn [for_each]. unfold bind at 1.
      rewrite E. exact E'.
Qed.

(** X12. A displayed VU frame fades out in eight steps: eight [tick_decay] calls
    with the feed disabled, each one due when it comes, all return and leave
    every level at 0 and every pixel dark, whatever the levels were. A call
    is due when [(now - _last_decay) * 1000.0 < step_ms] is false at its
    time, with the float and the int compared exactly. *)
Theorem vu_fades_in_eight_steps
  (ts : list float) (step_ms : Z) (m : MatrixState) :
  shows_levels m ->
  length ts = 8%nat ->
  all_due (_last_decay m) ts step_ms = true ->
  exists m',
    decay_ticks ts step_ms m = (Ok tt, m')
    /\ mode m' = VU
    /\ vu_levels m' = replicate 32 0
    /\ pixels m' = blank_pixels.
Proof.
  intros Hm Hlen Hdue.
  destruct (decay_ticks_reach_zero step_ms ts m Hm) as (m' & E & Hs & Hz).
  - rewrite Hlen. destruct Hm as (_ & _ & Hrange & _). exact Hrange.
  - exact Hdue.
  - exists m'. split; [exact E|].
    destruct Hs as (Hmode & _ & _ & Hpx).
    split; [exact Hmode|]. split; [exact Hz|].
    rewrite Hpx, Hz. vm_compute. reflexivity.
Qed.

Lemma vu_fades_in_eight_steps_witness :
  exists m',
    decay_ticks [1; 2; 3; 4; 5; 6; 7; 8]%float 90
      (snd (apply_vu 0%float (replicate 32 8) (init 0%float)))
    = (Ok tt, m')
    /\ mode m' = VU
    /\ vu_levels m' = replicate 32 0
    /\ pixels m' = blank_pixels.
Proof.
  apply (vu_fades_in_eight_steps [1; 2; 3; 4; 5; 6; 7; 8]%float 90
           (snd (apply_vu 0%float (replicate 32 8) (init 0%float)))).
  - apply shows_levels_apply_vu.
  - reflexivity.
  - vm_compute. reflexivity.
Defined.

End MatrixExtra.

(** ** The screen frame: from [loop_screen] to the matrix *)

Module ScreenExtra.
Import Matrix Screen.

Lemma hex_cases (d : Z) :
  0 <= d < 16 ->
  d = 0 \/ d = 1 \/ d = 2 \/ d = 3 \/ d = 4 \/ d = 5 \/ d = 6 \/ d = 7 \/ d = 8
  \/ d = 9 \/ d = 10 \/ d = 11 \/ d = 12 \/ d = 13 \/ d = 14 \/ d = 15.
Proof. lia. Qed.

Ltac each_hex d H :=
  let C := fresh in
  pose proof (hex_cases d H) as C; clear H;
  repeat (destruct C as [C|C]; [subst d|]); [..|subst d].

Lemma hex_char_facts (rt : PyRuntime) (d : Z) :
  0 <= d < 16 ->
  to_ascii_digit rt (hex_char d) = Some (hex_char d)
  /\ c_isspace (hex_char d) = false
  /\ py_isspace (hex_char d) = false
  /\ (hex_char d =? 95) = false
  /\ ((hex_char d =? 120) || (hex_char d =? 88)) = false
  /\ digit_value (hex_char d) = Some d.
Proof. intros H. each_hex d H; vm_compute; repeat split; reflexivity. Qed.

Lemma hex_value_app (ds es : list Z) :
  hex_value (ds ++ es) = fold_left (fun a d => a * 16 + d) es (hex_value ds).
Proof. unfold hex_value. apply fold_left_app. Qed.

Lemma transform_hex (rt : PyRuntime) (ds : list Z) :
  Forall (fun d => 0 <= d < 16) ds ->
  transform_decimal_and_space rt (map hex_char ds) = Some (map hex_char ds).
Proof.
  induction 1 as [|d ds Hd _ IH]; [reflexivity|].
  cbn [map transform_decimal_and_space].
  destruct (hex_char_facts rt d Hd) as (-> & _). now rewrite IH.
Qed.

Lemma scan_hex (ds : list Z) :
  Forall (fun d => 0 <= d < 16) ds ->
  forall acc n,
    scan_digits 16 false acc n (map hex_char ds)
    = Some (fold_left (fun a d => a * 16 + d) ds acc, n + len ds, []).
Proof.
  induction 1 as [|d ds Hd _ IH]; intros acc n.
  - cbn. now rewrite Z.add_0_r.
  - cbn [map scan_digits fold_left].
    destruct (hex_char_facts ascii_runtime d Hd) as (_ & _ & _ & -> & _ & ->).
    destruct (Z.ltb_spec d 16) as [_|?]; [|lia].
    rewrite IH. unfold len. cbn [length]. do 3 f_equal. lia.
Qed.

Lemma skip_spaces_hex (d : Z) (r : str) :
  0 <= d < 16 -> skip_spaces (hex_char d :: r) = hex_char d :: r.
Proof.
  intros Hd. cbn [skip_spaces].
  now destruct (hex_char_facts ascii_runtime d Hd) as (_ & -> & _).
Qed.

(** [int(text, 16)] reads a non-empty run of digits [0-9A-F] as its value. *)
Lemma py_int_hex (rt : PyRuntime) (ds : list Z) :
  ds <> [] -> Forall (fun d => 0 <= d < 16) ds ->
  py_int rt 16 (map hex_char ds) = Ok (hex_value ds).
Proof.
  intros Hne Hds. unfold py_int. rewrite transform_hex by exact Hds.
  destruct ds as [|d0 ds]; [congruence|]. clear Hne.
  pose proof (Forall_inv Hds) as Hd0. pose proof (Forall_inv_tail Hds) as Htl.
  pose proof (scan_hex (d0 :: ds) Hds 0 0) as Hscan.
  cbn [map] in *. rewrite skip_spaces_hex by exact Hd0.
  assert (Hlen : (0 + len (d0 :: ds) =? 0) = false).
  { apply Z.eqb_neq. unfold len. cbn [length]. lia. }
  assert (Hx : forall d1, In d1 ds ->
            ((hex_char d1 =? 120) || (hex_char d1 =? 88)) = false).
  { intros d1 Hin. rewrite List.Forall_forall in Htl.
    now destruct (hex_char_facts rt d1 (Htl d1 Hin)) as (_ & _ & _ & _ & -> & _). }
  destruct ds as [|d1 ds'].
  - cbn [map] in *.
    each_hex d0 Hd0;
      match goal with
      | |- context [hex_char ?k :: _] =>
          let c := eval vm_compute in (hex_char k) in
          change (hex_char k) with c in *
      end;
      cbv beta iota zeta; change (16 =? 16) with true; cbv beta iota;
      rewrite Hscan, Hlen; reflexivity.
  - specialize (Hx d1 (or_introl eq_refl)). cbn [map] in *.
    each_hex d0 Hd0;
      match goal with
      | |- context [hex_char ?k :: _] =>
          let c := eval vm_compute in (hex_char k) in
          change (hex_char k) with c in *
      end;
      cbv beta iota zeta; change (16 =? 16) with true; cbv beta iota;
      try rewrite Hx; cbv beta iota;
      rewrite Hscan, Hlen; reflexivity.
Qed.

Lemma hex_digits_spec (fuel : nat) :
  forall (k : nat) (n : Z) (acc : list Z),
    (1 <= k <= fuel)%nat -> 0 <= n < 16 ^ Z.of_nat k ->
    exists ds,
      hex_digits fuel n acc = ds ++ acc
      /\ Forall (fun d => 0 <= d < 16) ds
      /\ (1 <= length ds <= k)%nat
      /\ hex_value ds = n.
Proof.
  induction fuel as [|fuel IH]; intros k n acc Hk Hn; [lia|].
  cbn [hex_digits]. destruct (Z.ltb_spec n 16) as [Hlt|Hge].
  - exists [n]. split; [reflexivity|]. split; [repeat constructor; lia|].
    split; [cbn; lia|]. unfold hex_value. cbn. lia.
  - assert (Hk2 : (2 <= k)%nat).
    { destruct k as [|[|k]]; [lia| |lia]. cbn in Hn. lia. }
    destruct (IH (k - 1)%nat (n / 16) (n mod 16 :: acc)) as (ds & E & Hr & Hl & Hv).
    + lia.
    + split; [apply Z.div_pos; lia|].
      apply Z.div_lt_upper_bound; [lia|].
      replace (Z.of_nat k) with (Z.succ (Z.of_nat (k - 1))) in Hn by lia.
      rewrite Z.pow_succ_r in Hn by lia. lia.
    + exists (ds ++ [n mod 16]). split; [now rewrite <- app_assoc|].
      split.
      { apply Forall_app. split; [exact Hr|]. repeat constructor.
        - apply Z.mod_pos_bound; lia.
        - apply Z.mod_pos_bound; lia. }
      split; [rewrite length_app; cbn; lia|].
      rewrite hex_value_app, Hv. cbn [fold_left].
      pose proof (Z.div_mod n 16). lia.
Qed.

Lemma format_X_spec (n : Z) (k : nat) :
  (1 <= k)%nat -> 0 <= n < 16 ^ Z.of_nat k ->
  exists ds,
    format_X n = map hex_char ds
    /\ Forall (fun d => 0 <= d < 16) ds
    /\ (1 <= length ds <= k)%nat
    /\ hex_value ds = n.
Proof.
  intros Hk Hn. unfold format_X.
  set (fuel := S (Z.to_nat (Z.log2 n))).
  assert (Hfuel : n < 16 ^ Z.of_nat fuel).
  { unfold fuel. pose proof (Z.log2_nonneg n) as Hl.
    replace (Z.of_nat (S (Z.to_nat (Z.log2 n)))) with (Z.succ (Z.log2 n)) by lia.
    destruct (Z.eq_dec n 0) as [->|Hnz].
    - cbn. lia.
    - assert (n < 2 ^ Z.succ (Z.log2 n)) by (apply Z.log2_spec; lia).
      assert (2 ^ Z.succ (Z.log2 n) <= 16 ^ Z.succ (Z.log2 n))
        by (apply Z.pow_le_mono_l; lia).
      lia. }
  destruct (hex_digits_spec fuel (Nat.min k fuel) n []) as (ds & E & Hr & Hl & Hv).
  - unfold fuel. lia.
  - split; [lia|]. destruct (Nat.min_spec k fuel) as [[_ ->]|[_ ->]]; lia.
  - exists ds. rewrite E, app_nil_r. repeat split; try assumption; lia.
Qed.

Lemma map_replicate_const {A B : Type} (f : A -> B) (n : nat) (x : A) :
  map f (replicate n x) = replicate n (f x).
Proof. induction n as [|n IH]; cbn; [reflexivity|]. now rewrite IH. Qed.

Lemma hex_value_zeros (j : nat) (ds : list Z) :
  hex_value (replicate j 0 ++ ds) = hex_value ds.
Proof.
  unfold hex_value. induction j as [|j IH]; [reflexivity|].
  cbn [replicate app fold_left]. exact IH.
Qed.

(** A row value below 2^32 is written as exactly eight digits [0-9A-F],
    and they are its value. *)
Lemma format_08X_spec (row : Z) :
  0 <= row < 2 ^ 32 ->
  exists ds,
    format_08X row = map hex_char ds
    /\ length ds = 8%nat
    /\ Forall (fun d => 0 <= d < 16) ds
    /\ hex_value ds = row.
Proof.
  intros Hr. unfold format_08X.
  destruct (Z.ltb_spec row 0) as [?|_]; [lia|].
  destruct (format_X_spec row 8) as (ds & E & Hd & Hl & Hv); [lia|exact Hr|].
  rewrite E, length_map.
  exists (replicate (8 - length ds) 0 ++ ds).
  split; [rewrite map_app, map_replicate_const; reflexivity|].
  split; [rewrite length_app, length_replicate; lia|].
  split; [apply Forall_app; split; [apply Forall_replicate; lia|exact Hd]|].
  now rewrite hex_value_zeros.
Qed.

Lemma py_int_format_08X (rt : PyRuntime) (row : Z) :
  0 <= row < 2 ^ 32 ->
  py_int rt 16 (format_08X row) = Ok row /\ length (format_08X row) = 8%nat.
Proof.
  intros Hr. destruct (format_08X_spec row Hr) as (ds & -> & Hl & Hd & Hv).
  rewrite length_map. split; [|exact Hl].
  rewrite py_int_hex; [now rewrite Hv| |exact Hd].
  intros ->. discriminate Hl.
Qed.

(** One step of the packing loop appends a bit. *)
Lemma pack_step (v : Z) (b : bool) :
  Z.lor (Z.shiftl v 1) (if b then 1 else 0) = 2 * v + Z.b2z b.
Proof.
  rewrite Z.shiftl_mul_pow2 by lia. change (2 ^ 1) with 2.
  replace (v * 2) with (2 * v) by lia.
  destruct b; cbn [Z.b2z]; [|rewrite Z.lor_0_r; lia].
  apply Z.bits_inj'. intros n Hn. rewrite Z.lor_spec.
  destruct (Z.eq_dec n 0) as [->|Hnz].
  - rewrite Z.testbit_even_0, Z.testbit_odd_0. reflexivity.
  - assert (E : n = Z.succ (n - 1)) by lia.
    assert (Hm : 0 <= n - 1) by lia.
    revert E Hm. generalize (n - 1). intros m -> Hm.
    rewrite Z.testbit_even_succ, Z.testbit_odd_succ by lia.
    change 1 with (2 * 0 + 1). rewrite Z.testbit_odd_succ by lia.
    rewrite Z.testbit_0_l. apply orb_false_r.
Qed.

Lemma pack_bits (bits : list bool) :
  forall v : Z,
    0 <= v ->
    let r := fold_left (fun (a : Z) (b : bool) =>
                          Z.lor (Z.shiftl a 1) (if b then 1 else 0))
                       bits v in
    0 <= r < (v + 1) * 2 ^ Z.of_nat (length bits)
    /\ (forall i : nat, (i < length bits)%nat ->
          Z.testbit r (Z.of_nat (length bits - 1 - i)) = nth i bits false)
    /\ (forall j : Z, 0 <= j ->
          Z.testbit r (j + Z.of_nat (length bits)) = Z.testbit v j).
Proof.
  induction bits as [|b bits IH]; intros v Hv; cbn zeta.
  - cbn [fold_left length]. split; [cbn; lia|]. split; [intros i Hi; cbn in Hi; lia|].
    intros j Hj. now rewrite Z.add_0_r.
  - cbn [fold_left]. rewrite pack_step.
    assert (Hv' : 0 <= 2 * v + Z.b2z b) by (destruct b; cbn; lia).
    destruct (IH _ Hv') as (Hr & Hbits & Hhigh). split; [|split].
    + cbn [length]. rewrite Nat2Z.inj_succ, Z.pow_succ_r by lia.
      destruct b; cbn [Z.b2z] in *; nia.
    + intros i Hi. cbn [length] in Hi. destruct i as [|i].
      * cbn [nth length].
        replace (Z.of_nat (S (length bits) - 1 - 0)) with (0 + Z.of_nat (length bits))
          by lia.
        rewrite Hhigh by lia. apply Z.testbit_0_r.
      * cbn [nth length].
        replace (S (length bits) - 1 - S i)%nat with (length bits - 1 - i)%nat by lia.
        apply Hbits. lia.
    + intros j Hj. cbn [length].
      replace (j + Z.of_nat (S (length bits))) with (Z.succ j + Z.of_nat (length bits))
        by lia.
      rewrite Hhigh by lia. now apply Z.testbit_succ_r.
Qed.

Lemma fold_left_map_inner {A B C : Type} (f : A -> B -> A) (g : C -> B) (l : list C) :
  forall a, fold_left (fun a x => f a (g x)) l a = fold_left f (map g l) a.
Proof. induction l as [|x l IH]; intros a; cbn; [reflexivity|apply IH]. Qed.

Lemma land_shiftr_bit (r k : Z) :
  0 <= k -> (Z.land (Z.shiftr r k) 1 =? 0) = negb (Z.testbit r k).
Proof.
  intros Hk. change 1 with (Z.ones 1). rewrite Z.land_ones by lia.
  change (2 ^ 1) with 2. rewrite <- Z.bit0_mod, Z.shiftr_spec by lia.
  rewrite Z.add_0_l. now destruct (Z.testbit r k).
Qed.

(** A packed row is below 2^32, and its bit [31 - x] says whether pixel
    [x] is lit. *)
Lemma pack_row_bits (bw : Z -> Z -> Z) (y : Z) :
  0 <= pack_row bw y < 2 ^ 32
  /\ forall x : nat, (x < 32)%nat ->
       (Z.land (Z.shiftr (pack_row bw y) (31 - Z.of_nat x)) 1 =? 0)
       = (bw (Z.of_nat x) y =? 0).
Proof.
  unfold pack_row. cbv zeta.
  rewrite (fold_left_map_inner
             (fun (a : Z) (b : bool) => Z.lor (Z.shiftl a 1) (if b then 1 else 0))
             (fun x => negb (bw (Z.of_nat x) y =? 0)) (range 32) 0).
  destruct (pack_bits (map (fun x => negb (bw (Z.of_nat x) y =? 0)) (range 32)) 0)
    as (Hr & Hbits & _); [lia|].
  cbv zeta in Hr, Hbits. rewrite length_map in Hr, Hbits.
  change (length (range 32)) with 32%nat in Hr, Hbits.
  split; [exact Hr|].
  intros x Hx. rewrite land_shiftr_bit by lia.
  replace (31 - Z.of_nat x) with (Z.of_nat (32 - 1 - x)) by lia.
  rewrite (Hbits x Hx).
  rewrite negb_involutive_reverse. f_equal.
  do 32 (destruct x as [|x]; [reflexivity|]). lia.
Qed.

Ltac explode l H :=
  repeat (destruct l as [|? l]; [discriminate H|]; simpl in H);
  destruct l; [clear H | discriminate H].

(** The eight slices [hex_payload[i*8:(i+1)*8]] of eight chunks of eight
    characters are the chunks. *)
Lemma chunks8 (c0 c1 c2 c3 c4 c5 c6 c7 : str) :
  length c0 = 8%nat -> length c1 = 8%nat -> length c2 = 8%nat ->
  length c3 = 8%nat -> length c4 = 8%nat -> length c5 = 8%nat ->
  length c6 = 8%nat -> length c7 = 8%nat ->
  len (concat [c0; c1; c2; c3; c4; c5; c6; c7]) = 64
  /\ map (fun i : nat =>
            slice (concat [c0; c1; c2; c3; c4; c5; c6; c7])
                  (Z.of_nat i * 8) ((Z.of_nat i + 1) * 8))
         (range 8)
     = [c0; c1; c2; c3; c4; c5; c6; c7].
Proof.
  intros H0 H1 H2 H3 H4 H5 H6 H7.
  explode c0 H0. explode c1 H1. explode c2 H2. explode c3 H3.
  explode c4 H4. explode c5 H5. explode c6 H6. explode c7 H7.
  split; vm_compute; reflexivity.
Qed.

Lemma collect_map {A B C : Type} (f : B -> outcome C) (g : A -> B) (xs : list A) :
  collect (fun x => f (g x)) xs = collect f (map g xs).
Proof.
  induction xs as [|x xs IH]; [reflexivity|]. cbn [collect map]. now rewrite IH.
Qed.

(** [apply_fb_payload] on a payload whose eight chunks read as the row
    values [rows]. *)
Lemma apply_fb_payload_rows
  (rt : PyRuntime) (hex_payload : str) (r0 r1 r2 r3 r4 r5 r6 r7 : Z)
  (m : MatrixState) :
  64 <= len hex_payload ->
  collect (fun i => py_int rt 16
                      (slice hex_payload (Z.of_nat i * 8) ((Z.of_nat i + 1) * 8)))
          (range 8)
  = Ok [r0; r1; r2; r3; r4; r5; r6; r7] ->
  apply_fb_payload rt hex_payload m
  = (Ok tt,
     {| mode := FB; pixels := fb_grid [r0; r1; r2; r3; r4; r5; r6; r7];
        vu_levels := vu_levels m; _last_decay := _last_decay m |}).
Proof.
  intros Hlen Hrows. unfold apply_fb_payload.
  destruct (Z.ltb_spec (len hex_payload) (8 * 8)) as [?|_]; [lia|].
  unfold bind at 1, modify at 1. unfold bind at 1, clear at 1, modify at 1.
  unfold try_pass, bind at 1, lift at 1. rewrite Hrows.
  destruct m as [md px lv ld].
  cbv -[Z.land Z.shiftr Z.eqb]. reflexivity.
Qed.

Lemma fb_grid_rows32 (bw : Z -> Z -> Z) : fb_grid (rows32 bw) = picture bw.
Proof.
  unfold fb_grid, rows32, picture. rewrite map_map.
  apply map_ext_in. intros y _. apply map_ext_in. intros x Hx.
  apply in_seq in Hx.
  destruct (pack_row_bits bw (Z.of_nat y)) as [_ Hbit].
  rewrite Hbit by lia. reflexivity.
Qed.

Lemma payload_decodes (rt : PyRuntime) (bw : Z -> Z -> Z) (m : MatrixState) :
  len (payload bw) = 64
  /\ apply_fb_payload rt (payload bw) m
     = (Ok tt,
        {| mode := FB; pixels := picture bw;
           vu_levels := vu_levels m; _last_decay := _last_decay m |}).
Proof.
  assert (Hrow : forall y,
             py_int rt 16 (format_08X (pack_row bw y)) = Ok (pack_row bw y)
             /\ length (format_08X (pack_row bw y)) = 8%nat).
  { intros y. apply py_int_format_08X. apply pack_row_bits. }
  unfold payload.
  change (map format_08X (rows32 bw))
    with [format_08X (pack_row bw 0); format_08X (pack_row bw 1);
          format_08X (pack_row bw 2); format_08X (pack_row bw 3);
          format_08X (pack_row bw 4); format_08X (pack_row bw 5);
          format_08X (pack_row bw 6); format_08X (pack_row bw 7)].
  destruct (chunks8 _ _ _ _ _ _ _ _
              (proj2 (Hrow 0)) (proj2 (Hrow 1)) (proj2 (Hrow 2)) (proj2 (Hrow 3))
              (proj2 (Hrow 4)) (proj2 (Hrow 5)) (proj2 (Hrow 6)) (proj2 (Hrow 7)))
    as [Hlen Hchunks].
  split; [exact Hlen|].
  rewrite <- fb_grid_rows32.
  apply apply_fb_payload_rows; [lia|].
  rewrite (collect_map (py_int rt 16)
             (fun i : nat => slice _ (Z.of_nat i * 8) ((Z.of_nat i + 1) * 8))).
  refine (eq_trans (f_equal (collect (py_int rt 16)) Hchunks) _).
  cbn [collect]. rewrite !(proj1 (Hrow _)). reflexivity.
Qed.

Lemma picture_pixel (bw : Z -> Z -> Z) (x y : nat) :
  (x < 32)%nat -> (y < 8)%nat ->
  nth x (nth y (picture bw) []) 0
  = if bw (Z.of_nat x) (Z.of_nat y) =? 0 then 0 else 1.
Proof.
  intros Hx Hy. unfold picture.
  do 8 (destruct y as [|y]; [do 32 (destruct x as [|x]; [reflexivity|]); lia|]).
  lia.
Qed.

Lemma hex_char_nospace (ds : list Z) :
  Forall (fun d => 0 <= d < 16) ds ->
  Forall (fun c => py_isspace c = false) (map hex_char ds).
Proof.
  intros H. apply Forall_map. eapply Forall_impl; [exact H|].
  cbv beta. intros d Hd.
  now destruct (hex_char_facts ascii_runtime d Hd) as (_ & _ & -> & _).
Qed.

Lemma payload_nospace (bw : Z -> Z -> Z) :
  Forall (fun c => py_isspace c = false) (payload bw).
Proof.
  unfold payload. apply Forall_concat. apply Forall_map.
  apply List.Forall_forall. intros row Hrow. unfold rows32 in Hrow.
  apply in_map_iff in Hrow. destruct Hrow as (y & <- & _).
  destruct (format_08X_spec (pack_row bw (Z.of_nat y))) as (ds & -> & _ & Hd & _);
    [apply pack_row_bits|].
  now apply hex_char_nospace.
Qed.

(** X13. What [loop_screen] packs and formats, [apply_fb_payload] unpacks: the
    payload has 64 characters, and the matrix, whatever it showed, goes to
    FB mode and shows the thresholded image pixel for pixel (lit where
    [getpixel] is not 0), with the levels and the decay timer untouched. *)
Theorem screen_frame_round_trip
  (rt : PyRuntime) (bw : Z -> Z -> Z) (m : MatrixState) :
  exists m',
    apply_fb_payload rt (payload bw) m = (Ok tt, m')
    /\ len (payload bw) = 64
    /\ mode m' = FB
    /\ (forall x y : nat, (x < 32)%nat -> (y < 8)%nat ->
          nth x (nth y (pixels m') []) 0
          = if bw (Z.of_nat x) (Z.of_nat y) =? 0 then 0 else 1)
    /\ vu_levels m' = vu_levels m
    /\ _last_decay m' = _last_decay m.
Proof.
  destruct (payload_decodes rt bw m) as [Hlen E].
  eexists. split; [exact E|]. split; [exact Hlen|].
  cbn [mode pixels vu_levels _last_decay].
  split; [reflexivity|]. split; [|split; reflexivity].
  intros x y Hx Hy. now apply picture_pixel.
Qed.

End ScreenExtra.

(** ** Lines on their way: [send_to_device] and the toggles *)

Module BackendExtra.
Import Backend BackendMore.

Lemma handle_cmd_untagged
  (rt : PyRuntime) (now : float) (cmd : str) (st : Lcd.LcdState) :
  Lcd.has_known_tag (strip cmd) = false ->
  Lcd.handle_cmd rt now cmd st = (Ok tt, st).
Proof.
  intros Hno. unfold Lcd.has_known_tag, Lcd.known_tags in Hno.
  cbn [existsb] in Hno.
  repeat (apply orb_false_iff in Hno; destruct Hno as [? Hno]).
  unfold Lcd.handle_cmd.
  repeat match goal with
         | H : startswith _ _ = false |- _ => rewrite H; clear H
         end.
  reflexivity.
Qed.

Lemma send_to_device_plain_eq
  (rt : PyRuntime) (io : DeviceIo) (line : str) (b : Backend) :
  Lcd.has_known_tag (strip line) = false ->
  startswith line (py "V:") = false ->
  startswith line (py "FB:") = false ->
  send_to_device rt io line b
  = (Ok (snd (send_line rt (serial_io io) (serial b) line)),
     set_serial (fst (send_line rt (serial_io io) (serial b) line)) b).
Proof.
  intros Htag Hv Hfb. unfold send_to_device.
  unfold bind at 1. unfold bind at 1. unfold try_pass.
  unfold bind at 1, on_lcd at 1.
  cbn [lcd set_serial].
  rewrite handle_cmd_untagged by exact Htag.
  rewrite Hv, Hfb. unfold ret. cbn [snd fst].
  destruct b. reflexivity.
Qed.

(** X17. A line that carries none of the display tags and is neither a [V:] nor
    an [FB:] line goes to the serial link and nowhere else: [send_to_device]
    returns what [send_line] returns, leaves the link as [send_line] leaves
    it, and changes neither emulated display nor any flag. *)
Theorem plain_line_bypasses_displays
  (rt : PyRuntime) (io : DeviceIo) (line : str) (b : Backend) :
  Lcd.has_known_tag (strip line) = false ->
  startswith line (py "V:") = false ->
  startswith line (py "FB:") = false ->
  exists ok b',
    send_to_device rt io line b = (Ok ok, b')
    /\ ok = snd (send_line rt (serial_io io) (serial b) line)
    /\ serial b' = fst (send_line rt (serial_io io) (serial b) line)
    /\ displays b' = displays b
    /\ flags b' = flags b.
Proof.
  intros Htag Hv Hfb. eexists _, _.
  split; [now apply send_to_device_plain_eq|].
  repeat split.
Qed.

Ltac toggle_effect :=
  cbv -[send_to_device send_line];
  rewrite send_to_device_plain_eq by (vm_compute; reflexivity);
  eexists; split; [reflexivity|];
  cbv -[send_line]; repeat split.

Lemma toggle_channel_mode_effect (rt : PyRuntime) (io : DeviceIo) (b : Backend) :
  exists b',
    toggle_channel_mode rt io b = (Ok tt, b')
    /\ serial b' = fst (send_line rt (serial_io io) (serial b)
                          (toggle_line ToggleChannel (negb (CHANNEL_ENABLED b))))
    /\ displays b' = displays b
    /\ CHANNEL_ENABLED b' = negb (CHANNEL_ENABLED b)
    /\ _vu_channel_enabled b' = negb (CHANNEL_ENABLED b)
    /\ AUDIO_MODE_ENABLED b'
       = (if CHANNEL_ENABLED b then AUDIO_MODE_ENABLED b else false)
    /\ _vu_audio_mode_enabled b'
       = (if CHANNEL_ENABLED b then _vu_audio_mode_enabled b else false)
    /\ _vu_rebind b' = (if CHANNEL_ENABLED b then _vu_rebind b else true).
Proof.
  destruct b as [sl l mx ch au lo vch vau vre]. destruct ch; toggle_effect.
Qed.

Lemma toggle_audio_mode_effect (rt : PyRuntime) (io : DeviceIo) (b : Backend) :
  exists b',
    toggle_audio_mode rt io b = (Ok tt, b')
    /\ serial b' = fst (send_line rt (serial_io io) (serial b)
                          (toggle_line ToggleAudio (negb (AUDIO_MODE_ENABLED b))))
    /\ displays b' = displays b
    /\ AUDIO_MODE_ENABLED b' = negb (AUDIO_MODE_ENABLED b)
    /\ _vu_audio_mode_enabled b' = negb (AUDIO_MODE_ENABLED b)
    /\ CHANNEL_ENABLED b'
       = (if AUDIO_MODE_ENABLED b then CHANNEL_ENABLED b else false)
    /\ _vu_channel_enabled b'
       = (if AUDIO_MODE_ENABLED b then _vu_channel_enabled b else false)
    /\ _vu_rebind b' = (if AUDIO_MODE_ENABLED b then _vu_rebind b else true).
Proof.
  destruct b as [sl l mx ch au lo vch vau vre]. destruct au; toggle_effect.
Qed.

Lemma toggle_logo_mode_effect (rt : PyRuntime) (io : DeviceIo) (b : Backend) :
  exists b',
    toggle_logo_mode rt io b = (Ok tt, b')
    /\ serial b' = fst (send_line rt (serial_io io) (serial b)
                          (toggle_line ToggleLogo (negb (LOGO_ENABLED b))))
    /\ displays b' = displays b
    /\ LOGO_ENABLED b' = negb (LOGO_ENABLED b)
    /\ CHANNEL_ENABLED b'
       = (if LOGO_ENABLED b then CHANNEL_ENABLED b else false)
    /\ AUDIO_MODE_ENABLED b'
       = (if LOGO_ENABLED b then AUDIO_MODE_ENABLED b else false)
    /\ _vu_channel_enabled b'
       = (if LOGO_ENABLED b then _vu_channel_enabled b else false)
    /\ _vu_audio_mode_enabled b'
       = (if LOGO_ENABLED b then _vu_audio_mode_enabled b else false)
    /\ _vu_rebind b' = _vu_rebind b.
Proof.
  destruct b as [sl l mx ch au lo vch vau vre]. destruct lo; toggle_effect.
Qed.

(** X18. Each of the three toggles returns, flips its own flag, hands
    [send_line] exactly one line, the [...:ON] or [...:OFF] that names the
    flag's new value, and changes nothing on either emulated display. *)
Theorem toggle_sends_its_line
  (rt : PyRuntime) (t : toggle) (io : DeviceIo) (b : Backend) :
  exists b',
    run_toggle rt (t, io) b = (Ok tt, b')
    /\ own_flag t b' = negb (own_flag t b)
    /\ serial b' = fst (send_line rt (serial_io io) (serial b)
                          (toggle_line t (own_flag t b')))
    /\ displays b' = displays b.
Proof.
  destruct t; unfold run_toggle; cbn [fst snd own_flag].
  - destruct (toggle_channel_mode_effect rt io b) as (b' & E & Hs & Hd & Hf & _).
    exists b'. rewrite Hf. auto.
  - destruct (toggle_audio_mode_effect rt io b) as (b' & E & Hs & Hd & Hf & _).
    exists b'. rewrite Hf. auto.
  - destruct (toggle_logo_mode_effect rt io b) as (b' & E & Hs & Hd & Hf & _).
    exists b'. rewrite Hf. auto.
Qed.

Lemma run_toggle_in_step (rt : PyRuntime) (c : toggle * DeviceIo) (b : Backend) :
  events_in_step b ->
  exists b', run_toggle rt c b = (Ok tt, b') /\ events_in_step b'.
Proof.
  intros [Hc Ha]. destruct c as [[| |] io]; unfold run_toggle; cbn [fst snd].
  - destruct (toggle_channel_mode_effect rt io b)
      as (b' & E & _ & _ & H1 & H2 & H3 & H4 & _).
    exists b'. split; [exact E|]. unfold events_in_step.
    rewrite H1, H2, H3, H4, Ha. now destruct (CHANNEL_ENABLED b).
  - destruct (toggle_audio_mode_effect rt io b)
      as (b' & E & _ & _ & H1 & H2 & H3 & H4 & _).
    exists b'. split; [exact E|]. unfold events_in_step.
    rewrite H1, H2, H3, H4, Hc. now destruct (AUDIO_MODE_ENABLED b).
  - destruct (toggle_logo_mode_effect rt io b)
      as (b' & E & _ & _ & _ & H1 & H2 & H3 & H4 & _).
    exists b'. split; [exact E|]. unfold events_in_step.
    rewrite H1, H2, H3, H4, Hc, Ha. now destruct (LOGO_ENABLED b).
Qed.

(** X19. The events the VU worker reads stay in step with the flags: if
    [_vu_channel_enabled] and [_vu_audio_mode_enabled] agree with
    [CHANNEL_ENABLED] and [AUDIO_MODE_ENABLED], as they do in a fresh
    [Backend], they still agree after any run of the three toggles; and a
    toggle that switches channel or audio mode on asks the worker to
    rebind. *)
Theorem toggles_keep_events_in_step
  (rt : PyRuntime) (cs : list (toggle * DeviceIo)) (b : Backend) :
  events_in_step b ->
  (exists b', run_toggles rt cs b = (Ok tt, b') /\ events_in_step b')
  /\ (forall io, CHANNEL_ENABLED b = false ->
        _vu_rebind (snd (toggle_channel_mode rt io b)) = true)
  /\ (forall io, AUDIO_MODE_ENABLED b = false ->
        _vu_rebind (snd (toggle_audio_mode rt io b)) = true).
Proof.
  intros Hb. split; [|split].
  - revert b Hb. induction cs as [|c cs IH]; intros b Hb.
    + exists b. split; [reflexivity|exact Hb].
    + destruct (run_toggle_in_step rt c b Hb) as (b1 & E1 & Hb1).
      destruct (IH b1 Hb1) as (b2 & E2 & Hb2).
      exists b2. split; [|exact Hb2].
      unfold run_toggles in *. cbn [for_each]. unfold bind at 1. now rewrite E1.
  - intros io Hoff.
    destruct (toggle_channel_mode_effect rt io b) as (b' & E & _ & _ & _ & _ & _ & _ & H).
    rewrite E. cbn [snd]. now rewrite H, Hoff.
  - intros io Hoff.
    destruct (toggle_audio_mode_effect rt io b) as (b' & E & _ & _ & _ & _ & _ & _ & H).
    rewrite E. cbn [snd]. now rewrite H, Hoff.
Qed.

Lemma toggles_keep_events_in_step_witness :
  events_in_step (init no_link 0%float)
  /\ events_in_step
       (snd (run_toggles ascii_runtime
               [(ToggleChannel, quiet_io 1%float); (ToggleLogo, quiet_io 2%float);
                (ToggleAudio, quiet_io 3%float); (ToggleAudio, quiet_io 4%float)]
               (init no_link 0%float))).
Proof.
  assert (H : events_in_step (init no_link 0%float)) by (split; reflexivity).
  split; [exact H|].
  destruct (toggles_keep_events_in_step ascii_runtime
              [(ToggleChannel, quiet_io 1%float); (ToggleLogo, quiet_io 2%float);
               (ToggleAudio, quiet_io 3%float); (ToggleAudio, quiet_io 4%float)]
              (init no_link 0%float) H) as [(b' & E & Hb') _].
  rewrite E. exact Hb'.
Defined.

Lemma plain_line_bypasses_displays_witness :
  exists ok b',
    send_to_device ascii_runtime (quiet_io 1%float) (py "BACKLIGHT:TOGGLE")
      (init {| ser := Some {| port_open := true; wire := [] |}; last_tx := 0%float |}
            0%float)
    = (Ok ok, b')
    /\ ok = true
    /\ ser (serial b')
       = Some {| port_open := true; wire := [py "BACKLIGHT:TOGGLE" ++ [10]] |}
    /\ displays b' = (Lcd.init, Matrix.init 0%float).
Proof.
  destruct (plain_line_bypasses_displays ascii_runtime (quiet_io 1%float)
              (py "BACKLIGHT:TOGGLE")
              (init {| ser := Some {| port_open := true; wire := [] |};
                       last_tx := 0%float |} 0%float))
    as (ok & b' & E & Hok & Hs & Hd & _); try (vm_compute; reflexivity).
  exists ok, b'. split; [exact E|].
  split; [rewrite Hok; vm_compute; reflexivity|].
  split; [rewrite Hs; vm_compute; reflexivity|exact Hd].
Defined.

(** *** Frames and levels through [send_to_device] *)

Lemma lstrip_nospace (s : str) :
  Forall (fun c => py_isspace c = false) s -> lstrip s = s.
Proof. intros H. destruct H as [|c s Hc _]; cbn [lstrip]; [reflexivity|now rewrite Hc]. Qed.

Lemma strip_nospace (s : str) :
  Forall (fun c => py_isspace c = false) s -> strip s = s.
Proof.
  intros H. unfold strip, rstrip. rewrite (lstrip_nospace s H).
  rewrite lstrip_nospace by (apply Forall_rev; exact H).
  apply rev_involutive.
Qed.

(** The emulated display ignores a line that starts with [V:] or [FB:]. *)
Lemma handle_cmd_feed (rt : PyRuntime) (now : float) (c0 : Z) (body : str)
  (st : Lcd.LcdState) :
  c0 = 86 \/ c0 = 70 ->
  (c0 = 86 -> exists r, body = 58 :: r) ->
  Lcd.handle_cmd rt now (c0 :: body) st = (Ok tt, st).
Proof.
  intros Hc0 Hbody. apply handle_cmd_untagged.
  assert (Hs : exists r, strip (c0 :: body) = c0 :: r
                         /\ (c0 = 86 -> exists r', r = 58 :: r')).
  { unfold strip. assert (Hsp : py_isspace c0 = false) by (destruct Hc0; subst; reflexivity).
    cbn [lstrip]. rewrite Hsp.
    destruct Hc0 as [-> | ->].
    - destruct (Hbody eq_refl) as [r ->].
      change (86 :: 58 :: r) with ([86] ++ 58 :: r).
      rewrite LcdFacts.rstrip_app_nonspace by reflexivity.
      eexists. split; [reflexivity|]. intros _. eexists. reflexivity.
    - change (70 :: body) with ([] ++ 70 :: body).
      rewrite LcdFacts.rstrip_app_nonspace by reflexivity.
      eexists. split; [reflexivity|]. intros H. discriminate H. }
  destruct Hs as (r & -> & Hr). destruct Hc0 as [-> | ->].
  - destruct (Hr eq_refl) as [r' ->]. vm_compute. reflexivity.
  - vm_compute. reflexivity.
Qed.

(** X14. The frame [loop_screen] sends reaches the emulated matrix and nothing
    else of the emulation: after [send_to_device("FB:" + payload)] the
    matrix is in FB mode and shows the thresholded image, its levels and
    decay timer are as before, and the emulated display and the three flags
    are unchanged. *)
Theorem screen_frame_reaches_matrix
  (rt : PyRuntime) (io : DeviceIo) (bw : Z -> Z -> Z) (b : Backend) :
  exists ok b',
    send_to_device rt io (Screen.frame_line bw) b = (Ok ok, b')
    /\ matrix b'
       = {| Matrix.mode := Matrix.FB;
            Matrix.pixels := Screen.picture bw;
            Matrix.vu_levels := Matrix.vu_levels (matrix b);
            Matrix._last_decay := Matrix._last_decay (matrix b) |}
    /\ lcd b' = lcd b
    /\ flags b' = flags b.
Proof.
  unfold send_to_device, Screen.frame_line.
  assert (Hsl : slice_from (py "FB:" ++ Screen.payload bw) 3 = Screen.payload bw)
    by (change 3 with (len (py "FB:")); apply slice_from_app).
  rewrite Hsl. change (py "FB:" ++ Screen.payload bw)
    with (70 :: 66 :: 58 :: Screen.payload bw).
  change (startswith (70 :: 66 :: 58 :: Screen.payload bw) (py "V:")) with false.
  change (startswith (70 :: 66 :: 58 :: Screen.payload bw) (py "FB:")) with true.
  cbv beta iota.
  rewrite (strip_nospace _ (ScreenExtra.payload_nospace bw)).
  unfold bind at 1. unfold bind at 1. unfold try_pass.
  unfold bind at 1, on_lcd at 1. cbn [lcd set_serial].
  rewrite handle_cmd_feed by (first [now right | intros H; discriminate H]).
  unfold on_matrix. cbn [matrix set_lcd set_serial].
  rewrite (proj2 (ScreenExtra.payload_decodes rt bw (matrix b))).
  unfold ret. cbn [snd fst].
  eexists _, _. split; [reflexivity|].
  destruct b. repeat split.
Qed.

Lemma digit_cases (v : Z) :
  0 <= v <= 9 ->
  v = 0 \/ v = 1 \/ v = 2 \/ v = 3 \/ v = 4 \/ v = 5 \/ v = 6 \/ v = 7 \/ v = 8
  \/ v = 9.
Proof. lia. Qed.

Ltac each_digit v H :=
  let C := fresh in
  pose proof (digit_cases v H) as C; clear H;
  repeat (destruct C as [C|C]; [subst v|]); [..|subst v].

Lemma decimal_digit (v : Z) : 0 <= v <= 9 -> decimal v = [48 + v].
Proof. intros H. each_digit v H; vm_compute; reflexivity. Qed.

Lemma py_str_int_digit (rt : PyRuntime) (v : Z) :
  0 <= v <= 9 -> py_str_int rt v = Ok [48 + v].
Proof.
  intros H. rewrite <- decimal_digit by exact H.
  apply LcdExtra.py_str_int_small. unfold count_digits.
  destruct (Z.ltb_spec v 0); [lia|]. rewrite decimal_digit by exact H.
  vm_compute. discriminate.
Qed.

Lemma py_int_digit (rt : PyRuntime) (v : Z) :
  0 <= v <= 9 -> py_int rt 10 [48 + v] = Ok v.
Proof.
  intros H. unfold py_int.
  each_digit v H; cbv -[over_digit_limit];
    rewrite LcdExtra.over_digit_limit_small by lia; reflexivity.
Qed.

Lemma vu_text_eq (rt : PyRuntime) (levels : list Z) :
  Forall (fun v => 0 <= v <= 8) levels ->
  Feed.vu_text rt levels = Ok (map (Z.add 48) (slice_to levels 32)).
Proof.
  intros H. unfold Feed.vu_text.
  assert (Hs : Forall (fun v => 0 <= v <= 8) (slice_to levels 32)).
  { rewrite slice_to_take by lia. now apply Forall_take. }
  revert Hs. generalize (slice_to levels 32). intros l Hl.
  assert (E : collect (py_str_int rt) l = Ok (map (fun v => [48 + v]) l)).
  { induction Hl as [|v l Hv _ IH]; [reflexivity|].
    cbn [collect map]. rewrite py_str_int_digit by lia. now rewrite IH. }
  rewrite E. f_equal.
  clear E Hl. induction l as [|v l IH]; [reflexivity|].
  cbn [map concat app]. now rewrite IH.
Qed.

Lemma digits_read_back (rt : PyRuntime) (l : list Z) :
  Forall (fun v => 0 <= v <= 8) l ->
  strip (map (Z.add 48) l) = map (Z.add 48) l
  /\ List.filter (py_isdigit rt) (map (Z.add 48) l) = map (Z.add 48) l
  /\ collect (fun c => py_int rt 10 [c]) (map (Z.add 48) l) = Ok l.
Proof.
  intros H. split; [|split].
  - apply strip_nospace. apply Forall_map. eapply Forall_impl; [exact H|].
    cbv beta. intros v Hv.
    assert (Hv' : 0 <= v <= 9) by lia. each_digit v Hv'; reflexivity.
  - induction H as [|v l Hv _ IH]; [reflexivity|].
    cbn [map List.filter]. rewrite IH.
    assert (Hv' : 0 <= v <= 9) by lia. each_digit v Hv'; reflexivity.
  - induction H as [|v l Hv _ IH]; [reflexivity|].
    cbn [map collect]. rewrite py_int_digit by lia. now rewrite IH.
Qed.

Lemma clamp_levels_slice (levels : list Z) :
  MatrixMore.clamp_levels (slice_to levels 32) = MatrixMore.clamp_levels levels.
Proof.
  unfold MatrixMore.clamp_levels.
  assert (E : slice_to (slice_to levels 32) 32 = slice_to levels 32).
  { rewrite !slice_to_take by lia. apply take_take. }
  now rewrite E.
Qed.

(** X15. The levels the VU worker sends reach the emulated matrix: for levels
    between 0 and 8, the text the worker builds is one digit per level, and
    [send_to_device("V:" + text)] reads the same levels back and shows
    them, leaving the emulated display and the three flags unchanged. *)
Theorem vu_levels_reach_matrix
  (rt : PyRuntime) (io : DeviceIo) (levels : list Z) (b : Backend) :
  Forall (fun v => 0 <= v <= 8) levels ->
  exists s ok b',
    Feed.vu_text rt levels = Ok s
    /\ send_to_device rt io (Feed.vu_line s) b = (Ok ok, b')
    /\ matrix b'
       = {| Matrix.mode := Matrix.VU;
            Matrix.pixels := MatrixMore.vu_grid (MatrixMore.clamp_levels levels);
            Matrix.vu_levels := MatrixMore.clamp_levels levels;
            Matrix._last_decay := matrix_time io |}
    /\ (length levels = 32%nat -> Matrix.vu_levels (matrix b') = levels)
    /\ lcd b' = lcd b
    /\ flags b' = flags b.
Proof.
  intros Hl. exists (map (Z.add 48) (slice_to levels 32)).
  rewrite vu_text_eq by exact Hl.
  assert (Hs : Forall (fun v => 0 <= v <= 8) (slice_to levels 32)).
  { rewrite slice_to_take by lia. now apply Forall_take. }
  destruct (digits_read_back rt _ Hs) as (Hstrip & Hfilter & Hcollect).
  set (s := map (Z.add 48) (slice_to levels 32)) in *.
  unfold send_to_device, Feed.vu_line.
  assert (Hsl : slice_from (py "V:" ++ s) 2 = s)
    by (change 2 with (len (py "V:")); apply slice_from_app).
  rewrite Hsl. change (py "V:" ++ s) with (86 :: 58 :: s).
  change (startswith (86 :: 58 :: s) (py "V:")) with true.
  cbv beta iota. rewrite Hstrip, Hfilter, Hcollect.
  unfold bind at 1. unfold bind at 1. unfold try_pass.
  unfold bind at 1, on_lcd at 1. cbn [lcd set_serial].
  rewrite handle_cmd_feed by (first [now left | intros _; eexists; reflexivity]).
  unfold bind at 1, lift at 1. unfold on_matrix. cbn [matrix set_lcd set_serial].
  rewrite MatrixExtra.apply_vu_eq, clamp_levels_slice.
  unfold ret. cbn [snd fst].
  eexists _, _. split; [reflexivity|]. split; [reflexivity|].
  split; [reflexivity|]. split; [|destruct b; repeat split].
  cbn [matrix set_matrix Matrix.vu_levels]. intros Hlen.
  unfold MatrixMore.clamp_levels. rewrite slice_to_take by lia.
  rewrite take_ge by lia. unfold len. rewrite Hlen. cbn [replicate Z.to_nat].
  change (Z.to_nat (32 - Z.of_nat 32)) with 0%nat. cbn [replicate].
  rewrite app_nil_r.
  clear -Hl. induction Hl as [|v l Hv _ IH]; [reflexivity|].
  cbn [map]. rewrite IH. f_equal. lia.
Qed.

Lemma vu_levels_reach_matrix_witness :
  exists s ok b',
    Feed.vu_text ascii_runtime [3; 0; 8; 1] = Ok s
    /\ s = py "3081"
    /\ send_to_device ascii_runtime (quiet_io 2%float) (Feed.vu_line s)
         (init no_link 0%float) = (Ok ok, b')
    /\ Matrix.vu_levels (matrix b') = [3; 0; 8; 1] ++ replicate 28 0
    /\ lcd b' = Lcd.init.
Proof.
  destruct (vu_levels_reach_matrix ascii_runtime (quiet_io 2%float) [3; 0; 8; 1]
              (init no_link 0%float))
    as (s & ok & b' & Hs & E & Hm & _ & Hl & _).
  - repeat constructor; lia.
  - exists s, ok, b'. split; [exact Hs|].
    split; [vm_compute in Hs; inversion Hs; reflexivity|].
    split; [exact E|]. rewrite Hm, Hl. split; vm_compute; reflexivity.
Defined.

End BackendExtra.

(** ** [int(str(n))] and the visit counts *)

Module VisitExtra.
Lemma py_String (c : ascii) (s : string) : py (String c s) = ord_ascii c :: py s.
Proof. reflexivity. Qed.

Lemma scan_digit_step (k acc n : Z) (s : str) :
  0 <= k <= 9 ->
  scan_digits 10 false acc n ((48 + k) :: s)
  = scan_digits 10 false (acc * 10 + k) (n + 1) s.
Proof. intros H. BackendExtra.each_digit k H; reflexivity. Qed.

Ltac digit_head :=
  rewrite py_String;
  match goal with
  | |- context [ord_ascii ?c :: _] =>
      let k := eval vm_compute in (ord_ascii c - 48) in
      change (ord_ascii c) with (48 + k)
  end.

Lemma scan_uint_acc (d : Decimal.uint) :
  forall (a : positive) (n : Z),
    scan_digits 10 false (Z.pos a) n (py (NilEmpty.string_of_uint d))
    = Some (Z.pos (Pos.of_uint_acc d a), n + Z.of_nat (Decimal.nb_digits d), []).
Proof.
  induction d as [|d IH|d IH|d IH|d IH|d IH|d IH|d IH|d IH|d IH|d IH];
    intros a n; cbn [NilEmpty.string_of_uint Pos.of_uint_acc Decimal.nb_digits];
    [cbn; now rewrite Z.add_0_r|..];
    digit_head; rewrite scan_digit_step by lia;
    match goal with
    | |- scan_digits _ _ ?acc _ _ = Some (Z.pos ?q, _, _) =>
        let q' := match q with Pos.of_uint_acc _ ?q' => q' end in
        replace acc with (Z.pos q') by lia
    end;
    rewrite IH; do 3 f_equal; lia.
Qed.

Lemma scan_uint (d : Decimal.uint) :
  forall n : Z,
    scan_digits 10 false 0 n (py (NilEmpty.string_of_uint d))
    = Some (Z.of_N (Pos.of_uint d), n + Z.of_nat (Decimal.nb_digits d), []).
Proof.
  induction d as [|d IH|d IH|d IH|d IH|d IH|d IH|d IH|d IH|d IH|d IH];
    intros n; cbn [NilEmpty.string_of_uint Pos.of_uint Decimal.nb_digits];
    [cbn; now rewrite Z.add_0_r|..];
    digit_head; rewrite scan_digit_step by lia;
    [ change (0 * 10 + 0) with 0; rewrite IH; do 3 f_equal; lia
    | match goal with
      | |- scan_digits _ _ ?acc _ _ = _ =>
          let v := eval vm_compute in acc in change acc with v
      end;
      rewrite scan_uint_acc; cbn [Z.of_N]; do 3 f_equal; lia .. ].
Qed.

Lemma uint_chars (d : Decimal.uint) :
  Forall (fun c => 48 <= c <= 57) (py (NilEmpty.string_of_uint d))
  /\ len (py (NilEmpty.string_of_uint d)) = Z.of_nat (Decimal.nb_digits d).
Proof.
  induction d as [|d IH|d IH|d IH|d IH|d IH|d IH|d IH|d IH|d IH|d IH];
    cbn [NilEmpty.string_of_uint Decimal.nb_digits];
    [split; [constructor|reflexivity]|..];
    rewrite py_String; destruct IH as [IH1 IH2];
    (split; [constructor; [vm_compute; split; discriminate|exact IH1]
            |unfold len in *; cbn [length]; lia]).
Qed.

Lemma transform_ascii (rt : PyRuntime) (s : str) :
  Forall (fun c => c < 127) s -> transform_decimal_and_space rt s = Some s.
Proof.
  induction 1 as [|c s Hc _ IH]; [reflexivity|].
  cbn [transform_decimal_and_space]. unfold to_ascii_digit.
  destruct (Z.ltb_spec c 127); [|lia]. now rewrite IH.
Qed.

Lemma digit_char_cases (c : Z) :
  48 <= c <= 57 ->
  c = 48 \/ c = 49 \/ c = 50 \/ c = 51 \/ c = 52 \/ c = 53 \/ c = 54 \/ c = 55
  \/ c = 56 \/ c = 57.
Proof. lia. Qed.

(** [int(text)] on a run of ASCII digits, with and without a minus sign. *)
Lemma py_int_digits (rt : PyRuntime) (s : str) (v n : Z) :
  s <> [] -> Forall (fun c => 48 <= c <= 57) s ->
  scan_digits 10 false 0 0 s = Some (v, n, []) ->
  n <> 0 -> over_digit_limit rt n = false ->
  py_int rt 10 s = Ok v /\ py_int rt 10 (45 :: s) = Ok (- v).
Proof.
  intros Hne Hs Hscan Hn Hlim.
  assert (Ht : transform_decimal_and_space rt s = Some s).
  { apply transform_ascii. eapply Forall_impl; [exact Hs|]. cbv beta. lia. }
  assert (Hn0 : (n =? 0) = false) by now apply Z.eqb_neq.
  destruct s as [|c s']; [congruence|].
  pose proof (digit_char_cases c (Forall_inv Hs)) as C.
  unfold py_int. cbn [transform_decimal_and_space]. 
  cbn [transform_decimal_and_space] in Ht.
  change (to_ascii_digit rt 45) with (Some 45).
  destruct (to_ascii_digit rt c) as [c'|] eqn:Hc; [|discriminate Ht].
  destruct (transform_decimal_and_space rt s') as [t|] eqn:Hts; [|discriminate Ht].
  inversion Ht; subst c' t. clear Ht.
  repeat (destruct C as [C|C]; [subst c|]); [..|subst c];
    (split;
     match goal with
     | |- context [skip_spaces (?x :: ?r)] =>
         change (skip_spaces (x :: r)) with (x :: r)
     end;
     cbv beta iota zeta; change (10 =? 16) with false; cbv beta iota;
     rewrite Hscan, Hn0, Hlim; reflexivity).
Qed.

Lemma string_of_uint_nonnil (d : Decimal.uint) :
  d <> Decimal.Nil -> NilZero.string_of_uint d = NilEmpty.string_of_uint d.
Proof. destruct d; [congruence|reflexivity..]. Qed.

Lemma nb_digits_nonnil (d : Decimal.uint) :
  d <> Decimal.Nil -> (1 <= Decimal.nb_digits d)%nat.
Proof. destruct d; [congruence|cbn; lia..]. Qed.

(** The decimal text of an integer: an optional minus sign and then the
    digits, at least one, that [int] reads back as the integer. *)
Lemma decimal_shape (n : Z) :
  exists (sign digits : str) (v : Z),
    decimal n = sign ++ digits
    /\ (sign = [] /\ n = v \/ sign = [45] /\ n = - v)
    /\ digits <> []
    /\ Forall (fun c => 48 <= c <= 57) digits
    /\ scan_digits 10 false 0 0 digits = Some (v, len digits, [])
    /\ count_digits n = len digits.
Proof.
  destruct n as [|p|p].
  - exists [], [48], 0. repeat split; try reflexivity; try discriminate.
    + left. split; reflexivity.
    + repeat constructor; lia.
  - pose proof (DecimalPos.Unsigned.to_uint_nonnil p) as Hnn.
    pose proof (DecimalPos.Unsigned.of_to p) as Hof.
    destruct (uint_chars (Pos.to_uint p)) as [Hch Hlen].
    exists [], (py (NilEmpty.string_of_uint (Pos.to_uint p))), (Z.pos p).
    assert (E : decimal (Z.pos p) = py (NilEmpty.string_of_uint (Pos.to_uint p))).
    { unfold decimal. cbn [Z.to_int NilZero.string_of_int].
      now rewrite string_of_uint_nonnil. }
    split; [exact E|]. split; [left; split; reflexivity|].
    split.
    { intros H. rewrite H in Hlen. pose proof (nb_digits_nonnil _ Hnn).
      unfold len in Hlen. cbn [length] in Hlen. lia. }
    split; [exact Hch|]. split.
    + rewrite scan_uint, Hof, Hlen. reflexivity.
    + unfold count_digits. destruct (Z.ltb_spec (Z.pos p) 0); [lia|].
      now rewrite E.
  - pose proof (DecimalPos.Unsigned.to_uint_nonnil p) as Hnn.
    pose proof (DecimalPos.Unsigned.of_to p) as Hof.
    destruct (uint_chars (Pos.to_uint p)) as [Hch Hlen].
    exists [45], (py (NilEmpty.string_of_uint (Pos.to_uint p))), (Z.pos p).
    assert (E : decimal (Z.neg p)
                = 45 :: py (NilEmpty.string_of_uint (Pos.to_uint p))).
    { unfold decimal. cbn [Z.to_int NilZero.string_of_int].
      rewrite py_String. now rewrite string_of_uint_nonnil. }
    split; [exact E|]. split; [right; split; reflexivity|].
    split.
    { intros H. rewrite H in Hlen. pose proof (nb_digits_nonnil _ Hnn).
      unfold len in Hlen. cbn [length] in Hlen. lia. }
    split; [exact Hch|]. split.
    + rewrite scan_uint, Hof, Hlen. reflexivity.
    + unfold count_digits. destruct (Z.ltb_spec (Z.neg p) 0); [|lia].
      rewrite E. unfold len. cbn [length]. lia.
Qed.

(** [int(str(n)) == n], whenever [str(n)] is within the digit limit. *)
Lemma decimal_round_trip (rt : PyRuntime) (n : Z) :
  over_digit_limit rt (count_digits n) = false ->
  py_int rt 10 (decimal n) = Ok n.
Proof.
  intros Hlim.
  destruct (decimal_shape n) as (sign & ds & v & E & Hsign & Hne & Hch & Hscan & Hcount).
  rewrite Hcount in Hlim.
  assert (Hn : len ds <> 0).
  { destruct ds; [congruence|]. unfold len. cbn [length]. lia. }
  destruct (py_int_digits rt ds v (len ds) Hne Hch Hscan Hn Hlim) as [Hp Hm].
  rewrite E. destruct Hsign as [[-> ->]|[-> ->]]; [exact Hp|exact Hm].
Qed.

Lemma decimal_chars (n : Z) :
  Forall (fun c => py_isspace c = false /\ c <> 44) (decimal n).
Proof.
  destruct (decimal_shape n) as (sign & ds & v & -> & Hsign & _ & Hch & _).
  apply Forall_app. split.
  - destruct Hsign as [[-> _]|[-> _]]; repeat constructor; discriminate.
  - eapply Forall_impl; [exact Hch|]. cbv beta. intros c Hc.
    split; [|lia].
    pose proof (digit_char_cases c Hc) as C.
    repeat (destruct C as [C|C]; [subst c; reflexivity|]). subst c. reflexivity.
Qed.

Lemma find_first (c : Z) (p r : str) :
  ~ In c p -> forall i, find_from i (p ++ c :: r) c = i + len p.
Proof.
  induction p as [|x p IH]; intros Hp i; cbn [app find_from].
  - rewrite Z.eqb_refl. unfold len. cbn. lia.
  - destruct (Z.eqb_spec x c) as [->|_]; [exfalso; apply Hp; now left|].
    rewrite IH by (intros H; apply Hp; now right).
    unfold len. cbn [length]. lia.
Qed.

Lemma slice_mid {A : Type} (p a r : list A) :
  slice (p ++ a ++ r) (len p) (len p + len a) = a.
Proof.
  unfold slice, clamp_index.
  pose proof (len_nonneg p). pose proof (len_nonneg a). pose proof (len_nonneg r).
  rewrite !len_app.
  destruct (Z.ltb_spec (len p) 0); [lia|].
  destruct (Z.ltb_spec (len p + len a) 0); [lia|].
  rewrite !Z.min_l by lia.
  replace (len p + len a - len p) with (len a) by lia.
  unfold len. rewrite !Nat2Z.id.
  rewrite drop_app_length. apply take_app_length.
Qed.

Lemma py_str_int_ok (rt : PyRuntime) (n : Z) (t : str) :
  py_str_int rt n = Ok t ->
  t = decimal n /\ over_digit_limit rt (count_digits n) = false.
Proof.
  unfold py_str_int. destruct (over_digit_limit rt (count_digits n)); [discriminate|].
  intros H. inversion H. split; reflexivity.
Qed.

(** X16. The counts [loop_visit] sends come out on the display: if the line
    [f"LIVE:{astro},{core}"] can be built, then in VISIT mode, on a display
    with its two rows, [handle_cmd] reads both integers back, negative ones
    too, shows them under the header, restarts the fill animation and
    remembers them. *)
Theorem visit_counts_round_trip
  (rt : PyRuntime) (now : float) (astro core : Z) (line : str)
  (st : Lcd.LcdState) :
  Feed.live_line rt astro core = Ok line ->
  Lcd.mode st = Lcd.VISIT ->
  LcdMore.wf st ->
  Lcd.handle_cmd rt now line st = (Ok tt, LcdMore.live_shown now astro core st).
Proof.
  intros Hline Hmode Hwf. unfold Feed.live_line in Hline.
  destruct (py_str_int rt astro) as [a|] eqn:Ha; [|discriminate Hline].
  destruct (py_str_int rt core) as [c|] eqn:Hc; [|discriminate Hline].
  assert (El : line = py "LIVE:" ++ a ++ [44] ++ c) by congruence.
  clear Hline. subst line.
  destruct (py_str_int_ok rt astro a Ha) as [-> Hla].
  destruct (py_str_int_ok rt core c Hc) as [-> Hlc].
  pose proof (decimal_chars astro) as Hca. pose proof (decimal_chars core) as Hcc.
  set (l := py "LIVE:" ++ decimal astro ++ [44] ++ decimal core).
  assert (Hstrip : strip l = l).
  { apply BackendExtra.strip_nospace. unfold l.
    apply Forall_app; split; [repeat constructor|].
    apply Forall_app; split;
      [eapply Forall_impl; [exact Hca|]; cbv beta; tauto|].
    apply Forall_app; split; [repeat constructor|].
    eapply Forall_impl; [exact Hcc|]. cbv beta. tauto. }
  assert (Htag : startswith l (py "LIVE:") = true) by reflexivity.
  assert (Hfind : find l 44 = 5 + len (decimal astro)).
  { unfold find, l.
    replace (py "LIVE:" ++ decimal astro ++ [44] ++ decimal core)
      with ((py "LIVE:" ++ decimal astro) ++ 44 :: decimal core)
      by (now rewrite <- app_assoc).
    rewrite find_first.
    - rewrite len_app. reflexivity.
    - intros Hin. apply in_app_or in Hin. destruct Hin as [Hin|Hin].
      + vm_compute in Hin. intuition discriminate.
      + rewrite List.Forall_forall in Hca. now destruct (Hca 44 Hin). }
  assert (Hsa : slice l 5 (5 + len (decimal astro)) = decimal astro)
    by (unfold l; apply (slice_mid (py "LIVE:"))).
  assert (Hsc : slice_from l (5 + len (decimal astro) + 1) = decimal core).
  { unfold l.
    replace (py "LIVE:" ++ decimal astro ++ [44] ++ decimal core)
      with ((py "LIVE:" ++ decimal astro ++ [44]) ++ decimal core)
      by (now rewrite <- !app_assoc).
    replace (5 + len (decimal astro) + 1)
      with (len (py "LIVE:" ++ decimal astro ++ [44]))
      by (rewrite !len_app; change (len (py "LIVE:")) with 5;
          change (len [44]) with 1; lia).
    apply slice_from_app. }
  unfold Lcd.handle_cmd. rewrite Hstrip.
  LcdFacts.other_tags Htag.
  cbv zeta. rewrite Hfind, Hsa, Hsc.
  rewrite !decimal_round_trip by assumption.
  unfold try_pass. unfold bind at 1, lift at 1. unfold bind at 1, lift at 1.
  unfold bind at 1, get at 1. rewrite Hmode.
  unfold bind at 1. rewrite LcdFacts.draw_visit_header_counts_ok by assumption.
  do 3 (unfold bind at 1; unfold modify at 1).
  unfold bind at 1, get at 1.
  rewrite (LcdExtra.ddram_set_visit_cell_to _ astro core (Lcd.box_step st))
    by reflexivity.
  destruct st. reflexivity.
Qed.

Lemma visit_counts_round_trip_witness :
  Feed.live_line ascii_runtime 1204 (-1) = Ok (py "LIVE:1204,-1")
  /\ Lcd.ddram
       (snd (Lcd.handle_cmd ascii_runtime 5%float (py "LIVE:1204,-1")
               (LcdMore.entered Lcd.VISIT Lcd.init)))
     = [py "Live Visit Count"; py "ARI:1204 CC:-1 " ++ [0]].
Proof.
  split; [vm_compute; reflexivity|].
  rewrite (visit_counts_round_trip ascii_runtime 5%float 1204 (-1)
             (py "LIVE:1204,-1") (LcdMore.entered Lcd.VISIT Lcd.init)).
  - vm_compute. reflexivity.
  - vm_compute. reflexivity.
  - reflexivity.
  - exists (py "Live Visit Count"), (py "ARI:0 CC:0     " ++ [0]).
    split; [|split]; vm_compute; reflexivity.
Defined.

End VisitExtra.

(** ** Custom glyphs *)

Module GlyphExtra.
Import Glyph.

Lemma land_bit (r j : Z) :
  0 <= j ->
  Z.land r (Z.shiftl 1 j) = if Z.testbit r j then Z.shiftl 1 j else 0.
Proof.
  intros Hj. rewrite Z.shiftl_1_l. apply Z.bits_inj'. intros n Hn.
  rewrite Z.land_spec, Z.pow2_bits_eqb by lia.
  destruct (Z.eqb_spec j n) as [->|Hne].
  - rewrite andb_true_r. destruct (Z.testbit r n) eqn:E.
    + rewrite Z.pow2_bits_eqb by lia. now rewrite Z.eqb_refl.
    + now rewrite Z.testbit_0_l.
  - rewrite andb_false_r. destruct (Z.testbit r j).
    + rewrite Z.pow2_bits_eqb by lia. symmetry. now apply Z.eqb_neq.
    + now rewrite Z.testbit_0_l.
Qed.

Lemma cond_bit (r0 j : Z) :
  0 <= j <= 4 ->
  (Z.land (Z.land r0 31) (Z.shiftl 1 j) =? 0) = negb (Z.testbit r0 j).
Proof.
  intros Hj. rewrite land_bit by lia.
  assert (E : Z.testbit (Z.land r0 31) j = Z.testbit r0 j).
  { rewrite Z.land_spec. change 31 with (Z.ones 5).
    rewrite Z.ones_spec_low by lia. apply andb_true_r. }
  rewrite E. destruct (Z.testbit r0 j); [|reflexivity].
  rewrite Z.shiftl_1_l. apply Z.eqb_neq.
  pose proof (Z.pow_pos_nonneg 2 j). lia.
Qed.

(** One pass of the loop over [x]: every column takes the bit of its
    pixel. *)
Lemma cgram_row_eq (rows : list Z) (y : nat) (r c0 c1 c2 c3 c4 : Z) :
  rows !! y = Some r ->
  cgram_row rows y [c0; c1; c2; c3; c4]
  = (Ok tt,
     [Z.lor c0 (pixel_bit r 0 y); Z.lor c1 (pixel_bit r 1 y);
      Z.lor c2 (pixel_bit r 2 y); Z.lor c3 (pixel_bit r 3 y);
      Z.lor c4 (pixel_bit r 4 y)]).
Proof.
  intros Hr. unfold cgram_row, bind at 1, lift at 1.
  rewrite (item_lookup_nat rows y r Hr). cbv zeta beta iota.
  change (range 5) with [0; 1; 2; 3; 4]%nat. cbn [for_each].
  rewrite !cond_bit by lia. unfold pixel_bit.
  destruct (Z.testbit r (4 - Z.of_nat 0)), (Z.testbit r (4 - Z.of_nat 1)),
    (Z.testbit r (4 - Z.of_nat 2)), (Z.testbit r (4 - Z.of_nat 3)),
    (Z.testbit r (4 - Z.of_nat 4));
    cbv -[Z.lor Z.shiftl Z.of_nat]; rewrite ?Z.lor_0_r; reflexivity.
Qed.

Ltac explode l H :=
  repeat (destruct l as [|? l]; [discriminate H|]; simpl in H);
  destruct l; [clear H | discriminate H].

(** The columns [_cgram_to_cols] returns for eight rows. *)
Lemma cgram_to_cols_eq (r0 r1 r2 r3 r4 r5 r6 r7 : Z) :
  exists cols,
    _cgram_to_cols [r0; r1; r2; r3; r4; r5; r6; r7] = Ok cols
    /\ cols
       = map (fun x =>
                fold_left (fun c yr => Z.lor c (pixel_bit (snd yr) x (fst yr)))
                          (enumerate [r0; r1; r2; r3; r4; r5; r6; r7]) 0)
             (range 5).
Proof.
  unfold _cgram_to_cols.
  change (range 8) with [0; 1; 2; 3; 4; 5; 6; 7]%nat. cbn [for_each].
  change (replicate 5 0) with [0; 0; 0; 0; 0].
  do 8 (unfold bind at 1; erewrite cgram_row_eq by reflexivity; cbv beta iota).
  unfold ret. eexists. split; reflexivity.
Qed.

Lemma column_bits (b0 b1 b2 b3 b4 b5 b6 b7 : bool) :
  let bit (b : bool) (y : nat) := if b then Z.shiftl 1 (Z.of_nat y) else 0 in
  let c :=
    Z.lor (Z.lor (Z.lor (Z.lor (Z.lor (Z.lor (Z.lor (Z.lor 0
      (bit b0 0%nat)) (bit b1 1%nat)) (bit b2 2%nat)) (bit b3 3%nat))
      (bit b4 4%nat)) (bit b5 5%nat)) (bit b6 6%nat)) (bit b7 7%nat) in
  0 <= c < 256
  /\ map (painted c) (range 8)
     = map Z.b2z [b0; b1; b2; b3; b4; b5; b6; b7].
Proof.
  destruct b0, b1, b2, b3, b4, b5, b6, b7; vm_compute;
    (split; [split; [discriminate|reflexivity]|reflexivity]).
Qed.

(** X24. [_cgram_to_cols] turns the eight 5-bit rows of a custom glyph into five
    columns of eight bits: it returns five values below 256, and the pixel
    the widget paints in column [x], row [y] of the cell is bit [4 - x] of
    row [y], so the leftmost pixel is the row's bit 4 and bits above it are
    dropped. *)
Theorem cgram_to_cols_transposes (byte_rows_8 : list Z) :
  length byte_rows_8 = 8%nat ->
  exists cols,
    _cgram_to_cols byte_rows_8 = Ok cols
    /\ length cols = 5%nat
    /\ Forall (fun c => 0 <= c < 256) cols
    /\ forall x y : nat, (x < 5)%nat -> (y < 8)%nat ->
         painted (nth x cols 0) y
         = Z.b2z (Z.testbit (nth y byte_rows_8 0) (4 - Z.of_nat x)).
Proof.
  intros Hlen. explode byte_rows_8 Hlen.
  match goal with
  | |- context [_cgram_to_cols [?r0; ?r1; ?r2; ?r3; ?r4; ?r5; ?r6; ?r7]] =>
      destruct (cgram_to_cols_eq r0 r1 r2 r3 r4 r5 r6 r7) as (cols & E & ->);
      assert (Hcol : forall x : nat,
                 let c := fold_left
                            (fun c yr => Z.lor c (pixel_bit (snd yr) x (fst yr)))
                            (enumerate [r0; r1; r2; r3; r4; r5; r6; r7]) 0 in
                 0 <= c < 256
                 /\ map (painted c) (range 8)
                    = map (fun r => Z.b2z (Z.testbit r (4 - Z.of_nat x)))
                          [r0; r1; r2; r3; r4; r5; r6; r7])
        by (intros x; exact (column_bits _ _ _ _ _ _ _ _))
  end.
  eexists. split; [exact E|]. split; [reflexivity|]. split.
  - change (range 5) with [0; 1; 2; 3; 4]%nat. cbn [map].
    repeat constructor; apply Hcol.
  - intros x y Hx Hy. destruct (Hcol x) as [_ Hp]. cbv zeta in Hp.
    apply (f_equal (fun l => nth y l 0)) in Hp.
    do 5 (destruct x as [|x];
          [do 8 (destruct y as [|y]; [exact Hp|]); lia|]).
    lia.
Qed.

Lemma cgram_to_cols_transposes_witness :
  exists cols,
    _cgram_to_cols [0; 7; 13; 9; 11; 27; 24; 0] = Ok cols
    /\ cols = [96; 124; 6; 50; 62]
    /\ painted (nth 2 cols 0) 1 = 1.
Proof.
  destruct (cgram_to_cols_transposes [0; 7; 13; 9; 11; 27; 24; 0] eq_refl)
    as (cols & E & _ & _ & Hbit).
  exists cols. split; [exact E|].
  split; [vm_compute in E; congruence|].
  rewrite (Hbit 2%nat 1%nat) by lia. reflexivity.
Defined.

Lemma glyph_in_range (ch : Z) :
  32 <= ch <= 127 -> exists k : nat, (k < 96)%nat /\ ch = 32 + Z.of_nat k.
Proof. intros H. exists (Z.to_nat (ch - 32)). lia. Qed.

Ltac glyph_at :=
  match goal with
  | |- context [_glyph_cols_for_ascii ?c] =>
      let l := eval vm_compute in (_glyph_cols_for_ascii c) in
      change (_glyph_cols_for_ascii c) with l
  end.

Lemma glyph_cols_in_range (k : nat) :
  (k < 96)%nat ->
  length (_glyph_cols_for_ascii (32 + Z.of_nat k)) = 5%nat
  /\ Forall (fun c => 0 <= c < 128) (_glyph_cols_for_ascii (32 + Z.of_nat k)).
Proof.
  intros Hk.
  do 96 (destruct k as [|k];
         [glyph_at; split; [reflexivity|repeat constructor; lia]|]).
  lia.
Qed.

Lemma glyph_cols_outside (ch : Z) :
  ch <= 32 \/ 127 <= ch -> _glyph_cols_for_ascii ch = [0; 0; 0; 0; 0].
Proof.
  intros H. unfold _glyph_cols_for_ascii.
  destruct (Z.ltb_spec ch 32); [reflexivity|].
  destruct (Z.ltb_spec 127 ch); [reflexivity|].
  cbn [orb]. destruct H as [H|H].
  - replace ch with 32 by lia. reflexivity.
  - replace ch with 127 by lia. reflexivity.
Qed.

(** X25. [_glyph_cols_for_ascii] always returns five columns, each a 7-row
    pattern (below 128), and draws every code outside 0x20..0x7F, as well as
    the blank and 0x7F themselves, as an empty cell. *)
Theorem glyph_cols_shape (ch : Z) :
  length (_glyph_cols_for_ascii ch) = 5%nat
  /\ Forall (fun c => 0 <= c < 128) (_glyph_cols_for_ascii ch)
  /\ (ch <= 32 \/ 127 <= ch -> _glyph_cols_for_ascii ch = [0; 0; 0; 0; 0]).
Proof.
  split; [|split; [|apply glyph_cols_outside]].
  - destruct (Z.le_gt_cases ch 32) as [H|H];
      [now rewrite glyph_cols_outside by auto|].
    destruct (Z.le_gt_cases 127 ch) as [H'|H'];
      [now rewrite glyph_cols_outside by auto|].
    destruct (glyph_in_range ch) as (k & Hk & ->); [lia|].
    now apply glyph_cols_in_range.
  - destruct (Z.le_gt_cases ch 32) as [H|H];
      [rewrite glyph_cols_outside by auto; repeat constructor; lia|].
    destruct (Z.le_gt_cases 127 ch) as [H'|H'];
      [rewrite glyph_cols_outside by auto; repeat constructor; lia|].
    destruct (glyph_in_range ch) as (k & Hk & ->); [lia|].
    now apply glyph_cols_in_range.
Qed.

End GlyphExtra.

(** ** More on the serial link *)

Module SerialExtra.

Lemma lstrip_idem (s : str) : lstrip (lstrip s) = lstrip s.
Proof.
  induction s as [|c s IH]; [reflexivity|]. cbn [lstrip].
  destruct (py_isspace c) eqn:E; [exact IH|]. cbn [lstrip]. now rewrite E.
Qed.

Lemma lstrip_length (s : str) : (length (lstrip s) <= length s)%nat.
Proof.
  induction s as [|c s IH]; [reflexivity|]. cbn [lstrip].
  destruct (py_isspace c); cbn [length]; lia.
Qed.

Lemma lstrip_rstrip (t : str) : lstrip t = t -> lstrip (rstrip t) = rstrip t.
Proof.
  destruct t as [|c t]; [reflexivity|]. cbn [lstrip].
  destruct (py_isspace c) eqn:E.
  - intros H. pose proof (lstrip_length t) as Hl. rewrite H in Hl.
    cbn [length] in Hl. lia.
  - intros _. change (c :: t) with ([] ++ c :: t).
    rewrite LcdFacts.rstrip_app_nonspace by exact E.
    cbn [app lstrip]. now rewrite E.
Qed.

Lemma rstrip_idem (s : str) : rstrip (rstrip s) = rstrip s.
Proof. unfold rstrip. now rewrite rev_involutive, lstrip_idem. Qed.

Lemma strip_idem (s : str) : strip (strip s) = strip s.
Proof.
  unfold strip. rewrite (lstrip_rstrip (lstrip s)) by apply lstrip_idem.
  apply rstrip_idem.
Qed.

Lemma filter_all {A : Type} (f : A -> bool) (l : list A) :
  Forall (fun x => f x = true) l -> List.filter f l = l.
Proof.
  induction 1 as [|x l Hx _ IH]; [reflexivity|].
  cbn [List.filter]. now rewrite Hx, IH.
Qed.

Lemma printable_untouched (s : str) :
  Forall (fun c => 32 <= c <= 126) s ->
  replace_char 10 32 (remove_char 13 (remove_char 0 s)) = s
  /\ List.filter printable s = s.
Proof.
  intros H. unfold remove_char, replace_char.
  rewrite !filter_all.
  - split; [|reflexivity].
    induction H as [|c s Hc _ IH]; [reflexivity|]. cbn [map].
    destruct (Z.eqb_spec c 10); [lia|]. now rewrite IH.
  - eapply Forall_impl; [exact H|]. cbv beta. intros c Hc.
    now apply printable_range.
  - eapply Forall_impl; [exact H|]. cbv beta. intros c Hc.
    destruct (Z.eqb_spec c 0); [lia|reflexivity].
  - rewrite filter_all.
    + eapply Forall_impl; [exact H|]. cbv beta. intros c Hc.
      destruct (Z.eqb_spec c 13); [lia|reflexivity].
    + eapply Forall_impl; [exact H|]. cbv beta. intros c Hc.
      destruct (Z.eqb_spec c 0); [lia|reflexivity].
Qed.

(** X23. Sanitizing twice is sanitizing once, for a [unidecode] that returns
    printable ASCII text as it is: [clean_string] leaves its own results
    alone, so a line cleaned by a caller reaches the device unchanged. *)
Theorem clean_string_idempotent (rt : PyRuntime) (text : str) :
  (forall t, Forall (fun c => 32 <= c <= 126) t -> unidecode rt t = t) ->
  clean_string rt (clean_string rt text) = clean_string rt text.
Proof.
  intros Hu. pose proof (clean_string_printable rt text) as Hp.
  destruct (printable_untouched _ Hp) as [H1 H2].
  unfold clean_string at 1. cbv zeta. rewrite H1, (Hu _ Hp), H2.
  unfold clean_string. apply strip_idem.
Qed.

Lemma clean_string_idempotent_witness :
  clean_string ascii_runtime
    (clean_string ascii_runtime ([32; 0] ++ py "TEXT:a" ++ [13; 10; 233] ++ py "b "))
  = py "TEXT:a b".
Proof.
  rewrite (clean_string_idempotent ascii_runtime).
  - vm_compute. reflexivity.
  - intros t _. reflexivity.
Defined.

(** X22. [send_line] at its edges: on a link that is not open, or when the
    write fails, it changes nothing and returns [False]; it returns [True]
    only after handing the device the sanitized line, and then [last_tx] is
    the time of the call; a [V:] or [CH:] line that was written succeeds
    whether or not a flush would, since none is attempted; and no call
    closes or opens the port or takes back bytes written before. *)
Theorem send_line_outcomes
  (rt : PyRuntime) (io : SerialIo) (l : SerialLink) (line : str) :
  (is_open l = false \/ write_ok io = false ->
   send_line rt io l line = (l, false))
  /\ (snd (send_line rt io l line) = true ->
      exists p,
        ser l = Some p
        /\ ser (fst (send_line rt io l line))
           = Some {| port_open := true;
                     wire := wire p ++ [encode_ascii_ignore (send_line_text rt line)] |}
        /\ last_tx (fst (send_line rt io l line)) = tx_time io)
  /\ (is_open l = true -> write_ok io = true ->
      startswith (send_line_text rt line) (py "V:")
      || startswith (send_line_text rt line) (py "CH:") = true ->
      snd (send_line rt io l line) = true)
  /\ is_open (fst (send_line rt io l line)) = is_open l
  /\ (forall p p', ser l = Some p -> ser (fst (send_line rt io l line)) = Some p' ->
        exists extra, wire p' = wire p ++ extra).
Proof.
  unfold send_line, is_open.
  destruct (ser l) as [p|] eqn:Hser.
  - destruct (port_open p) eqn:Hopen; destruct (write_ok io) eqn:Hw;
      cbv zeta;
      destruct (startswith (send_line_text rt line) (py "V:")
                || startswith (send_line_text rt line) (py "CH:")) eqn:Hvu;
      destruct (flush_ok io) eqn:Hf; cbn [orb fst snd ser last_tx port_open];
      rewrite ?Hser; cbn [port_open];
      (split; [intros [H|H]; first [discriminate H | reflexivity]|]);
      (split; [first [discriminate | intros _; exists p; rewrite ?Hopen; auto]|]);
      (split; [first [reflexivity | discriminate | intros; discriminate]|]);
      (split; [first [reflexivity | now rewrite Hopen]|]);
      intros q q' Hq Hq'; inversion Hq; subst q;
      first [ inversion Hq'; subst q'; exists []; now rewrite app_nil_r
            | inversion Hq'; subst q'; cbn [wire]; eexists; reflexivity ].
  - split; [intros _; reflexivity|]. split; [cbn [snd]; discriminate|].
    split; [discriminate|]. split; [cbn [fst]; now rewrite Hser|].
    intros p p' H. discriminate H.
Qed.

End SerialExtra.

(** ** Switching modes from the orchestrator *)

Module OrchestratorExtra.
Import Backend BackendMore Orchestrator.

Lemma mode_num_cases (n : Z) (md : Lcd.LcdMode) :
  LcdMore.mode_of_num n = Some md ->
  n = 1 \/ n = 3 \/ n = 4 \/ n = 5 \/ n = 7 \/ n = 8.
Proof.
  unfold LcdMore.mode_of_num.
  repeat match goal with
         | |- (if ?n =? ?k then _ else _) = _ -> _ =>
             destruct (Z.eqb_spec n k); [lia|]
         end.
  discriminate.
Qed.

Lemma handle_cmd_mode_digit
  (rt : PyRuntime) (now : float) (n : Z) (md : Lcd.LcdMode) (st : Lcd.LcdState) :
  LcdMore.mode_of_num n = Some md ->
  Lcd.handle_cmd rt now (py "MODE:" ++ [48 + n]) st = (Ok tt, LcdMore.entered md st).
Proof.
  intros Hmd. pose proof (mode_num_cases n md Hmd) as C.
  assert (Hint : py_int rt 10 [48 + n] = Ok n)
    by (apply BackendExtra.py_int_digit; lia).
  unfold Lcd.handle_cmd.
  assert (Hs : strip (py "MODE:" ++ [48 + n]) = py "MODE:" ++ [48 + n]).
  { repeat (destruct C as [C|C]; [subst n; reflexivity|]). subst n. reflexivity. }
  rewrite Hs.
  change (startswith (py "MODE:" ++ [48 + n]) (py "MODE:")) with true.
  cbv iota.
  change 5 with (len (py "MODE:")). rewrite slice_from_app.
  unfold try_pass, bind, lift. rewrite Hint.
  now rewrite (LcdExtra.set_mode_by_num_enters rt n md st Hmd).
Qed.

Lemma send_mode_eq
  (rt : PyRuntime) (io : DeviceIo) (n : Z) (md : Lcd.LcdMode) (b : Backend) :
  LcdMore.mode_of_num n = Some md ->
  send_mode rt io n b
  = (Ok (snd (send_line rt (serial_io io) (serial b) (py "MODE:" ++ [48 + n]))),
     set_lcd (LcdMore.entered md (lcd b))
       (set_serial
          (fst (send_line rt (serial_io io) (serial b) (py "MODE:" ++ [48 + n])))
          b)).
Proof.
  intros Hmd. pose proof (mode_num_cases n md Hmd) as C.
  unfold send_mode, bind at 1, lift at 1.
  rewrite BackendExtra.py_str_int_digit by lia.
  unfold send_to_device.
  change (startswith (py "MODE:" ++ [48 + n]) (py "V:")) with false.
  change (startswith (py "MODE:" ++ [48 + n]) (py "FB:")) with false.
  cbv iota.
  unfold bind at 1. unfold bind at 1. unfold try_pass.
  unfold bind at 1, on_lcd at 1. cbn [lcd set_serial].
  rewrite (handle_cmd_mode_digit rt _ n md _ Hmd).
  unfold ret. reflexivity.
Qed.

Ltac pick_name :=
  repeat match goal with
         | |- context [decide (?a = ?b)] =>
             let E := fresh in
             destruct (decide (a = b)) as [E|E];
             [ try (vm_compute in E; discriminate E)
             | try (exfalso; apply E; reflexivity) ]
         end.

Lemma set_mode_named
  (rt : PyRuntime) (io0 io1 : DeviceIo) (name : str) (md : Lcd.LcdMode)
  (s : State) :
  In (name, md) lcd_mode_named ->
  exists s',
    set_mode rt io0 io1 name s = (Ok tt, s')
    /\ mode s' = name
    /\ lcd (base s') = LcdMore.entered md (lcd (base s))
    /\ displays (base s') = (LcdMore.entered md (lcd (base s)), matrix (base s))
    /\ flags (base s') = flags (base s).
Proof.
  intros Hin. unfold lcd_mode_named in Hin. cbn [In] in Hin.
  destruct s as [old b].
  repeat (destruct Hin as [Hin|Hin]; [inversion Hin; subst name md; clear Hin|]);
    [..|contradiction];
    unfold set_mode; unfold bind at 1, modify at 1; pick_name;
    unfold bind at 1, on_base at 1; cbn [base set_mode_name mode].
  1-5: erewrite send_mode_eq by reflexivity;
       unfold bind, ret; eexists; split; [reflexivity|];
       cbn [mode base]; destruct b; repeat split.
  rewrite BackendExtra.send_to_device_plain_eq by (vm_compute; reflexivity).
  unfold bind at 1, on_base at 1. cbn [base].
  rewrite (send_mode_eq rt io1 8 Lcd.SCREEN _ eq_refl).
  unfold bind, ret. eexists. split; [reflexivity|].
  cbn [mode base]. destruct b. repeat split.
Qed.

(** X20. [Backend.set_mode] and the display agree on the mode numbers: for each
    of the six mode names, [set_mode(name)] records the name and the
    emulated display enters the mode of that name, with its placeholder
    text, while the matrix and the three flags stay as they are; for any
    other name it records the name and sends nothing. *)
Theorem set_mode_enters_named_mode
  (rt : PyRuntime) (io0 io1 : DeviceIo) (name : str) (s : State) :
  (forall md, In (name, md) lcd_mode_named ->
     exists s',
       set_mode rt io0 io1 name s = (Ok tt, s')
       /\ mode s' = name
       /\ Lcd.mode (lcd (base s')) = md
       /\ Lcd.ddram (lcd (base s')) = LcdMore.placeholder md
       /\ matrix (base s') = matrix (base s)
       /\ flags (base s') = flags (base s))
  /\ ((forall md, ~ In (name, md) lcd_mode_named) ->
      set_mode rt io0 io1 name s = (Ok tt, set_mode_name name s)).
Proof.
  split.
  - intros md Hin.
    destruct (set_mode_named rt io0 io1 name md s Hin) as (s' & E & Hn & Hl & Hd & Hf).
    exists s'. split; [exact E|]. split; [exact Hn|]. rewrite Hl.
    split; [now destruct md, (lcd (base s))|].
    split; [now destruct md, (lcd (base s))|].
    split; [|exact Hf]. unfold displays in Hd. congruence.
  - intros Hno. unfold set_mode. unfold bind at 1, modify at 1.
    repeat match goal with
           | |- context [decide (name = ?b)] =>
               destruct (decide (name = b)) as [->|_];
               [exfalso; eapply Hno; unfold lcd_mode_named; cbn [In]; eauto 10|]
           end.
    reflexivity.
Qed.

Lemma set_mode_enters_named_mode_witness :
  exists s',
    set_mode ascii_runtime (quiet_io 1%float) (quiet_io 2%float) (py "SCREEN")
      {| mode := py "VISIT"; base := init no_link 0%float |} = (Ok tt, s')
    /\ mode s' = py "SCREEN"
    /\ Lcd.mode (lcd (base s')) = Lcd.SCREEN
    /\ Lcd.ddram (lcd (base s')) = [py "Screen Mirror   "; py "Running         "].
Proof.
  destruct (set_mode_enters_named_mode ascii_runtime (quiet_io 1%float)
              (quiet_io 2%float) (py "SCREEN")
              {| mode := py "VISIT"; base := init no_link 0%float |}) as [H _].
  destruct (H Lcd.SCREEN) as (s' & E & Hn & Hm & Hd & _).
  - unfold lcd_mode_named. cbn [In]. auto 10.
  - exists s'. split; [exact E|]. split; [exact Hn|]. split; [exact Hm|].
    rewrite Hd. vm_compute. reflexivity.
Defined.

(** X21. [send_custom_text(text)] always ends with the text on the emulated
    display, whatever mode it was in and whatever it showed: the display is
    in TEXT mode and shows the sanitized text wrapped at 16 cells over its
    two rows, and the recorded mode is ["TEXT"]. *)
Theorem send_custom_text_shows_text
  (rt : PyRuntime) (io0 io1 : DeviceIo) (text : str) (s : State) :
  exists s',
    send_custom_text rt io0 io1 text s = (Ok tt, s')
    /\ mode s' = py "TEXT"
    /\ Lcd.mode (lcd (base s')) = Lcd.TEXT
    /\ Lcd.ddram (lcd (base s'))
       = [pad16 (clean_string rt (rstrip text));
          pad16 (drop 16 (clean_string rt (rstrip text)))]
    /\ matrix (base s') = matrix (base s)
    /\ flags (base s') = flags (base s).
Proof.
  destruct (set_mode_named rt io0 io1 (py "TEXT") Lcd.TEXT s)
    as (s1 & E1 & Hn & Hl & Hd & Hf).
  { unfold lcd_mode_named. cbn [In]. auto 10. }
  unfold send_custom_text. unfold bind at 1. rewrite E1.
  unfold bind at 1, on_base at 1.
  unfold send_to_device.
  change (startswith (py "TEXT:" ++ text) (py "V:")) with false.
  change (startswith (py "TEXT:" ++ text) (py "FB:")) with false.
  cbv iota.
  unfold bind at 1. unfold bind at 1. unfold try_pass.
  unfold bind at 1, on_lcd at 1. cbn [lcd set_serial].
  rewrite Hl.
  rewrite LcdExtra.handle_cmd_text;
    [|now destruct (lcd (base s))|apply LcdExtra.entered_wf].
  unfold ret, bind. cbn [fst snd].
  eexists. split; [reflexivity|]. cbn [mode base].
  split; [exact Hn|].
  unfold displays in Hd. injection Hd as _ Hm.
  destruct s1 as [n1 b1]. cbn [base] in *.
  destruct b1. cbn in *. subst.
  repeat split. exact Hf.
Qed.

End OrchestratorExtra.

(** ** The tick never raises *)

Module TickExtra.
Import Lcd LcdMore.

Lemma to_uint_unorm (p : positive) : Decimal.unorm (Pos.to_uint p) = Pos.to_uint p.
Proof.
  rewrite <- (DecimalPos.Unsigned.to_of (Pos.to_uint p)).
  now rewrite DecimalPos.Unsigned.of_to.
Qed.

Lemma usize_nb_digits (d : Decimal.uint) :
  DecimalPos.Unsigned.usize d = N.of_nat (Decimal.nb_digits d).
Proof.
  induction d as [|d IH|d IH|d IH|d IH|d IH|d IH|d IH|d IH|d IH|d IH];
    cbn [DecimalPos.Unsigned.usize Decimal.nb_digits];
    try reflexivity; rewrite IH; lia.
Qed.

Lemma of_uint_acc_lower (l : Decimal.uint) (k : positive) :
  10 ^ Z.of_nat (Decimal.nb_digits l) <= Z.pos (Pos.of_uint_acc l k).
Proof.
  pose proof (Unsigned.of_uint_acc_rev l k) as H. rewrite usize_nb_digits in H.
  apply (f_equal Z.of_N) in H.
  rewrite N2Z.inj_add, N2Z.inj_mul, N2Z.inj_pow, nat_N_Z in H.
  cbn [Z.of_N] in H. rewrite H.
  pose proof (N2Z.is_nonneg (DecimalPos.Unsigned.of_lu (Decimal.rev l))).
  assert (0 < 10 ^ Z.of_nat (Decimal.nb_digits l)) by (apply Z.pow_pos_nonneg; lia).
  nia.
Qed.

(** A positive number with [k] decimal digits is at least [10^(k-1)]. *)
Lemma to_uint_lower (p : positive) :
  10 ^ (Z.of_nat (Decimal.nb_digits (Pos.to_uint p)) - 1) <= Z.pos p.
Proof.
  pose proof (to_uint_unorm p) as Hun.
  pose proof (Unsigned.to_uint_nonzero p) as Hnz.
  pose proof (Unsigned.to_uint_nonnil p) as Hnn.
  pose proof (DecimalPos.Unsigned.of_to p) as Hof.
  destruct (Pos.to_uint p) as [|l|l|l|l|l|l|l|l|l|l] eqn:E; [congruence|..].
  1:{ exfalso.
      change (Decimal.unorm (Decimal.D0 l)) with (Decimal.unorm l) in Hun.
      destruct l as [|l'|l'|l'|l'|l'|l'|l'|l'|l'|l'] eqn:El; [congruence|..];
        (assert (Hl : l <> Decimal.Nil) by (rewrite El; discriminate);
         rewrite <- El in Hun;
         pose proof (nb_digits_unorm l Hl) as Hnb; rewrite Hun in Hnb;
         cbn [Decimal.nb_digits] in Hnb; lia). }
  all: cbn [Pos.of_uint] in Hof; injection Hof as <-;
       cbn [Decimal.nb_digits];
       replace (Z.of_nat (S (Decimal.nb_digits l)) - 1)
         with (Z.of_nat (Decimal.nb_digits l)) by lia;
       apply of_uint_acc_lower.
Qed.

Lemma count_digits_pos (p : positive) :
  count_digits (Z.pos p) = Z.of_nat (Decimal.nb_digits (Pos.to_uint p))
  /\ count_digits (Z.neg p) = Z.of_nat (Decimal.nb_digits (Pos.to_uint p)).
Proof.
  pose proof (Unsigned.to_uint_nonnil p) as Hnn.
  destruct (VisitExtra.uint_chars (Pos.to_uint p)) as [_ Hlen].
  unfold count_digits, decimal. cbn [Z.to_int NilZero.string_of_int].
  rewrite VisitExtra.string_of_uint_nonnil by exact Hnn.
  split.
  - destruct (Z.ltb_spec (Z.pos p) 0); [lia|]. exact Hlen.
  - destruct (Z.ltb_spec (Z.neg p) 0); [|lia].
    rewrite VisitExtra.py_String. unfold len in *. cbn [length]. lia.
Qed.

(** A number below [10^n] has at most [n] digits, with either sign. *)
Lemma count_digits_bound (v n : Z) :
  1 <= n -> 0 <= v < 10 ^ n ->
  count_digits v <= n /\ count_digits (- v) <= n.
Proof.
  intros Hn Hv. destruct v as [|p|p]; [|clear Hn|lia].
  - change (count_digits (- 0)) with 1. change (count_digits 0) with 1. lia.
  - destruct (count_digits_pos p) as [E1 E2].
    change (- Z.pos p) with (Z.neg p). rewrite E1, E2.
    pose proof (to_uint_lower p) as Hlow.
    set (k := Z.of_nat (Decimal.nb_digits (Pos.to_uint p))) in *.
    assert (Hk : k <= n).
    { destruct (Z.le_gt_cases k n) as [H|H]; [exact H|exfalso].
      assert (10 ^ n <= 10 ^ (k - 1)) by (apply Z.pow_le_mono_r; lia).
      lia. }
    lia.
Qed.

Lemma over_digit_limit_mono (rt : PyRuntime) (m n : Z) :
  m <= n -> over_digit_limit rt n = false -> over_digit_limit rt m = false.
Proof.
  unfold over_digit_limit. intros Hmn H.
  destruct (Z.ltb_spec 0 (int_max_str_digits rt)),
    (Z.ltb_spec (int_max_str_digits rt) n),
    (Z.ltb_spec (int_max_str_digits rt) m),
    (Z.ltb_spec 640 n), (Z.ltb_spec 640 m);
    cbn [andb] in *; try reflexivity; try discriminate H; lia.
Qed.

Lemma digit_value_nonneg (c d : Z) : digit_value c = Some d -> 0 <= d.
Proof.
  unfold digit_value. intros Hd.
  repeat match type of Hd with
         | (if ?b then _ else _) = _ =>
             let E := fresh "E" in
             destruct b eqn:E;
             [ apply andb_true_iff in E; destruct E as [E1 E2];
               apply Z.leb_le in E1; apply Z.leb_le in E2;
               inversion Hd; lia | ]
         end.
  discriminate Hd.
Qed.

(** What the digit loop returns lies between the accumulator shifted by
    the digits read and the next such value. *)
Lemma scan_bound (s : str) :
  forall (pu : bool) (acc k v n : Z) (rest : str),
    0 <= acc ->
    scan_digits 10 pu acc k s = Some (v, n, rest) ->
    k <= n /\ acc * 10 ^ (n - k) <= v < (acc + 1) * 10 ^ (n - k).
Proof.
  induction s as [|c s IH]; intros pu acc k v n rest Hacc H; cbn [scan_digits] in H.
  - destruct pu; [discriminate H|]. inversion H; subst.
    rewrite Z.sub_diag. cbn. lia.
  - assert (Hfin : (if pu then None else Some (acc, k, c :: s)) = Some (v, n, rest) ->
                   k <= n /\ acc * 10 ^ (n - k) <= v < (acc + 1) * 10 ^ (n - k)).
    { destruct pu; [discriminate|]. intros H'. inversion H'; subst.
      rewrite Z.sub_diag. cbn. lia. }
    destruct (c =? 95).
    + destruct pu; [discriminate H|]. exact (IH _ _ _ _ _ _ Hacc H).
    + destruct (digit_value c) as [d|] eqn:Hd; [|exact (Hfin H)].
      destruct (Z.ltb_spec d 10) as [Hlt|_]; [|exact (Hfin H)].
      pose proof (digit_value_nonneg c d Hd) as Hd0.
      destruct (IH _ _ _ _ _ _ (ltac:(lia) : 0 <= acc * 10 + d) H) as [Hk Hv].
      split; [lia|].
      replace (n - k) with (Z.succ (n - (k + 1))) by lia.
      rewrite Z.pow_succ_r by lia.
      assert (0 < 10 ^ (n - (k + 1))) by (apply Z.pow_pos_nonneg; lia).
      nia.
Qed.

Lemma not_underscore_head {A : Type} (a : str) (x : outcome A) (r : A) :
  match a with
  | 95 :: _ => Raised ValueError
  | _ => x
  end = Ok r -> x = Ok r.
Proof.
  destruct a as [|c a']; [trivial|].
  destruct c as [|p|p]; try trivial.
  do 7 (destruct p as [p|p|]; try trivial); discriminate.
Qed.

(** What [int] reads, [str] can write: the value has no more digits than
    the text had. *)
Lemma py_int_prints (rt : PyRuntime) (s : str) (v : Z) :
  py_int rt 10 s = Ok v -> prints rt v.
Proof.
  unfold py_int, prints.
  destruct (transform_decimal_and_space rt s) as [a|]; [|discriminate].
  destruct (match skip_spaces a with
            | 43 :: r => (false, r)
            | 45 :: r => (true, r)
            | _ => (false, skip_spaces a)
            end) as [negative a2].
  change (10 =? 16) with false. cbv iota.
  intros H. apply not_underscore_head in H.
  destruct (scan_digits 10 false 0 0 a2) as [[[v' n] rest]|] eqn:Hscan;
    [|discriminate H].
  destruct (Z.eqb_spec n 0) as [|Hn]; [discriminate H|].
  cbn [negb andb] in H.
  destruct (over_digit_limit rt n) eqn:Hlim; [discriminate H|].
  destruct (skip_spaces rest); [|discriminate H].
  destruct (scan_bound a2 false 0 0 v' n rest (Z.le_refl 0) Hscan) as [Hk Hv].
  rewrite Z.sub_0_r in Hv.
  destruct (count_digits_bound v' n) as [Hp Hm]; [lia|lia|].
  inversion H; subst v. destruct negative.
  - exact (over_digit_limit_mono rt _ n Hm Hlim).
  - exact (over_digit_limit_mono rt _ n Hp Hlim).
Qed.

(** *** What every command and tick keeps *)

Lemma prints_small (rt : PyRuntime) (n : Z) : count_digits n <= 640 -> prints rt n.
Proof. intros H. now apply LcdExtra.over_digit_limit_small. Qed.

Lemma prints_str (rt : PyRuntime) (n : Z) :
  prints rt n -> py_str_int rt n = Ok (decimal n).
Proof. unfold prints, py_str_int. now intros ->. Qed.

Lemma keeps_lift_bind {S A B : Type} (P : S -> Prop) (o : outcome A)
  (k : A -> M S B) :
  (forall a, o = Ok a -> keeps P (k a)) -> keeps P (bind (lift o) k).
Proof.
  intros Hk s Hs. unfold bind, lift. destruct o as [a|e]; cbn [snd].
  - now apply (Hk a eq_refl).
  - exact Hs.
Qed.

Lemma keeps_steady_ddram_set (rt : PyRuntime) (row col : nat) (v : Z) :
  keeps (steady rt) (ddram_set row col v).
Proof.
  intros st (Hwf & Hc). split; [now apply LcdExtra.keeps_wf_ddram_set|].
  unfold ddram_set.
  destruct (ddram st !! row) as [r|]; [|exact Hc].
  destruct (col <? length r)%nat; [|exact Hc].
  destruct st. exact Hc.
Qed.

Lemma keeps_steady_frame (rt : PyRuntime) (f : LcdState -> LcdState) :
  (forall st, ddram (f st) = ddram st
              /\ last_visit_astro (f st) = last_visit_astro st
              /\ last_visit_core (f st) = last_visit_core st) ->
  keeps (steady rt) (modify f).
Proof.
  intros Hf. apply keeps_modify. intros st (Hwf & Ha & Hc).
  destruct (Hf st) as (Ed & Ea & Ec). unfold steady, wf.
  now rewrite Ed, Ea, Ec.
Qed.

Lemma keeps_steady_clear (rt : PyRuntime) : keeps (steady rt) clear.
Proof.
  intros st (_ & Hc). split; [apply LcdExtra.establishes_wf_clear|].
  destruct st. exact Hc.
Qed.

Lemma keeps_steady_astro (rt : PyRuntime) (a : Z) :
  prints rt a -> keeps (steady rt) (modify (set_last_visit_astro a)).
Proof.
  intros Ha. apply keeps_modify. intros st (Hwf & _ & Hc).
  destruct st. repeat split; assumption.
Qed.

Lemma keeps_steady_core (rt : PyRuntime) (c : Z) :
  prints rt c -> keeps (steady rt) (modify (set_last_visit_core c)).
Proof.
  intros Hc. apply keeps_modify. intros st (Hwf & Ha & _).
  destruct st. repeat split; assumption.
Qed.

Ltac keeps_steady :=
  cbv zeta;
  repeat match goal with
         | |- keeps _ (ret _) => apply keeps_ret
         | |- keeps _ (lift _) => apply keeps_lift
         | |- keeps _ get => apply keeps_get
         | |- keeps _ (try_pass _) => apply keeps_try_pass
         | |- keeps _ (ddram_set _ _ _) => apply keeps_steady_ddram_set
         | |- keeps _ clear => apply keeps_steady_clear
         | |- keeps _ (modify (set_last_visit_astro _)) => apply keeps_steady_astro
         | |- keeps _ (modify (set_last_visit_core _)) => apply keeps_steady_core
         | |- keeps _ (modify _) =>
             apply keeps_steady_frame; intros []; repeat split; reflexivity
         | |- keeps _ (for_each _ _) => apply keeps_for_each; intros ?
         | |- keeps _ (bind (lift _) _) => apply keeps_lift_bind; intros ? ?
         | |- keeps _ (bind _ _) => apply keeps_bind; [|intros ?]
         | |- keeps _ (if ?c then _ else _) => destruct c
         | |- keeps _ (match ?x with _ => _ end) => destruct x
         | |- keeps _ (setattr ?a _) => destruct a; cbn [setattr]
         end.

Lemma keeps_steady_write_line (rt : PyRuntime) (row : nat) (text : str) :
  keeps (steady rt) (write_line row text).
Proof. unfold write_line. keeps_steady. Qed.

Lemma keeps_steady_write_icon_prefix_line
  (rt : PyRuntime) (row : nat) (icon : Z) (text : str) :
  keeps (steady rt) (write_icon_prefix_line row icon text).
Proof. unfold write_icon_prefix_line. keeps_steady. Qed.

Lemma keeps_steady_draw (rt : PyRuntime) (a c : Z) :
  prints rt a -> prints rt c ->
  keeps (steady rt) (draw_visit_header_counts rt a c).
Proof.
  intros Ha Hc. unfold draw_visit_header_counts. keeps_steady;
    first [assumption | apply keeps_steady_write_line].
Qed.

Lemma keeps_steady_redraw (rt : PyRuntime) :
  keeps (steady rt)
    (let* st := get in
     draw_visit_header_counts rt (last_visit_astro st) (last_visit_core st)).
Proof.
  intros st Hst. unfold bind at 1, get at 1.
  destruct Hst as (Hwf & Ha & Hc).
  apply (keeps_steady_draw rt _ _ Ha Hc). repeat split; assumption.
Qed.

Lemma keeps_steady_scroll
  (rt : PyRuntime) (row : nat) (text : str) (a : idx_attr) (icon : Z) :
  keeps (steady rt) (scroll_text_line_icon row text a icon).
Proof.
  unfold scroll_text_line_icon.
  keeps_steady; apply keeps_steady_write_icon_prefix_line.
Qed.

Ltac keeps_steady_call :=
  match goal with
  | |- keeps _ (write_line _ _) => apply keeps_steady_write_line
  | |- keeps _ (write_icon_prefix_line _ _ _) =>
      apply keeps_steady_write_icon_prefix_line
  | |- keeps _ (scroll_text_line_icon _ _ _ _) => apply keeps_steady_scroll
  | |- keeps _ (draw_visit_header_counts _ _ _) =>
      apply keeps_steady_draw;
      first [ eapply py_int_prints; eassumption
            | apply prints_small; vm_compute; discriminate ]
  end.

Lemma keeps_steady_set_mode_by_num (rt : PyRuntime) (m : Z) :
  keeps (steady rt) (set_mode_by_num rt m).
Proof.
  unfold set_mode_by_num, enter_visit, enter_music, enter_clock, enter_text,
    enter_system, enter_screen.
  keeps_steady; keeps_steady_call.
Qed.

Lemma keeps_steady_handle_cmd (rt : PyRuntime) (now : float) (cmd : str) :
  keeps (steady rt) (handle_cmd rt now cmd).
Proof.
  unfold handle_cmd. keeps_steady;
    first [ apply keeps_steady_set_mode_by_num | keeps_steady_call ].
Qed.

Lemma keeps_steady_tick_overlay (rt : PyRuntime) (now : float) :
  keeps (steady rt) (tick_overlay rt now).
Proof.
  unfold tick_overlay. cbv zeta.
  apply keeps_bind; [apply keeps_get|]. intros st.
  destruct (_ && _); [|apply keeps_ret].
  apply keeps_bind; [keeps_steady|]. intros _.
  destruct (mode st).
  - apply keeps_bind; [keeps_steady|]. intros _.
    apply keeps_bind; [apply keeps_steady_redraw|]. intros _. keeps_steady.
  - keeps_steady; keeps_steady_call.
  - keeps_steady.
  - keeps_steady.
  - keeps_steady.
  - keeps_steady.
Qed.

Lemma keeps_steady_tick_visit_anim (rt : PyRuntime) (now : float) :
  keeps (steady rt) (tick_visit_anim now).
Proof. unfold tick_visit_anim. keeps_steady. Qed.

Lemma keeps_steady_tick_music_scroll (rt : PyRuntime) (now : float) :
  keeps (steady rt) (tick_music_scroll now).
Proof. unfold tick_music_scroll. keeps_steady; keeps_steady_call. Qed.

Lemma keeps_steady_tick (rt : PyRuntime) (now : float) :
  keeps (steady rt) (tick rt now).
Proof.
  unfold tick. apply keeps_bind; [apply keeps_steady_tick_overlay|]. intros _.
  apply keeps_bind; [apply keeps_steady_tick_visit_anim|]. intros _.
  apply keeps_steady_tick_music_scroll.
Qed.

(** *** What returns *)

Lemma returns_on_ret {S A : Type} (P : S -> Prop) (a : A) : returns_on P (ret a).
Proof. intros s _. now exists a. Qed.

Lemma returns_on_modify {S : Type} (P : S -> Prop) (f : S -> S) :
  returns_on P (modify f).
Proof. intros s _. now exists tt. Qed.

Lemma returns_on_bind {S A B : Type} (P : S -> Prop) (m : M S A) (k : A -> M S B) :
  returns_on P m -> keeps P m -> (forall a, returns_on P (k a)) ->
  returns_on P (bind m k).
Proof.
  intros Hm Hkeep Hk s Hs. unfold bind.
  destruct (Hm s Hs) as [a Ha]. specialize (Hkeep s Hs).
  destruct (m s) as [[a'|e] s']; cbn [fst snd] in *; [|discriminate Ha].
  now apply Hk.
Qed.

Lemma returns_on_get_bind {S B : Type} (P : S -> Prop) (k : S -> M S B) :
  (forall st, P st -> exists b, fst (k st st) = Ok b) -> returns_on P (bind get k).
Proof. intros Hk s Hs. unfold bind, get. now apply Hk. Qed.

Lemma returns_of_eq {S A : Type} (m : M S A) (s s' : S) (a : A) :
  m s = (Ok a, s') -> exists b, fst (m s) = Ok b.
Proof. intros ->. now exists a. Qed.

Lemma returns_steady_ddram_set (rt : PyRuntime) (v : Z) :
  returns_on (steady rt) (ddram_set 1 15 v).
Proof.
  intros st (Hwf & _). eapply returns_of_eq.
  now apply LcdExtra.ddram_set_anim_cell.
Qed.

Lemma returns_steady_write_icon_prefix_line
  (rt : PyRuntime) (row : nat) (icon : Z) (text : str) :
  (row < 2)%nat -> returns_on (steady rt) (write_icon_prefix_line row icon text).
Proof.
  intros Hrow st (Hwf & _). eapply returns_of_eq.
  now apply LcdFacts.write_icon_prefix_line_ok.
Qed.

Lemma returns_steady_scroll
  (rt : PyRuntime) (row : nat) (text : str) (a : idx_attr) (icon : Z) :
  (row < 2)%nat -> returns_on (steady rt) (scroll_text_line_icon row text a icon).
Proof.
  intros Hrow st (Hwf & _). eapply returns_of_eq.
  now apply LcdExtra.scroll_step_eq.
Qed.

Lemma returns_steady_redraw (rt : PyRuntime) :
  returns_on (steady rt)
    (let* st := get in
     draw_visit_header_counts rt (last_visit_astro st) (last_visit_core st)).
Proof.
  apply returns_on_get_bind. intros st (Hwf & Ha & Hc).
  eapply returns_of_eq.
  apply LcdFacts.draw_visit_header_counts_ok;
    [exact Hwf | now apply prints_str | now apply prints_str].
Qed.

Ltac returns_steady :=
  cbv zeta;
  repeat match goal with
         | |- returns_on _ (ret _) => apply returns_on_ret
         | |- returns_on _ (modify _) => apply returns_on_modify
         | |- returns_on _ (ddram_set 1 15 _) => apply returns_steady_ddram_set
         | |- returns_on _ (write_icon_prefix_line _ _ _) =>
             apply returns_steady_write_icon_prefix_line; lia
         | |- returns_on _ (scroll_text_line_icon _ _ _ _) =>
             apply returns_steady_scroll; lia
         | |- returns_on _ (bind get (fun st =>
                 draw_visit_header_counts _ (last_visit_astro st)
                                          (last_visit_core st))) =>
             apply returns_steady_redraw
         | |- returns_on _ (bind get _) =>
             apply returns_on_bind;
             [ intros ? _; eexists; reflexivity | apply keeps_get | intros ? ]
         | |- returns_on _ (bind _ _) =>
             apply returns_on_bind;
             [ | first [ apply keeps_steady_redraw
                       | solve [keeps_steady; keeps_steady_call] ]
               | intros ? ]
         | |- returns_on _ (if ?c then _ else _) => destruct c
         | |- returns_on _ (match ?x with _ => _ end) => destruct x
         end.

Lemma returns_steady_tick (rt : PyRuntime) (now : float) :
  returns_on (steady rt) (tick rt now).
Proof.
  unfold tick.
  apply returns_on_bind; [|apply keeps_steady_tick_overlay|intros _].
  { unfold tick_overlay. returns_steady. }
  apply returns_on_bind; [|apply keeps_steady_tick_visit_anim|intros _].
  { unfold tick_visit_anim. returns_steady. }
  unfold tick_music_scroll. returns_steady.
Qed.

Lemma init_steady (rt : PyRuntime) : steady rt Lcd.init.
Proof.
  split; [apply LcdExtra.init_wf|].
  split; apply prints_small; vm_compute; discriminate.
Qed.

(** X26. [tick] never raises where it can be called: a fresh [LcdState()] has
    its two rows and counts that can be written out; every command and
    every tick keeps that, whatever text the commands carry and whether
    they succeed or are dropped; and from every such state [tick] returns.
    So after any sequence of commands and ticks the next tick returns. *)
Theorem tick_never_raises (rt : PyRuntime) (es : list event) (now : float) :
  (forall st, steady rt st ->
     fst (tick rt now st) = Ok tt /\ steady rt (snd (tick rt now st)))
  /\ (forall cmd, keeps (steady rt) (handle_cmd rt now cmd))
  /\ steady rt (snd (run rt es Lcd.init))
  /\ fst (tick rt now (snd (run rt es Lcd.init))) = Ok tt.
Proof.
  assert (Htick : forall st, steady rt st ->
            fst (tick rt now st) = Ok tt /\ steady rt (snd (tick rt now st))).
  { intros st Hst. split; [|now apply keeps_steady_tick].
    destruct (returns_steady_tick rt now st Hst) as [[] E]. exact E. }
  assert (Hrun : steady rt (snd (run rt es Lcd.init))).
  { assert (H : keeps (steady rt) (run rt es)).
    { unfold run. apply keeps_for_each. intros [t line|t]; cbn [step].
      - apply keeps_steady_handle_cmd.
      - apply keeps_steady_tick. }
    apply H, init_steady. }
  split; [exact Htick|]. split; [intros cmd; apply keeps_steady_handle_cmd|].
  split; [exact Hrun|]. now apply Htick.
Qed.

End TickExtra.
